(** * Reddit data pipeline: extract, transform, validate

    A shallow embedding of the extract -> transform -> validate core of the
    pipeline (src/ingestion/reddit_extractor.py,
    src/processing/data_transformer.py, src/processing/data_validator.py,
    src/pipelines/reddit_pipeline.py) together with the fragment of Python
    and pandas these modules call.

    Conventions of the embedding:
    - a Python object is a [pyobj]; a float is the rational it denotes
      ([Q]) and the float NaN is the separate object [PNaN]; the float
      arithmetic whose result is compared with a threshold is IEEE 754
      binary64; Python integers are unbounded and [int64] arithmetic wraps;
    - a string is held as its UTF-8 bytes; paths are POSIX paths;
    - a pandas column is a [Series], tagged by its dtype;
    - a raised exception is a value of [exn]; code that can raise returns a
      [result];
    - code that reads or writes mutable state (DataFrame objects, the clock,
      the Reddit API, the output directory) runs in the monad [M] over
      [World];
    - pandas is the 2.x series pinned by setup.py (pandas>=2.1.0). *)

From Stdlib Require Import ZArith QArith Qround List String Ascii Bool Lia.
From Stdlib Require Import DecimalString.
From Stdlib Require Floats.SpecFloat.
Import ListNotations.

Local Open Scope list_scope.
Local Open Scope string_scope.

(** ** Strings *)

Definition Z_to_string (z : Z) : string := NilZero.string_of_int (Z.to_int z).

Definition nat_to_string (n : nat) : string := Z_to_string (Z.of_nat n).

(** Python's [str.isspace] on the ASCII range. *)
Definition is_space (a : ascii) : bool :=
  let n := nat_of_ascii a in
  ((9 <=? n) && (n <=? 13) || (28 <=? n) && (n <=? 32))%nat.

Fixpoint lstrip (s : string) : string :=
  match s with
  | String a s' => if is_space a then lstrip s' else s
  | EmptyString => EmptyString
  end.

Fixpoint all_space (s : string) : bool :=
  match s with
  | String a s' => is_space a && all_space s'
  | EmptyString => true
  end.

Fixpoint rstrip (s : string) : string :=
  match s with
  | String a s' => if all_space s then EmptyString else String a (rstrip s')
  | EmptyString => EmptyString
  end.

(** [s.strip()] *)
Definition strip (s : string) : string := rstrip (lstrip s).

(** [len(s.split())]: the number of maximal runs of non-space characters. *)
Fixpoint count_words_from (in_word : bool) (s : string) : nat :=
  match s with
  | EmptyString => 0
  | String a s' =>
      if is_space a then count_words_from false s'
      else if in_word then count_words_from true s'
           else S (count_words_from true s')
  end.

Definition count_words (s : string) : nat := count_words_from false s.

Fixpoint starts_with (p s : string) : bool :=
  match p, s with
  | EmptyString, _ => true
  | String a p', String b s' => Ascii.eqb a b && starts_with p' s'
  | String _ _, EmptyString => false
  end.

(** [p in s] *)
Fixpoint contains (p s : string) : bool :=
  starts_with p s ||
  match s with
  | EmptyString => false
  | String _ s' => contains p s'
  end.

(** [sep.join(l)] *)
Fixpoint join (sep : string) (l : list string) : string :=
  match l with
  | [] => ""
  | [x] => x
  | x :: rest => x ++ sep ++ join sep rest
  end.

Definition mem (x : string) (l : list string) : bool :=
  existsb (String.eqb x) l.

(** [s.split(sep)] for a separator of one character. *)
Fixpoint split_on (sep : ascii) (s : string) : list string :=
  match s with
  | EmptyString => [EmptyString]
  | String a s' =>
      if Ascii.eqb a sep then EmptyString :: split_on sep s'
      else match split_on sep s' with
           | part :: rest => String a part :: rest
           | [] => [String a EmptyString]
           end
  end.

(** *** Paths

    [pathlib] on POSIX: a path is a root ('', '/' or, for exactly two
    leading slashes, '//') and its components, where empty components and
    '.' are dropped. *)

Definition path_root (s : string) : string :=
  if starts_with "///" s then "/"
  else if starts_with "//" s then "//"
  else if starts_with "/" s then "/"
  else "".

Definition path_parts (s : string) : list string :=
  filter (fun part => negb (String.eqb part "" || String.eqb part "."))
         (split_on "/" s).

(** [str(path)] *)
Definition path_str (root : string) (parts : list string) : string :=
  match root, parts with
  | EmptyString, [] => "."
  | _, _ => root ++ join "/" parts
  end.

(** [str(Path(a) / b)]: an absolute [b] replaces [a]. *)
Definition path_join (a b : string) : string :=
  if starts_with "/" b then path_str (path_root b) (path_parts b)
  else path_str (path_root a) (path_parts a ++ path_parts b)%list.

(** [repr] of a list of plain column names, as an f-string prints it. *)
Definition repr_names (l : list string) : string :=
  "[" ++ join ", " (map (fun c => "'" ++ c ++ "'") l) ++ "]".

Definition is_digit (a : ascii) : bool :=
  let n := nat_of_ascii a in ((48 <=? n) && (n <=? 57))%nat.

Definition digit_val (a : ascii) : Z := Z.of_nat (nat_of_ascii a - 48).

(** Digits of an integer literal; single underscores may separate digits. *)
Fixpoint parse_digits (s : string) (acc : Z) (after_digit : bool) : option Z :=
  match s with
  | EmptyString => if after_digit then Some acc else None
  | String a s' =>
      if is_digit a then parse_digits s' (acc * 10 + digit_val a)%Z true
      else if Ascii.eqb a "_" && after_digit then
             match s' with
             | String b _ => if is_digit b then parse_digits s' acc false else None
             | EmptyString => None
             end
           else None
  end.

Definition parse_signed (s : string) : option Z :=
  match s with
  | String "-" s' => option_map Z.opp (parse_digits s' 0%Z false)
  | String "+" s' => parse_digits s' 0%Z false
  | _ => parse_digits s 0%Z false
  end.

(** [int(s)] for a string: [None] stands for [ValueError]. *)
Definition parse_int (s : string) : option Z := parse_signed (strip s).

(** ** Time *)

(** Days since 1970-01-01 to a civil (year, month, day). *)
Definition civil_from_days (d : Z) : Z * Z * Z :=
  let z := (d + 719468)%Z in
  let era := (z / 146097)%Z in
  let doe := (z - era * 146097)%Z in
  let yoe := ((doe - doe / 1460 + doe / 36524 - doe / 146096) / 365)%Z in
  let y := (yoe + era * 400)%Z in
  let doy := (doe - (365 * yoe + yoe / 4 - yoe / 100))%Z in
  let mp := ((5 * doy + 2) / 153)%Z in
  let day := (doy - (153 * mp + 2) / 5 + 1)%Z in
  let m := (if (mp <? 10)%Z then mp + 3 else mp - 9)%Z in
  ((if (m <=? 2)%Z then y + 1 else y)%Z, m, day).

Definition pad2 (z : Z) : string :=
  if (z <? 10)%Z then "0" ++ Z_to_string z else Z_to_string z.

Definition pad4 (z : Z) : string :=
  if (z <? 10)%Z then "000" ++ Z_to_string z
  else if (z <? 100)%Z then "00" ++ Z_to_string z
  else if (z <? 1000)%Z then "0" ++ Z_to_string z
  else Z_to_string z.

Definition ns_per_s : Z := 1000000000.
Definition ns_per_day : Z := 86400 * ns_per_s.

Definition date_to_string (days : Z) : string :=
  let '(y, m, d) := civil_from_days days in
  pad4 y ++ "-" ++ pad2 m ++ "-" ++ pad2 d.

(** A [datetime64[ns]] value is a count of nanoseconds since the epoch. *)
Definition ts_days (ns : Z) : Z := (ns / ns_per_day)%Z.
Definition ts_hour (ns : Z) : Z := ((ns mod ns_per_day) / (3600 * ns_per_s))%Z.
Definition ts_minute (ns : Z) : Z := ((ns mod (3600 * ns_per_s)) / (60 * ns_per_s))%Z.
Definition ts_second (ns : Z) : Z := ((ns mod (60 * ns_per_s)) / ns_per_s)%Z.

Definition day_names : list string :=
  ["Monday"; "Tuesday"; "Wednesday"; "Thursday"; "Friday"; "Saturday"; "Sunday"].

(** 1970-01-01 was a Thursday. *)
Definition ts_day_name (ns : Z) : string :=
  nth (Z.to_nat ((ts_days ns + 3) mod 7)) day_names "".

(** [strftime('%Y-%m-%d %H:%M:%S')] *)
Definition ts_strftime (ns : Z) : string :=
  date_to_string (ts_days ns) ++ " " ++ pad2 (ts_hour ns) ++ ":" ++
  pad2 (ts_minute ns) ++ ":" ++ pad2 (ts_second ns).

(** [str(Timestamp)] at whole seconds. *)
Definition ts_to_string (ns : Z) : string := ts_strftime ns.

(** [datetime.now().strftime("%Y%m%d")] *)
Definition ts_yyyymmdd (ns : Z) : string :=
  let '(y, m, d) := civil_from_days (ts_days ns) in
  pad4 y ++ pad2 m ++ pad2 d.

(** ** Floats as rationals *)

Definition Qtrunc (q : Q) : Z := Z.quot (Qnum q) (Zpos (Qden q)).

Definition Qeqb (a b : Q) : bool := Qeq_bool a b.
Definition Qltb (a b : Q) : bool := negb (Qle_bool b a).
Definition Qgtb (a b : Q) : bool := Qltb b a.

Fixpoint frac_digits (fuel : nat) (num den : Z) : string :=
  match fuel with
  | O => ""
  | S fuel' =>
      if (num =? 0)%Z then ""
      else Z_to_string (num * 10 / den) ++ frac_digits fuel' ((num * 10) mod den)%Z den
  end.

(** [str(x)] of a float: integral part, a point, and the fractional digits
    (at least one, at most seventeen). *)
Definition float_str (q : Q) : string :=
  let n := Qnum q in
  let d := Zpos (Qden q) in
  let a := Z.abs n in
  let fr := frac_digits 17 (a mod d)%Z d in
  (if (n <? 0)%Z then "-" else "") ++ Z_to_string (a / d) ++ "." ++
  (if String.eqb fr "" then "0" else fr).

(** Round half to even. *)
Definition round_half_even (q : Q) : Z :=
  let f := Qfloor q in
  let r := (q - inject_Z f)%Q in
  if Qltb r (1 # 2) then f
  else if Qltb (1 # 2) r then (f + 1)%Z
  else if Z.even f then f else (f + 1)%Z.

(** [f"{q:.2f}"] *)
Definition fmt2 (q : Q) : string :=
  let c := round_half_even (q * 100)%Q in
  let a := Z.abs c in
  (if (c <? 0)%Z then "-" else "") ++ Z_to_string (a / 100) ++ "." ++ pad2 (a mod 100).

(** *** float64 arithmetic

    Where the code compares the result of float arithmetic with a
    threshold, the arithmetic is IEEE 754 binary64, after the Standard
    Library's [SpecFloat]: each operation rounds to the nearest float, ties
    to even. A finite float is carried as the rational it denotes. *)

Definition float64 : Type := SpecFloat.spec_float.

(** [float(z)] *)
Definition f64_of_Z (z : Z) : float64 := SpecFloat.binary_normalize 53 1024 z 0 false.

Definition f64_div (x y : float64) : float64 := SpecFloat.SFdiv 53 1024 x y.
Definition f64_mul (x y : float64) : float64 := SpecFloat.SFmul 53 1024 x y.

(** The rational a finite float denotes. *)
Definition f64_value (f : float64) : Q :=
  match f with
  | SpecFloat.S754_finite s m e =>
      let v := if (0 <=? e)%Z then inject_Z (Zpos m * 2 ^ e)
               else (Zpos m # Pos.shiftl 1 (Z.to_N (- e)))%Q in
      if s then Qopp v else v
  | _ => 0%Q
  end.

(** The float nearest to a rational; exact on the value of a float. *)
Definition f64_of_Q (q : Q) : float64 :=
  let r := Qred q in f64_div (f64_of_Z (Qnum r)) (f64_of_Z (Zpos (Qden r))).

(** ** Python objects *)

Inductive pyobj : Type :=
| PNone                 (* None *)
| PNaN                  (* float('nan') *)
| PNaT                  (* pandas.NaT *)
| PBool (b : bool)
| PInt (z : Z)
| PFloat (q : Q)
| PStr (s : string)
| PDate (days : Z)      (* datetime.date, as days since the epoch *)
| PObj (s : string).    (* any other object, e.g. a PRAW Redditor or
                           Subreddit; [s] is its [str()] form *)

(** [pd.isna(v)] *)
Definition is_null (v : pyobj) : bool :=
  match v with
  | PNone | PNaN | PNaT => true
  | _ => false
  end.

(** [bool(v)] *)
Definition truthy (v : pyobj) : bool :=
  match v with
  | PNone => false
  | PNaN => true
  | PNaT => true
  | PBool b => b
  | PInt z => negb (z =? 0)%Z
  | PFloat q => negb (Qeqb q 0)
  | PStr s => negb (String.eqb s "")
  | PDate _ => true
  | PObj _ => true
  end.

(** [str(v)] *)
Definition py_str (v : pyobj) : string :=
  match v with
  | PNone => "None"
  | PNaN => "nan"
  | PNaT => "NaT"
  | PBool true => "True"
  | PBool false => "False"
  | PInt z => Z_to_string z
  | PFloat q => float_str q
  | PStr s => s
  | PDate d => date_to_string d
  | PObj s => s
  end.

Definition num_of (v : pyobj) : option Q :=
  match v with
  | PBool b => Some (if b then 1 else 0)%Q
  | PInt z => Some (inject_Z z)
  | PFloat q => Some q
  | _ => None
  end.

(** Equality of two objects as keys of a pandas hash table: [==], with all
    NaNs equal to each other. *)
Definition py_eqb (a b : pyobj) : bool :=
  match num_of a, num_of b with
  | Some x, Some y => Qeqb x y
  | None, None =>
      match a, b with
      | PNone, PNone => true
      | PNaN, PNaN => true
      | PNaT, PNaT => true
      | PStr s, PStr t => String.eqb s t
      | PDate d, PDate e => (d =? e)%Z
      | PObj s, PObj t => String.eqb s t
      | _, _ => false
      end
  | _, _ => false
  end.

(** ** Exceptions *)

Inductive exn_class : Type :=
| ValueError | TypeError | AttributeError | OSError
| PrawcoreException
| RedditPipelineException
| RedditAPIException | S3Exception | DataValidationException
| ConfigurationException | ProcessingException.

Record exn : Type := Exn { exn_class_of : exn_class; exn_msg : string }.

(** [isinstance(e, PrawcoreException)] *)
Definition is_prawcore (e : exn) : bool :=
  match exn_class_of e with PrawcoreException => true | _ => false end.

(** src/utils/exceptions.py: every pipeline exception derives from
    [RedditPipelineException]. *)
Definition is_pipeline_exception (e : exn) : bool :=
  match exn_class_of e with
  | RedditPipelineException | RedditAPIException | S3Exception
  | DataValidationException | ConfigurationException | ProcessingException => true
  | _ => false
  end.

Inductive result (A : Type) : Type :=
| Ok (a : A)
| Raise (e : exn).

Arguments Ok {A} a.
Arguments Raise {A} e.

Definition rbind {A B} (r : result A) (k : A -> result B) : result B :=
  match r with
  | Ok a => k a
  | Raise e => Raise e
  end.

Declare Scope result_scope.
Delimit Scope result_scope with result.
Notation "x <- c ;; k" := (rbind c (fun x => k))
  (at level 100, c at next level, right associativity) : result_scope.

(** [try: body except Exception as e: handler(e)] *)
Definition try_except {A} (body : result A) (handler : exn -> result A) : result A :=
  match body with
  | Ok a => Ok a
  | Raise e => handler e
  end.

Definition is_ok {A} (r : result A) : bool :=
  match r with Ok _ => true | Raise _ => false end.

Fixpoint rmap {A B} (f : A -> result B) (l : list A) : result (list B) :=
  match l with
  | [] => Ok []
  | x :: rest =>
      rbind (f x) (fun y => rbind (rmap f rest) (fun ys => Ok (y :: ys)))
  end.

(** [int(v)] *)
Definition py_int (v : pyobj) : result pyobj :=
  match v with
  | PBool b => Ok (PInt (if b then 1 else 0))
  | PInt z => Ok (PInt z)
  | PFloat q => Ok (PInt (Qtrunc q))
  | PNaN => Raise (Exn ValueError "cannot convert float NaN to integer")
  | PStr s =>
      match parse_int s with
      | Some z => Ok (PInt z)
      | None => Raise (Exn ValueError
                         ("invalid literal for int() with base 10: '" ++ s ++ "'"))
      end
  | _ => Raise (Exn TypeError
                  "int() argument must be a string, a bytes-like object or a real number")
  end.

(** An insertion-ordered [dict] with string keys. *)
Definition pydict : Type := list (string * pyobj).

Fixpoint dict_get (d : pydict) (k : string) : option pyobj :=
  match d with
  | [] => None
  | (k', v) :: rest => if String.eqb k k' then Some v else dict_get rest k
  end.

(** [d[k] = v] *)
Fixpoint dict_set (d : pydict) (k : string) (v : pyobj) : pydict :=
  match d with
  | [] => [(k, v)]
  | (k', v') :: rest =>
      if String.eqb k k' then (k', v) :: rest else (k', v') :: dict_set rest k v
  end.

Definition dict_keys (d : pydict) : list string := map fst d.

(** ** pandas: Series *)

(** A column, tagged by its dtype: [bool], [int64], [float64] ([None] is
    NaN), [datetime64[ns]] ([None] is NaT) and [object]. A categorical
    column is kept as an [object] column of its labels. *)
Inductive Series : Type :=
| SBool (l : list bool)
| SInt (l : list Z)
| SFloat (l : list (option Q))
| SDatetime (l : list (option Z))
| SObject (l : list pyobj).

Definition float_obj (x : option Q) : pyobj :=
  match x with Some q => PFloat q | None => PNaN end.

(** A [Timestamp] met as an object prints as its [str()]; NaT stays NaT. *)
Definition time_obj (x : option Z) : pyobj :=
  match x with Some ns => PObj (ts_to_string ns) | None => PNaT end.

(** The elements of a column as Python objects. *)
Definition to_objects (s : Series) : list pyobj :=
  match s with
  | SBool l => map PBool l
  | SInt l => map PInt l
  | SFloat l => map float_obj l
  | SDatetime l => map time_obj l
  | SObject l => l
  end.

Definition series_len (s : Series) : nat := List.length (to_objects s).

(** [s.isnull()] *)
Definition isnull (s : Series) : list bool := map is_null (to_objects s).

(** [s.notna()] *)
Definition notna (s : Series) : list bool := map negb (isnull s).

Definition count_true (m : list bool) : nat :=
  List.length (filter (fun b => b) m).

(** Boolean indexing: keep the positions where the mask is true. *)
Fixpoint mask_filter {A} (m : list bool) (l : list A) : list A :=
  match m, l with
  | b :: m', x :: l' => if b then x :: mask_filter m' l' else mask_filter m' l'
  | _, _ => []
  end.

Definition series_filter (m : list bool) (s : Series) : Series :=
  match s with
  | SBool l => SBool (mask_filter m l)
  | SInt l => SInt (mask_filter m l)
  | SFloat l => SFloat (mask_filter m l)
  | SDatetime l => SDatetime (mask_filter m l)
  | SObject l => SObject (mask_filter m l)
  end.

(** *** dtype inference ([lib.maybe_convert_objects]) *)

Definition is_plain_object (v : pyobj) : bool :=
  match v with PStr _ | PDate _ | PObj _ => true | _ => false end.
Definition is_pbool (v : pyobj) : bool :=
  match v with PBool _ => true | _ => false end.
Definition is_pint (v : pyobj) : bool :=
  match v with PInt _ => true | _ => false end.
Definition is_pfloat (v : pyobj) : bool :=
  match v with PFloat _ => true | _ => false end.
Definition is_pnan (v : pyobj) : bool :=
  match v with PNaN => true | _ => false end.
Definition is_pnat (v : pyobj) : bool :=
  match v with PNaT => true | _ => false end.
Definition is_pnone (v : pyobj) : bool :=
  match v with PNone => true | _ => false end.

Definition as_bool (v : pyobj) : bool :=
  match v with PBool b => b | _ => false end.
Definition as_int (v : pyobj) : Z :=
  match v with PInt z => z | _ => 0%Z end.
Definition as_float (v : pyobj) : option Q := num_of v.

(** The dtype pandas gives a sequence of objects: strings and other objects
    keep the column [object]; booleans alone give [bool], and [object] when
    mixed with anything else; integers alone give [int64]; numbers with a
    null, or with a float, give [float64] where None becomes NaN; nulls
    alone give [float64] when one of them is a NaN and [object] otherwise. *)
Definition infer_objects (l : list pyobj) : Series :=
  if existsb is_plain_object l then SObject l
  else if existsb is_pnat l then
    if existsb is_pbool l || existsb is_pint l || existsb is_pfloat l
    then SObject l else SDatetime (map (fun _ => None) l)
  else if existsb is_pbool l then
    if forallb is_pbool l then SBool (map as_bool l) else SObject l
  else if existsb is_pnone l || existsb is_pnan l then
    if existsb is_pfloat l || existsb is_pint l || existsb is_pnan l
    then SFloat (map as_float l) else SObject l
  else if existsb is_pfloat l then SFloat (map as_float l)
  else if existsb is_pint l then SInt (map as_int l)
  else SObject l.

(** *** Element-wise conversions *)

(** [s.astype(str)] *)
Definition astype_str (s : Series) : Series :=
  SObject (map (fun v => PStr (py_str v)) (to_objects s)).

Definition is_one_of (olds : list string) (v : pyobj) : bool :=
  match v with PStr x => mem x olds | _ => false end.

Definition put_nan (olds : list string) (l : list pyobj) : list pyobj :=
  map (fun v => if is_one_of olds v then PNaN else v) l.

(** [s.replace(old, np.nan)] for a string [old]: a column that is not
    [object] cannot hold [old] and is returned as it is; so is a column with
    no occurrence; otherwise the occurrences become NaN and the block is
    converted again ([Block.convert]), so that a column left with nothing
    but NaN comes back as [float64]. *)
Definition replace_nan (old : string) (s : Series) : Series :=
  match s with
  | SObject l =>
      if existsb (is_one_of [old]) l then infer_objects (put_nan [old] l) else s
  | _ => s
  end.

(** [s.replace([old1; ...], np.nan)]: the list form converts an [object]
    block after the last replacement, whether or not anything matched. *)
Definition replace_list_nan (olds : list string) (s : Series) : Series :=
  match s with
  | SObject l => infer_objects (put_nan olds l)
  | _ => s
  end.

(** Numerals that [to_numeric] reads: an optional sign, digits with an
    optional point, and an optional exponent; a numeral without point and
    exponent is an integer, any other a float. Underscores are refused.
    The spellings of infinity are left out and read as unparsable. *)
Fixpoint split_at_dot (s : string) : string * option string :=
  match s with
  | EmptyString => (EmptyString, None)
  | String a s' =>
      if Ascii.eqb a "." then (EmptyString, Some s')
      else let '(i, f) := split_at_dot s' in (String a i, f)
  end.

Fixpoint split_at_exponent (s : string) : string * option string :=
  match s with
  | EmptyString => (EmptyString, None)
  | String a s' =>
      if Ascii.eqb a "e" || Ascii.eqb a "E" then (EmptyString, Some s')
      else let '(m, x) := split_at_exponent s' in (String a m, x)
  end.

Definition split_sign (s : string) : bool * string :=
  match s with
  | String "-" s' => (true, s')
  | String "+" s' => (false, s')
  | _ => (false, s)
  end.

(** The value of a run of digits; 0 for the empty run. *)
Fixpoint digits_value (s : string) (acc : Z) : option Z :=
  match s with
  | EmptyString => Some acc
  | String a s' =>
      if is_digit a then digits_value s' (acc * 10 + digit_val a)%Z else None
  end.

Definition pow10 (e : Z) : Q :=
  if (0 <=? e)%Z then inject_Z (10 ^ e) else (1 / inject_Z (10 ^ (- e)))%Q.

Inductive numeral : Type :=
| NInt (z : Z) | NFloat (q : Q) | NBool (b : bool) | NNaN.

Definition parse_number (s : string) : numeral :=
  let '(mantissa, exponent) := split_at_exponent (strip s) in
  let '(negative, body) := split_sign mantissa in
  let '(i, f) := split_at_dot body in
  let frac := match f with Some digits => digits | None => "" end in
  if String.eqb (i ++ frac) "" then NNaN
  else
    match digits_value i 0%Z, digits_value frac 0%Z with
    | Some zi, Some zf =>
        let magnitude :=
          (inject_Z zi + inject_Z zf / inject_Z (10 ^ Z.of_nat (String.length frac)))%Q in
        let signed := if negative then Qopp magnitude else magnitude in
        match f, exponent with
        | None, None => NInt (if negative then - zi else zi)%Z
        | _, None => NFloat signed
        | _, Some x =>
            let '(down, digits) := split_sign x in
            if String.eqb digits "" then NNaN
            else match digits_value digits 0%Z with
                 | Some ze => NFloat (signed * pow10 (if down then - ze else ze))%Q
                 | None => NNaN
                 end
        end
    | _, _ => NNaN
    end.

Definition numeral_of (v : pyobj) : numeral :=
  match v with
  | PBool b => NBool b
  | PInt z => NInt z
  | PFloat q => NFloat q
  | PStr s => parse_number s
  | _ => NNaN
  end.

Definition numeral_is_float (n : numeral) : bool :=
  match n with NFloat _ | NNaN => true | _ => false end.
Definition numeral_is_int (n : numeral) : bool :=
  match n with NInt _ => true | _ => false end.
Definition numeral_float (n : numeral) : option Q :=
  match n with
  | NFloat q => Some q
  | NInt z => Some (inject_Z z)
  | NBool b => Some (if b then 1 else 0)%Q
  | NNaN => None
  end.
Definition numeral_int (n : numeral) : Z :=
  match n with NInt z => z | NBool true => 1%Z | _ => 0%Z end.
Definition numeral_bool (n : numeral) : bool :=
  match n with NBool b => b | _ => false end.

(** [pd.to_numeric(s, errors='coerce')]: a numeric column is returned as it
    is; a datetime column gives its nanosecond counts; in an [object] column
    what is not a number becomes NaN. *)
Definition to_numeric (s : Series) : Series :=
  match s with
  | SBool _ | SInt _ | SFloat _ => s
  | SDatetime l =>
      SInt (map (fun x => match x with Some ns => ns | None => (- 2 ^ 63)%Z end) l)
  | SObject l =>
      let ns := map numeral_of l in
      if existsb numeral_is_float ns then SFloat (map numeral_float ns)
      else if existsb numeral_is_int ns then SInt (map numeral_int ns)
      else match ns with
           | [] => SInt []
           | _ => SBool (map numeral_bool ns)
           end
  end.

(** [s.astype(bool)]: truthiness of each element, so that None is False
    and NaN is True; a datetime is False at the epoch only. *)
Definition astype_bool (s : Series) : Series :=
  match s with
  | SDatetime l =>
      SBool (map (fun x => match x with Some ns => negb (ns =? 0)%Z | None => true end) l)
  | _ => SBool (map truthy (to_objects s))
  end.

Definition in_ns_bounds (ns : Z) : bool :=
  ((- 2 ^ 63 <? ns) && (ns <? 2 ^ 63))%Z.

Definition seconds_to_ts (q : Q) : option Z :=
  let ns := round_half_even (q * inject_Z ns_per_s)%Q in
  if in_ns_bounds ns then Some ns else None.

Definition obj_to_ts (v : pyobj) : option Z :=
  match v with
  | PInt z => seconds_to_ts (inject_Z z)
  | PFloat q => seconds_to_ts q
  | PStr s => match parse_number s with
              | NInt z => seconds_to_ts (inject_Z z)
              | NFloat q => seconds_to_ts q
              | _ => None
              end
  | _ => None
  end.

(** [pd.to_datetime(s, unit='s', errors='coerce')] *)
Definition to_datetime (s : Series) : Series :=
  match s with
  | SDatetime l => SDatetime l
  | _ => SDatetime (map obj_to_ts (to_objects s))
  end.

(** *** The [.str] and [.dt] accessors *)

Definition is_pdate (v : pyobj) : bool :=
  match v with PDate _ => true | _ => false end.

(** [.str] is refused with AttributeError unless the column is [object] and
    [lib.infer_dtype(values, skipna=True)] is one of string, empty, mixed
    and mixed-integer. *)
Definition str_accessor_ok (s : Series) : bool :=
  match s with
  | SObject l =>
      let vals := filter (fun v => negb (is_null v)) l in
      match vals with
      | [] => true
      | PInt _ :: _ | PFloat _ :: _ =>
          negb (forallb (fun v => is_pint v || is_pfloat v) vals)
      | PBool _ :: _ => negb (forallb is_pbool vals)
      | PDate _ :: _ => negb (forallb is_pdate vals)
      | _ => true
      end
  | _ => false
  end.

Definition str_accessor_error : exn :=
  Exn AttributeError "Can only use .str accessor with string values!".

Definition dt_accessor_error : exn :=
  Exn AttributeError "Can only use .dt accessor with datetimelike values".

(** [s.str.strip()]: an element that is not a string becomes NaN. *)
Definition str_strip (s : Series) : result Series :=
  if str_accessor_ok s then
    Ok (SObject (map (fun v => match v with PStr x => PStr (strip x) | _ => PNaN end)
                     (to_objects s)))
  else Raise str_accessor_error.

(** A column of counts: [int64], or [float64] as soon as one is missing. *)
Definition counts_series (l : list (option nat)) : Series :=
  if forallb (fun x => match x with Some _ => true | None => false end) l
  then SInt (map (fun x => match x with Some n => Z.of_nat n | None => 0%Z end) l)
  else SFloat (map (option_map (fun n => inject_Z (Z.of_nat n))) l).

(** [len(x)]: the characters of a string held as UTF-8, that is its bytes
    other than continuation bytes. *)
Fixpoint char_count (x : string) : nat :=
  match x with
  | EmptyString => O
  | String a x' =>
      let n := nat_of_ascii a in
      if ((128 <=? n) && (n <? 192))%nat then char_count x' else S (char_count x')
  end.

(** [s.str.len()] *)
Definition str_len (s : Series) : result Series :=
  if str_accessor_ok s then
    Ok (counts_series
          (map (fun v => match v with PStr x => Some (char_count x) | _ => None end)
               (to_objects s)))
  else Raise str_accessor_error.

(** [s.str.split().str.len()] *)
Definition str_word_count (s : Series) : result Series :=
  if str_accessor_ok s then
    Ok (counts_series
          (map (fun v => match v with PStr x => Some (count_words x) | _ => None end)
               (to_objects s)))
  else Raise str_accessor_error.

(** [s.dt.date] *)
Definition dt_date (s : Series) : result Series :=
  match s with
  | SDatetime l =>
      Ok (SObject (map (fun x => match x with
                                 | Some ns => PDate (ts_days ns)
                                 | None => PNaT
                                 end) l))
  | _ => Raise dt_accessor_error
  end.

(** [s.dt.hour] *)
Definition dt_hour (s : Series) : result Series :=
  match s with
  | SDatetime l =>
      Ok (if forallb (fun x => match x with Some _ => true | None => false end) l
          then SInt (map (fun x => match x with Some ns => ts_hour ns | None => 0%Z end) l)
          else SFloat (map (option_map (fun ns => inject_Z (ts_hour ns))) l))
  | _ => Raise dt_accessor_error
  end.

(** [s.dt.day_name()] *)
Definition dt_day_name (s : Series) : result Series :=
  match s with
  | SDatetime l =>
      Ok (SObject (map (fun x => match x with
                                 | Some ns => PStr (ts_day_name ns)
                                 | None => PNaN
                                 end) l))
  | _ => Raise dt_accessor_error
  end.

(** *** Arithmetic and binning *)

Definition type_error (msg : string) : exn := Exn TypeError msg.

(** A number as an operand of arithmetic or of a comparison. Strings and
    None are refused by [+], [*] and [<] against a number. *)
Definition operand_of (v : pyobj) : result numeral :=
  match v with
  | PBool b => Ok (NInt (if b then 1 else 0))
  | PInt z => Ok (NInt z)
  | PFloat q => Ok (NFloat q)
  | PNaN => Ok NNaN
  | _ => Raise (type_error "unsupported operand type(s)")
  end.

Definition numeral_obj (n : numeral) : pyobj :=
  match n with
  | NInt z => PInt z
  | NFloat q => PFloat q
  | NBool b => PBool b
  | NNaN => PNaN
  end.

(** [a + b * 2] on numbers *)
Definition add_twice (a b : numeral) : numeral :=
  match a, b with
  | NNaN, _ | _, NNaN => NNaN
  | NInt x, NInt y => NInt (x + y * 2)
  | _, _ =>
      match numeral_float a, numeral_float b with
      | Some x, Some y => NFloat (x + y * 2)%Q
      | _, _ => NNaN
      end
  end.

Fixpoint zip_with {A B C} (f : A -> B -> C) (l : list A) (m : list B) : list C :=
  match l, m with
  | x :: l', y :: m' => f x y :: zip_with f l' m'
  | _, _ => []
  end.

Definition is_sfloat (s : Series) : bool :=
  match s with SFloat _ => true | _ => false end.
Definition is_sobject (s : Series) : bool :=
  match s with SObject _ => true | _ => false end.
Definition is_sdatetime (s : Series) : bool :=
  match s with SDatetime _ => true | _ => false end.

(** Arithmetic on [int64] wraps around. *)
Definition wrap_int64 (z : Z) : Z := ((z + 2 ^ 63) mod 2 ^ 64 - 2 ^ 63)%Z.

(** [score + (num_comments * 2)] *)
Definition engagement (score comments : Series) : result Series :=
  if is_sdatetime score || is_sdatetime comments
  then Raise (type_error "unsupported operand type(s)")
  else
    (a <- rmap operand_of (to_objects score) ;;
     b <- rmap operand_of (to_objects comments) ;;
     let r := zip_with add_twice a b in
     Ok (if is_sobject score || is_sobject comments then SObject (map numeral_obj r)
         else if is_sfloat score || is_sfloat comments then SFloat (map numeral_float r)
         else SInt (map (fun n => wrap_int64 (numeral_int n)) r)))%result.

(** The label of [pd.cut] with bins [-inf, 0, 10, 100, 1000, inf], closed on
    the right. *)
Definition popularity_label (n : numeral) : pyobj :=
  match numeral_float n with
  | None => PNaN
  | Some q =>
      if Qle_bool q 0 then PStr "Negative"
      else if Qle_bool q 10 then PStr "Low"
      else if Qle_bool q 100 then PStr "Medium"
      else if Qle_bool q 1000 then PStr "High"
      else PStr "Viral"
  end.

(** [pd.cut(score, bins=..., labels=...)] *)
Definition cut_popularity (score : Series) : result Series :=
  if is_sdatetime score then Raise (type_error "cannot bin datetimes with numeric edges")
  else (a <- rmap operand_of (to_objects score) ;;
        Ok (SObject (map popularity_label a)))%result.

(** [s < c] and [s > c] against a number: a null compares false; a
    datetime column, or a string in an [object] column, raises TypeError. *)
Definition numeral_ltb (n : numeral) (c : Q) : bool :=
  match numeral_float n with Some q => Qltb q c | None => false end.
Definition numeral_gtb (n : numeral) (c : Q) : bool :=
  match numeral_float n with Some q => Qgtb q c | None => false end.

Definition compare_operand (v : pyobj) : result numeral :=
  match v with
  | PNone | PNaT => Ok NNaN
  | _ => operand_of v
  end.

Definition lt_const (s : Series) (c : Q) : result (list bool) :=
  if is_sdatetime s then Raise (type_error "Invalid comparison between dtype=datetime64[ns] and int")
  else (a <- rmap compare_operand (to_objects s) ;;
        Ok (map (fun n => numeral_ltb n c) a))%result.

Definition gt_const (s : Series) (c : Q) : result (list bool) :=
  if is_sdatetime s then Raise (type_error "Invalid comparison between dtype=datetime64[ns] and int")
  else (a <- rmap compare_operand (to_objects s) ;;
        Ok (map (fun n => numeral_gtb n c) a))%result.

(** *** Duplicates and counts *)

Definition seen (v : pyobj) (earlier : list pyobj) : bool :=
  existsb (py_eqb v) earlier.

(** The mask of first occurrences: position [i] is kept when no earlier
    position holds an equal value. *)
Fixpoint first_occurrence (earlier : list pyobj) (l : list pyobj) : list bool :=
  match l with
  | [] => []
  | v :: rest => negb (seen v earlier) :: first_occurrence (v :: earlier) rest
  end.

(** [s.duplicated()] with [keep='first'] *)
Definition duplicated (s : Series) : list bool :=
  map negb (first_occurrence [] (to_objects s)).

Fixpoint count_value (v : pyobj) (l : list pyobj) : nat :=
  match l with
  | [] => 0
  | x :: rest => (if py_eqb v x then 1 else 0) + count_value v rest
  end.

(** [s.value_counts().to_dict()]: the non-null values with their counts.
    As a dict its order is immaterial; it is listed by first appearance. *)
Definition value_counts (s : Series) : list (pyobj * nat) :=
  let l := filter (fun v => negb (is_null v)) (to_objects s) in
  map (fun v => (v, count_value v l)) (mask_filter (first_occurrence [] l) l).

(** *** dtype predicates *)

(** [pd.api.types.is_string_dtype(s)]: an [object] column whose elements are
    all strings, and there is at least one. *)
Definition is_string_dtype (s : Series) : bool :=
  match s with
  | SObject (v :: l) =>
      forallb (fun x => match x with PStr _ => true | _ => false end) (v :: l)
  | _ => false
  end.

(** [pd.api.types.is_numeric_dtype(s)] *)
Definition is_numeric_dtype (s : Series) : bool :=
  match s with
  | SBool _ | SInt _ | SFloat _ => true
  | _ => false
  end.

(** [pd.api.types.is_datetime64_any_dtype(s)] *)
Definition is_datetime64_any_dtype (s : Series) : bool := is_sdatetime s.

(** [str(s.dtype)] *)
Definition dtype_name (s : Series) : string :=
  match s with
  | SBool _ => "bool"
  | SInt _ => "int64"
  | SFloat _ => "float64"
  | SDatetime _ => "datetime64[ns]"
  | SObject _ => "object"
  end.

(** ** pandas: DataFrame *)

(** An ordered table: the length of its index and its named columns. *)
Record DataFrame : Type := mkFrame {
  nrows : nat;
  columns : list (string * Series)
}.

(** [pd.DataFrame()] *)
Definition empty_frame : DataFrame := mkFrame 0 [].

Definition column_names (df : DataFrame) : list string := map fst (columns df).

(** [col in df.columns] *)
Definition has_column (df : DataFrame) (col : string) : bool :=
  mem col (column_names df).

Fixpoint lookup (col : string) (cols : list (string * Series)) : option Series :=
  match cols with
  | [] => None
  | (c, s) :: rest => if String.eqb col c then Some s else lookup col rest
  end.

(** [df[col]], under the guard [col in df.columns] *)
Definition get_column (df : DataFrame) (col : string) : option Series :=
  lookup col (columns df).

Fixpoint assign (col : string) (s : Series) (cols : list (string * Series))
  : list (string * Series) :=
  match cols with
  | [] => [(col, s)]
  | (c, s') :: rest =>
      if String.eqb col c then (c, s) :: rest else (c, s') :: assign col s rest
  end.

(** [df[col] = s]: an existing column is replaced where it stands, a new one
    is added last. *)
Definition set_column (df : DataFrame) (col : string) (s : Series) : DataFrame :=
  mkFrame (nrows df) (assign col s (columns df)).

(** [df.empty] *)
Definition frame_empty (df : DataFrame) : bool :=
  (nrows df =? 0)%nat || match columns df with [] => true | _ => false end.

(** [df[mask]] *)
Definition frame_filter (m : list bool) (df : DataFrame) : DataFrame :=
  mkFrame (count_true (firstn (nrows df) m))
          (map (fun cs => (fst cs, series_filter m (snd cs))) (columns df)).

(** A well-formed frame: distinct column names, every column as long as the
    index. *)
Fixpoint distinct (l : list string) : bool :=
  match l with
  | [] => true
  | x :: rest => negb (mem x rest) && distinct rest
  end.

Definition well_formed (df : DataFrame) : bool :=
  distinct (column_names df) &&
  forallb (fun cs => (series_len (snd cs) =? nrows df)%nat) (columns df).

(** The keys of a list of records, by first appearance. *)
Fixpoint union_keys (acc : list string) (records : list pydict) : list string :=
  match records with
  | [] => acc
  | d :: rest =>
      union_keys
        (fold_left (fun a k => if mem k a then a else (a ++ [k])%list) (dict_keys d) acc)
        rest
  end.

(** [pd.DataFrame(records)] for a list of dicts: one row per record, one
    column per key, a missing key read as NaN, dtypes inferred. *)
Definition frame_of_records (records : list pydict) : DataFrame :=
  mkFrame (List.length records)
    (match records with
     | [] => []
     | _ =>
         map (fun k =>
                (k, infer_objects
                      (map (fun d => match dict_get d k with
                                     | Some v => v
                                     | None => PNaN
                                     end) records)))
             (union_keys [] records)
     end).

(** ** The world *)

(** A request for a listing of a subreddit. *)
Inductive sort_mode : Type := Top (time_filter : string) | Hot | New | Rising.

Record request : Type := mkRequest {
  req_subreddit : string;
  req_sort : sort_mode;
  req_limit : option Z
}.

(** What attribute access on a submission gives: [getattr(post, field)]
    returns a value, finds no such attribute, or raises. *)
Inductive attr : Type :=
| AttrValue (v : pyobj)
| AttrMissing
| AttrRaises (e : exn).

Definition Item : Type := string -> attr.

(** A listing is lazy: iterating it yields its items and then, if it is
    broken, raises. *)
Record Listing : Type := mkListing {
  listing_items : list Item;
  listing_error : option exn
}.

Definition loc : Type := nat.

(** How writing at a path fails: before anything is created, or after the
    file has been created and some of the rows written. *)
Inductive write_failure : Type :=
| Refused (e : exn)
| Interrupted (rows_written : nat) (e : exn).

Definition failure_exn (f : write_failure) : exn :=
  match f with
  | Refused e => e
  | Interrupted _ e => e
  end.

Record World : Type := mkWorld {
  heap : list DataFrame;                (* the DataFrame objects, by address *)
  clock : Z;                            (* the local time, ns since the epoch *)
  reddit : request -> Listing;          (* the Reddit API *)
  fetched : list request;               (* listings iterated so far *)
  slept : list Q;                       (* [time.sleep] calls so far *)
  output_dir : string;                  (* config.paths.output_path *)
  disk_error : string -> option write_failure;
                                        (* paths that cannot be written *)
  files : list (string * DataFrame)     (* CSV files written so far, whole
                                           or cut short *)
}.

(** Stateful code: a result and the world after it. *)
Definition M (A : Type) : Type := World -> result A * World.

Definition ret {A} (a : A) : M A := fun w => (Ok a, w).
Definition raise {A} (e : exn) : M A := fun w => (Raise e, w).
Definition bind {A B} (m : M A) (k : A -> M B) : M B :=
  fun w => match m w with
           | (Ok a, w') => k a w'
           | (Raise e, w') => (Raise e, w')
           end.
Definition lift {A} (r : result A) : M A := fun w => (r, w).

(** [try: body except Exception as e: handler(e)] *)
Definition try_catch {A} (body : M A) (handler : exn -> M A) : M A :=
  fun w => match body w with
           | (Ok a, w') => (Ok a, w')
           | (Raise e, w') => handler e w'
           end.

Declare Scope m_scope.
Delimit Scope m_scope with M.
Notation "x <- c ;; k" := (bind c (fun x => k))
  (at level 100, c at next level, right associativity) : m_scope.
Notation "c ;;; k" := (bind c (fun _ => k))
  (at level 100, right associativity) : m_scope.

Definition with_heap (h : list DataFrame) (w : World) : World :=
  mkWorld h (clock w) (reddit w) (fetched w) (slept w) (output_dir w)
          (disk_error w) (files w).

(** A new DataFrame object. *)
Definition alloc (df : DataFrame) : M loc :=
  fun w => (Ok (List.length (heap w)), with_heap (heap w ++ [df])%list w).

(** The DataFrame an address refers to. *)
Definition load (l : loc) : M DataFrame :=
  fun w => (Ok (nth l (heap w) empty_frame), w).

Fixpoint update_nth {A} (n : nat) (x : A) (l : list A) : list A :=
  match n, l with
  | O, _ :: rest => x :: rest
  | S n', y :: rest => y :: update_nth n' x rest
  | _, [] => []
  end.

(** Mutation of the object at an address. *)
Definition store (l : loc) (df : DataFrame) : M unit :=
  fun w => (Ok tt, with_heap (update_nth l df (heap w)) w).

(** [pd.Timestamp.now()] *)
Definition timestamp_now : M Z := fun w => (Ok (clock w), w).

(** [time.sleep(d)] *)
Definition sleep (d : Q) : M unit :=
  fun w => (Ok tt, mkWorld (heap w) (clock w) (reddit w) (fetched w)
                           (slept w ++ [d])%list (output_dir w) (disk_error w)
                           (files w)).

(** Starting to iterate a listing: the request is recorded. *)
Definition iterate (r : request) : M Listing :=
  fun w =>
    (Ok (reddit w r),
     mkWorld (heap w) (clock w) (reddit w) (fetched w ++ [r])%list
             (slept w) (output_dir w) (disk_error w) (files w)).

(** The first [k] rows: what has reached a file when writing stops. *)
Definition frame_head (k : nat) (df : DataFrame) : DataFrame :=
  frame_filter (repeat true k) df.

Definition written (path : string) (df : DataFrame) (w : World) : World :=
  mkWorld (heap w) (clock w) (reddit w) (fetched w) (slept w) (output_dir w)
          (disk_error w) (files w ++ [(path, df)])%list.

(** [df.to_csv(path, index=False)]: the file is written in place; when
    writing fails part of the way, what was written stays. *)
Definition to_csv (df : DataFrame) (path : string) : M unit :=
  fun w =>
    match disk_error w path with
    | Some (Refused e) => (Raise e, w)
    | Some (Interrupted k e) => (Raise e, written path (frame_head k df) w)
    | None => (Ok tt, written path df w)
    end.

(** [dir.mkdir(parents=True, exist_ok=True)] *)
Definition mkdir (dir : string) : M unit :=
  fun w =>
    match disk_error w dir with
    | Some f => (Raise (failure_exn f), w)
    | None => (Ok tt, w)
    end.

(** Statements that read and assign the columns of one DataFrame object:
    a result and the object after them. An assignment that has been made
    stays made when a later statement raises. *)
Definition F (A : Type) : Type := DataFrame -> result A * DataFrame.

Definition fret {A} (a : A) : F A := fun df => (Ok a, df).
Definition fbind {A B} (m : F A) (k : A -> F B) : F B :=
  fun df => match m df with
            | (Ok a, df') => k a df'
            | (Raise e, df') => (Raise e, df')
            end.

Declare Scope f_scope.
Delimit Scope f_scope with F.
Notation "c ;;; k" := (fbind c (fun _ => k))
  (at level 100, right associativity) : f_scope.

(** [if col in df.columns: df[new] = f(df[col])] *)
Definition assign_from (new col : string) (f : Series -> result Series) : F unit :=
  fun df =>
    match get_column df col with
    | Some s =>
        match f s with
        | Ok s' => (Ok tt, set_column df new s')
        | Raise e => (Raise e, df)
        end
    | None => (Ok tt, df)
    end.

(** [if col in df.columns: df[col] = f(df[col])] *)
Definition update_column (col : string) (f : Series -> result Series) : F unit :=
  assign_from col col f.

Fixpoint for_each {A} (l : list A) (body : A -> F unit) : F unit :=
  match l with
  | [] => fret tt
  | x :: rest => fbind (body x) (fun _ => for_each rest body)
  end.

(** Running statements on the object at an address. *)
Definition in_object {A} (l : loc) (body : F A) : M A :=
  fun w =>
    let '(r, df') := body (nth l (heap w) empty_frame) in
    (r, with_heap (update_nth l df' (heap w)) w).

(** ** src/ingestion/reddit_extractor.py *)

Module RedditExtractor.

Definition POST_FIELDS : list string :=
  ["id"; "subreddit"; "title"; "selftext"; "score"; "num_comments"; "author";
   "created_utc"; "upvote_ratio"; "url"; "permalink"; "is_self"; "over_18";
   "stickied"; "distinguished"].

(** [getattr(post, field, None)]: the default covers a missing attribute
    only. *)
Definition getattr (post : Item) (field : string) : result pyobj :=
  match post field with
  | AttrValue v => Ok v
  | AttrMissing => Ok PNone
  | AttrRaises e => Raise e
  end.

(** [post.field]: a missing attribute raises AttributeError. *)
Definition attribute (post : Item) (field : string) : result pyobj :=
  match post field with
  | AttrValue v => Ok v
  | AttrMissing =>
      Raise (Exn AttributeError ("object has no attribute '" ++ field ++ "'"))
  | AttrRaises e => Raise e
  end.

(** The body of the [try] in [_extract_post_fields], for one field. *)
Definition extract_field (post : Item) (field : string) : result pyobj :=
  (value <- getattr post field ;;
   if String.eqb field "author" && truthy value then Ok (PStr (py_str value))
   else if String.eqb field "created_utc" then
          if truthy value then py_int value else Ok PNone
        else Ok value)%result.

Fixpoint extract_fields (post : Item) (fields : list string) (post_dict : pydict)
  : result pydict :=
  match fields with
  | [] => Ok post_dict
  | field :: rest =>
      (d <- try_except
              (value <- extract_field post field ;;
               Ok (dict_set post_dict field value))
              (fun _ => Ok (dict_set post_dict field PNone)) ;;
       extract_fields post rest d)%result
  end.

Definition _extract_post_fields (post : Item) : result pydict :=
  extract_fields post POST_FIELDS [].

(** The [for post in posts] loop of [extract_posts]. *)
Fixpoint extract_items (posts : list Item) (post_list : list pydict)
  : result (list pydict) :=
  match posts with
  | [] => Ok post_list
  | post :: rest =>
      (l <- try_except
              (post_dict <- _extract_post_fields post ;;
               Ok (post_list ++ [post_dict])%list)
              (fun _ =>
                 (* the warning formats [post.id] *)
                 _ <- attribute post "id" ;; Ok post_list) ;;
       extract_items rest l)%result
  end.

Definition invalid_sort (sort : string) : exn :=
  Exn ValueError ("Invalid sort method: " ++ sort).

(** The listing chosen by [sort]; nothing is fetched until it is iterated. *)
Definition select_listing (subreddit time_filter : string) (limit : option Z)
    (sort : string) : result request :=
  if String.eqb sort "top" then Ok (mkRequest subreddit (Top time_filter) limit)
  else if String.eqb sort "hot" then Ok (mkRequest subreddit Hot limit)
  else if String.eqb sort "new" then Ok (mkRequest subreddit New limit)
  else if String.eqb sort "rising" then Ok (mkRequest subreddit Rising limit)
  else Raise (invalid_sort sort).

(** The extractor is connected: its constructor raises when the connection
    cannot be made, so [self.reddit] is set whenever a method runs. *)
Definition extract_posts (subreddit time_filter : string) (limit : option Z)
    (sort : string) : M (list pydict) :=
  try_catch
    (posts <- lift (select_listing subreddit time_filter limit sort) ;;
     listing <- iterate posts ;;
     post_list <- lift (extract_items (listing_items listing) []) ;;
     match listing_error listing with
     | Some e => raise e
     | None => ret post_list
     end)%M
    (fun e =>
       if is_prawcore e
       then raise (Exn RedditAPIException ("Reddit API error: " ++ exn_msg e))
       else raise (Exn RedditAPIException ("Post extraction failed: " ++ exn_msg e))).

(** One turn of the loop of [extract_posts_batch]: a partition that fails
    is skipped. *)
Definition extract_one (subreddit time_filter : string)
    (limit_per_subreddit : option Z) (sort : string)
    (delay_between_subreddits : Q) (all_posts : list pydict)
  : M (list pydict) :=
  try_catch
    (posts <- extract_posts subreddit time_filter limit_per_subreddit sort ;;
     let extended := (all_posts ++ posts)%list in
     (if Qgtb delay_between_subreddits 0
      then sleep delay_between_subreddits else ret tt) ;;;
     ret extended)%M
    (fun _ => ret all_posts).

(** The [for subreddit in subreddits] loop of [extract_posts_batch]. *)
Fixpoint extract_each (subreddits : list string) (time_filter : string)
    (limit_per_subreddit : option Z) (sort : string)
    (delay_between_subreddits : Q) (all_posts : list pydict)
  : M (list pydict) :=
  match subreddits with
  | [] => ret all_posts
  | subreddit :: rest =>
      (acc <- extract_one subreddit time_filter limit_per_subreddit sort
                          delay_between_subreddits all_posts ;;
       extract_each rest time_filter limit_per_subreddit sort
                    delay_between_subreddits acc)%M
  end.

(** Returns the address of the combined DataFrame. *)
Definition extract_posts_batch (subreddits : list string) (time_filter : string)
    (limit_per_subreddit : option Z) (sort : string)
    (delay_between_subreddits : Q) : M loc :=
  (all_posts <- extract_each subreddits time_filter limit_per_subreddit sort
                             delay_between_subreddits [] ;;
   match all_posts with
   | [] => alloc empty_frame
   | _ => alloc (frame_of_records all_posts)
   end)%M.

(** One turn of the loop of [extract_posts_streaming]; the state is the
    batches yielded so far and the batch being filled. *)
Definition stream_item (batch_size : Z) (state : list (list pydict) * list pydict)
    (post : Item) : list (list pydict) * list pydict :=
  let '(yielded, batch) := state in
  match _extract_post_fields post with
  | Ok post_dict =>
      let batch := (batch ++ [post_dict])%list in
      if (batch_size <=? Z.of_nat (List.length batch))%Z
      then ((yielded ++ [batch])%list, [])
      else (yielded, batch)
  | Raise _ => (yielded, batch)
  end.

(** The generator, run to its end by its consumer: the batches it yields,
    and the exception that ends it, if any. No limit is passed to [top], so
    that PRAW's default of 100 applies. *)
Definition extract_posts_streaming (subreddit time_filter : string) (batch_size : Z)
  : M (list (list pydict) * option exn) :=
  (listing <- iterate (mkRequest subreddit (Top time_filter) (Some 100%Z)) ;;
   let '(yielded, batch) :=
     fold_left (stream_item batch_size) (listing_items listing) ([], []) in
   match listing_error listing with
   | Some e =>
       ret (yielded,
            Some (Exn RedditAPIException
                      ("Streaming extraction failed: " ++ exn_msg e)))
   | None =>
       ret (match batch with
            | [] => yielded
            | _ => (yielded ++ [batch])%list
            end, None)
   end)%M.

End RedditExtractor.

(** ** src/processing/data_transformer.py *)

Module DataTransformer.

Definition string_columns : list string :=
  ["id"; "subreddit"; "title"; "selftext"; "author"; "url"; "permalink"].
Definition numeric_columns : list string := ["score"; "num_comments"; "upvote_ratio"].
Definition boolean_columns : list string :=
  ["is_self"; "over_18"; "stickied"; "distinguished"].

(** The statements of [_convert_types]; they assign into [df] itself. *)
Definition convert_types_body : F unit :=
  (for_each string_columns
     (fun col => update_column col (fun s => Ok (replace_nan "nan" (astype_str s)))) ;;;
   for_each numeric_columns
     (fun col => update_column col (fun s => Ok (to_numeric s))) ;;;
   for_each boolean_columns
     (fun col => update_column col (fun s => Ok (astype_bool s))) ;;;
   update_column "created_utc" (fun s => Ok (to_datetime s)) ;;;
   assign_from "created_date" "created_utc" dt_date ;;;
   assign_from "created_hour" "created_utc" dt_hour ;;;
   assign_from "created_day_of_week" "created_utc" dt_day_name)%F.

Definition _convert_types (df : loc) : M loc :=
  (in_object df convert_types_body ;;; ret df)%M.

(** [df = df[df[field].notna()]] for each critical field: a new object each
    time. *)
Fixpoint drop_missing (df : loc) (critical_fields : list string) : M loc :=
  match critical_fields with
  | [] => ret df
  | field :: rest =>
      (frame <- load df ;;
       match get_column frame field with
       | Some s =>
           df' <- alloc (frame_filter (notna s) frame) ;;
           drop_missing df' rest
       | None => drop_missing df rest
       end)%M
  end.

Definition clean_text_body : F unit :=
  (for_each ["title"; "selftext"]
     (fun field =>
        fbind (update_column field str_strip)
              (fun _ => update_column field (fun s => Ok (replace_nan "" s)))) ;;;
   update_column "author"
     (fun s => Ok (replace_list_nan ["[deleted]"; "[removed]"; "nan"] s)))%F.

Definition _clean_data (df : loc) : M loc :=
  (df <- drop_missing df ["id"; "title"] ;;
   in_object df clean_text_body ;;;
   ret df)%M.

Definition engineer_features_body : F unit :=
  (assign_from "title_length" "title" str_len ;;;
   assign_from "title_word_count" "title" str_word_count ;;;
   assign_from "selftext_length" "selftext" str_len ;;;
   assign_from "selftext_word_count" "selftext" str_word_count ;;;
   (fun df =>
      match get_column df "score", get_column df "num_comments" with
      | Some score, Some num_comments =>
          match engagement score num_comments with
          | Ok s => (Ok tt, set_column df "engagement_score" s)
          | Raise e => (Raise e, df)
          end
      | _, _ => (Ok tt, df)
      end) ;;;
   assign_from "popularity_category" "score" cut_popularity)%F.

Definition _engineer_features (df : loc) : M loc :=
  (in_object df engineer_features_body ;;; ret df)%M.

(** [df.drop_duplicates(subset=['id'], keep='first')] *)
Definition drop_duplicates_id (frame : DataFrame) (ids : Series) : DataFrame :=
  frame_filter (first_occurrence [] (to_objects ids)) frame.

Definition _remove_duplicates (df : loc) : M loc :=
  (frame <- load df ;;
   match get_column frame "id" with
   | Some ids => alloc (drop_duplicates_id frame ids)
   | None => ret df
   end)%M.

Definition transformation_failed (e : exn) : exn :=
  Exn ProcessingException ("Data transformation failed: " ++ exn_msg e).

(** The body of the [try] of [transform_reddit_posts]: the four stages in
    their order. *)
Definition stages (df : loc) : M loc :=
  (df <- _convert_types df ;;
   df <- _clean_data df ;;
   df <- _engineer_features df ;;
   df <- _remove_duplicates df ;;
   ret df)%M.

Definition transform_reddit_posts (df : loc) : M loc :=
  (frame <- load df ;;
   if frame_empty frame then ret df
   else
     df <- alloc frame ;;                       (* df = df.copy() *)
     try_catch (stages df) (fun e => raise (transformation_failed e)))%M.

Definition lower_ascii (a : ascii) : ascii :=
  let n := nat_of_ascii a in
  if ((65 <=? n) && (n <=? 90))%nat then ascii_of_nat (n + 32) else a.

Fixpoint lower (s : string) : string :=
  match s with
  | EmptyString => EmptyString
  | String a s' => String (lower_ascii a) (lower s')
  end.

(** [s.dt.strftime('%Y-%m-%d %H:%M:%S')] *)
Definition dt_strftime (s : Series) : Series :=
  match s with
  | SDatetime l =>
      SObject (map (fun x => match x with
                             | Some ns => PStr (ts_strftime ns)
                             | None => PNaN
                             end) l)
  | _ => s
  end.

Definition blank_null (v : pyobj) : pyobj :=
  if is_null v then PStr "" else v.

(** [s.replace([np.nan, None], '')]: a column without a null is returned as
    it is, and so is a datetime column, whose NaT stays; otherwise the
    column becomes an [object] column with '' for each null. *)
Definition fill_blank (s : Series) : Series :=
  match s with
  | SDatetime _ => s
  | _ =>
      if existsb (fun b => b) (isnull s)
      then infer_objects (map blank_null (to_objects s))
      else s
  end.

Definition map_columns (f : Series -> Series) (frame : DataFrame) : DataFrame :=
  mkFrame (nrows frame) (map (fun cs => (fst cs, f (snd cs))) (columns frame)).

Definition prepare_for_export (df : loc) (format : string) : M loc :=
  (frame <- load df ;;
   df <- alloc frame ;;                         (* df = df.copy() *)
   (if String.eqb (lower format) "csv"
    then in_object df (fun fr => (Ok tt, map_columns dt_strftime fr))
    else ret tt) ;;;
   frame <- load df ;;
   alloc (map_columns fill_blank frame))%M.

End DataTransformer.

(** ** src/processing/data_validator.py *)

(** The messages the validator formats; [render] gives their text. *)
Inductive message : Type :=
| DataFrame_is_empty
| Missing_required_columns (missing_columns : list string)
| Unexpected_columns_found (unexpected_columns : list string)
| Id_should_be_string
| Score_should_be_numeric
| Too_few_rows (rows : nat) (min_rows : Z)
| Duplicate_ids (duplicate_count : nat)
| Null_percentage_error (col : string) (pct : Q) (max_null_percentage : Q)
| Null_percentage_warning (col : string) (pct : Q)
| Empty_titles (empty_titles : nat)
| High_negative_scores (negative_scores : nat)
| Negative_comment_counts (negative_comments : nat)
| Invalid_upvote_ratios (invalid_ratios : nat)
| Future_dates (future_dates : nat)
| No_subreddits
| One_subreddit
| Missing_column (col : string)
| Type_mismatch (col actual_type expected_type : string).

Definition render (m : message) : string :=
  match m with
  | DataFrame_is_empty => "DataFrame is empty"
  | Missing_required_columns l => "Missing required columns: " ++ repr_names l
  | Unexpected_columns_found l => "Unexpected columns found: " ++ repr_names l
  | Id_should_be_string => "Column 'id' should be string type"
  | Score_should_be_numeric => "Column 'score' should be numeric"
  | Too_few_rows n min_rows =>
      "DataFrame has " ++ nat_to_string n ++ " rows, minimum required is " ++
      Z_to_string min_rows
  | Duplicate_ids n => "Found " ++ nat_to_string n ++ " duplicate IDs"
  | Null_percentage_error col pct mx =>
      "Column '" ++ col ++ "' has " ++ fmt2 pct ++ "% null values (max allowed: " ++
      float_str mx ++ "%)"
  | Null_percentage_warning col pct =>
      "Column '" ++ col ++ "' has " ++ fmt2 pct ++ "% null values"
  | Empty_titles n => "Found " ++ nat_to_string n ++ " posts with empty titles"
  | High_negative_scores n =>
      "High percentage of negative scores: " ++ nat_to_string n
  | Negative_comment_counts n =>
      "Found " ++ nat_to_string n ++ " posts with negative comment counts"
  | Invalid_upvote_ratios n =>
      "Found " ++ nat_to_string n ++ " posts with invalid upvote ratios"
  | Future_dates n => "Found " ++ nat_to_string n ++ " posts with future dates"
  | No_subreddits => "No subreddits found in data"
  | One_subreddit => "Data contains posts from only one subreddit"
  | Missing_column col => "Missing column: " ++ col
  | Type_mismatch col actual expected =>
      "Column '" ++ col ++ "' has type " ++ actual ++ ", expected " ++ expected
  end.

(** The values of the [stats] dict. *)
Inductive stat : Type :=
| StatInt (n : nat)
| StatPercentages (null_percentages : list (string * option Q))
| StatDateRange (min max : string)
| StatCounts (subreddit_counts : list (pyobj * nat)).

Definition stats_dict : Type := list (string * stat).

Fixpoint stats_set (d : stats_dict) (k : string) (v : stat) : stats_dict :=
  match d with
  | [] => [(k, v)]
  | (k', v') :: rest =>
      if String.eqb k k' then (k', v) :: rest else (k', v') :: stats_set rest k v
  end.

(** [d.update(other)] *)
Definition stats_update (d other : stats_dict) : stats_dict :=
  fold_left (fun acc kv => stats_set acc (fst kv) (snd kv)) other d.

Record ValidationResult : Type := mkValidationResult {
  is_valid : bool;
  errors : list message;
  warnings : list message;
  stats : stats_dict
}.

(** What one tier returns: errors, warnings, stats. *)
Definition tier : Type := (list message * list message * stats_dict)%type.

Definition tier_errors (t : tier) : list message := fst (fst t).
Definition tier_warnings (t : tier) : list message := snd (fst t).
Definition tier_stats (t : tier) : stats_dict := snd t.

Definition no_findings : tier := ([], [], []).
Definition error (m : message) : tier := ([m], [], []).
Definition warning (m : message) : tier := ([], [m], []).
Definition record_stat (k : string) (v : stat) : tier := ([], [], [(k, v)]).

(** Findings made one after the other. *)
Definition also (a b : tier) : tier :=
  ((tier_errors a ++ tier_errors b)%list,
   (tier_warnings a ++ tier_warnings b)%list,
   stats_update (tier_stats a) (tier_stats b)).

Definition all_findings (l : list tier) : tier := fold_left also l no_findings.

Module DataValidator.

Definition REQUIRED_COLUMNS : list string := ["id"; "title"; "subreddit"].
Definition EXPECTED_COLUMNS : list string :=
  ["id"; "subreddit"; "title"; "selftext"; "score"; "num_comments"; "author";
   "created_utc"; "upvote_ratio"; "url"; "permalink"].

Record validator : Type := mkValidator {
  min_rows : Z;
  max_null_percentage : Q;
  require_unique_ids : bool
}.

(** [DataValidator()] *)
Definition default_validator : validator := mkValidator 1%Z 50%Q true.

Definition structure_checks (frame : DataFrame) : tier :=
  if frame_empty frame then error DataFrame_is_empty
  else
    let missing_columns :=
      filter (fun col => negb (has_column frame col)) REQUIRED_COLUMNS in
    let unexpected_columns :=
      filter (fun col => negb (mem col EXPECTED_COLUMNS)) (column_names frame) in
    all_findings
      [ record_stat "total_rows" (StatInt (nrows frame));
        record_stat "total_columns" (StatInt (List.length (columns frame)));
        match missing_columns with
        | [] => no_findings
        | _ => error (Missing_required_columns missing_columns)
        end;
        match unexpected_columns with
        | [] => no_findings
        | _ => warning (Unexpected_columns_found unexpected_columns)
        end;
        match get_column frame "id" with
        | Some ids =>
            if negb (is_string_dtype ids) then warning Id_should_be_string
            else no_findings
        | None => no_findings
        end;
        match get_column frame "score" with
        | Some score =>
            if negb (is_numeric_dtype score) then error Score_should_be_numeric
            else no_findings
        | None => no_findings
        end ].

Definition _validate_structure (self : validator) (df : loc) : M tier :=
  (frame <- load df ;; ret (structure_checks frame))%M.

(** [df.isnull().sum() / len(df) * 100] for one column: the count divided
    by the length, then multiplied by 100, both in float64, so that the
    result can be off the exact percentage in the last place; NaN on an
    empty index. *)
Definition null_percentage (rows : nat) (s : Series) : option Q :=
  match rows with
  | O => None
  | _ => Some (f64_value
                 (f64_mul (f64_div (f64_of_Z (Z.of_nat (count_true (isnull s))))
                                   (f64_of_Z (Z.of_nat rows)))
                          (f64_of_Z 100)))
  end.

(** [self.max_null_percentage / 2], a float division. *)
Definition half_ceiling (max_null_percentage : Q) : Q :=
  f64_value (f64_div (f64_of_Q max_null_percentage) (f64_of_Z 2)).

(** [(... ).to_dict()], over distinct column names *)
Definition null_percentages (frame : DataFrame) : list (string * option Q) :=
  map (fun cs => (fst cs, null_percentage (nrows frame) (snd cs))) (columns frame).

(** One turn of the loop over [null_percentages.items()]. *)
Definition null_percentage_check (self : validator) (col : string) (pct : option Q)
  : tier :=
  match pct with
  | None => no_findings          (* NaN compares false *)
  | Some pct =>
      if Qgtb pct (max_null_percentage self)
      then error (Null_percentage_error col pct (max_null_percentage self))
      else if Qgtb pct (half_ceiling (max_null_percentage self))
           then warning (Null_percentage_warning col pct)
           else no_findings
  end.

(** [(df['title'].astype(str).str.strip() == '').sum()] *)
Definition count_empty_titles (title : Series) : nat :=
  count_true (map (fun v => String.eqb (strip (py_str v)) "") (to_objects title)).

Definition quality_checks (self : validator) (frame : DataFrame) : tier :=
  all_findings
    [ if (Z.of_nat (nrows frame) <? min_rows self)%Z
      then error (Too_few_rows (nrows frame) (min_rows self))
      else no_findings;
      match get_column frame "id" with
      | Some ids =>
          let duplicate_count := count_true (duplicated ids) in
          also (record_stat "duplicate_ids" (StatInt duplicate_count))
               (if (0 <? duplicate_count)%nat && require_unique_ids self
                then error (Duplicate_ids duplicate_count)
                else if (0 <? duplicate_count)%nat
                     then warning (Duplicate_ids duplicate_count)
                     else no_findings)
      | None => no_findings
      end;
      record_stat "null_percentages" (StatPercentages (null_percentages frame));
      all_findings
        (map (fun cp => null_percentage_check self (fst cp) (snd cp))
             (null_percentages frame));
      match get_column frame "title" with
      | Some title =>
          let empty_titles := count_empty_titles title in
          if (0 <? empty_titles)%nat then error (Empty_titles empty_titles)
          else no_findings
      | None => no_findings
      end ].

Definition _validate_quality (self : validator) (df : loc) : M tier :=
  (frame <- load df ;; ret (quality_checks self frame))%M.

Definition score_rules (frame : DataFrame) : result tier :=
  match get_column frame "score" with
  | Some score =>
      (below <- lt_const score 0 ;;
       let negative_scores := count_true below in
       Ok (also (record_stat "negative_scores" (StatInt negative_scores))
                (if Qgtb (inject_Z (Z.of_nat negative_scores))
                         (f64_value (f64_mul (f64_of_Z (Z.of_nat (nrows frame)))
                                             (f64_of_Q (1 # 10))))
                 then warning (High_negative_scores negative_scores)
                 else no_findings)))%result
  | None => Ok no_findings
  end.

Definition comment_rules (frame : DataFrame) : result tier :=
  match get_column frame "num_comments" with
  | Some num_comments =>
      (below <- lt_const num_comments 0 ;;
       let negative_comments := count_true below in
       Ok (if (0 <? negative_comments)%nat
           then error (Negative_comment_counts negative_comments)
           else no_findings))%result
  | None => Ok no_findings
  end.

Definition ratio_rules (frame : DataFrame) : result tier :=
  match get_column frame "upvote_ratio" with
  | Some upvote_ratio =>
      (below <- lt_const upvote_ratio 0 ;;
       above <- gt_const upvote_ratio 1 ;;
       let invalid_ratios := count_true (zip_with orb below above) in
       Ok (if (0 <? invalid_ratios)%nat
           then error (Invalid_upvote_ratios invalid_ratios)
           else no_findings))%result
  | None => Ok no_findings
  end.

Definition present (l : list (option Z)) : list Z :=
  flat_map (fun x => match x with Some v => [v] | None => [] end) l.

(** [str(s.min())] and [str(s.max())], nulls skipped *)
Definition ts_extreme (pick : Z -> Z -> Z) (l : list (option Z)) : string :=
  match present l with
  | [] => "NaT"
  | v :: rest => ts_to_string (fold_left pick rest v)
  end.

(** The date check reads the clock, and only for a datetime column. *)
Definition date_rules (frame : DataFrame) : M tier :=
  match get_column frame "created_utc" with
  | Some (SDatetime l) =>
      (now <- timestamp_now ;;
       let future_dates :=
         count_true (map (fun x => match x with
                                   | Some ns => (now <? ns)%Z
                                   | None => false
                                   end) l) in
       ret (also (if (0 <? future_dates)%nat then error (Future_dates future_dates)
                  else no_findings)
                 (record_stat "date_range"
                    (StatDateRange (ts_extreme Z.min l) (ts_extreme Z.max l)))))%M
  | _ => ret no_findings
  end.

Definition subreddit_rules (frame : DataFrame) : tier :=
  match get_column frame "subreddit" with
  | Some subreddit =>
      let subreddit_counts := value_counts subreddit in
      also (record_stat "subreddit_distribution" (StatCounts subreddit_counts))
           (match List.length subreddit_counts with
            | O => error No_subreddits
            | S O => warning One_subreddit
            | _ => no_findings
            end)
  | None => no_findings
  end.

Definition _validate_business_rules (self : validator) (df : loc) : M tier :=
  (frame <- load df ;;
   scores <- lift (score_rules frame) ;;
   comments <- lift (comment_rules frame) ;;
   ratios <- lift (ratio_rules frame) ;;
   dates <- date_rules frame ;;
   ret (all_findings [scores; comments; ratios; dates; subreddit_rules frame]))%M.

Definition validation_failed (e : exn) : exn :=
  Exn DataValidationException ("Validation failed: " ++ exn_msg e).

Definition is_empty {A} (l : list A) : bool :=
  match l with [] => true | _ => false end.

Definition validate (self : validator) (df : loc) : M ValidationResult :=
  try_catch
    (structure <- _validate_structure self df ;;
     quality <- _validate_quality self df ;;
     business <- _validate_business_rules self df ;;
     let findings := all_findings [structure; quality; business] in
     let is_valid := is_empty (tier_errors findings) in
     ret (mkValidationResult is_valid (tier_errors findings)
                             (tier_warnings findings) (tier_stats findings)))%M
    (fun e => raise (validation_failed e)).

(** One turn of the loop of [validate_schema] over [expected_schema.items()]. *)
Definition schema_check (frame : DataFrame) (col expected_type : string) : tier :=
  match get_column frame col with
  | None => error (Missing_column col)
  | Some s =>
      let actual_type := dtype_name s in
      if negb (contains expected_type actual_type)
      then warning (Type_mismatch col actual_type expected_type)
      else no_findings
  end.

Definition validate_schema (self : validator) (df : loc)
    (expected_schema : list (string * string)) : M ValidationResult :=
  (frame <- load df ;;
   let findings :=
     all_findings (map (fun ct => schema_check frame (fst ct) (snd ct)) expected_schema) in
   ret (mkValidationResult (is_empty (tier_errors findings)) (tier_errors findings)
                           (tier_warnings findings) []))%M.

End DataValidator.

(** ** src/pipelines/reddit_pipeline.py *)

Module RedditPipeline.

(** [datetime.now()] reads the same clock. *)
Definition datetime_now : M Z := timestamp_now.

Definition _save_dataframe (df : loc) (filename : string) : M string :=
  (fun w =>
     let output_dir := output_dir w in
     (mkdir output_dir ;;;
      let output_path := path_join output_dir (filename ++ ".csv") in
      df_export <- DataTransformer.prepare_for_export df "csv" ;;
      frame <- load df_export ;;
      to_csv frame output_path ;;;
      ret output_path)%M w).

Definition no_data : exn := Exn RedditPipelineException "No data extracted from Reddit".

Definition validation_error (errors : list message) : exn :=
  Exn RedditPipelineException
      ("Data validation failed: " ++ join ", " (map render errors)).

Definition pipeline_failed (e : exn) : exn :=
  Exn RedditPipelineException ("Pipeline execution failed: " ++ exn_msg e).

(** The pipeline holds [DataValidator()] and calls [extract_posts_batch]
    with its default delay of one second. *)
Definition run (subreddits : list string) (time_filter : string)
    (limit_per_subreddit : option Z) (sort : string)
    (output_filename : option string) (validate transform : bool) : M string :=
  try_catch
    (df <- RedditExtractor.extract_posts_batch subreddits time_filter
             limit_per_subreddit sort 1 ;;
     frame <- load df ;;
     if frame_empty frame then raise no_data
     else
       df <- (if transform then DataTransformer.transform_reddit_posts df else ret df) ;;
       (if validate then
          validation_result <- DataValidator.validate DataValidator.default_validator df ;;
          if negb (is_valid validation_result) then
            match errors validation_result with
            | [] => ret tt
            | _ => raise (validation_error (errors validation_result))
            end
          else ret tt
        else ret tt) ;;;
       output_filename <- match output_filename with
                          | None => now <- datetime_now ;;
                                    ret ("reddit_" ++ ts_yyyymmdd now)
                          | Some name => ret name
                          end ;;
       output_path <- _save_dataframe df output_filename ;;
       ret output_path)%M
    (fun e => raise (pipeline_failed e)).

(** [run_reddit_pipeline]: validation and transformation are on. *)
Definition run_reddit_pipeline (subreddits : list string) (time_filter : string)
    (limit_per_subreddit : option Z) (sort : string)
    (output_filename : option string) : M string :=
  run subreddits time_filter limit_per_subreddit sort output_filename true true.

End RedditPipeline.

(** ** Worked inputs *)

Module Examples.

(** A link post: its [selftext] is the empty string, nobody distinguished
    it. *)
Definition link_post : Item := fun field =>
  if String.eqb field "id" then AttrValue (PStr "abc")
  else if String.eqb field "subreddit" then AttrValue (PObj "pics")
  else if String.eqb field "title" then AttrValue (PStr "A picture")
  else if String.eqb field "selftext" then AttrValue (PStr "")
  else if String.eqb field "score" then AttrValue (PInt 5)
  else if String.eqb field "num_comments" then AttrValue (PInt 2)
  else if String.eqb field "author" then AttrValue (PObj "bob")
  else if String.eqb field "created_utc" then AttrValue (PFloat 1609459200)
  else if String.eqb field "upvote_ratio" then AttrValue (PFloat (97 # 100))
  else if String.eqb field "url" then AttrValue (PStr "https://i.redd.it/x.png")
  else if String.eqb field "permalink" then AttrValue (PStr "/r/pics/abc")
  else if String.eqb field "is_self" then AttrValue (PBool false)
  else if String.eqb field "over_18" then AttrValue (PBool false)
  else if String.eqb field "stickied" then AttrValue (PBool false)
  else if String.eqb field "distinguished" then AttrValue PNone
  else AttrMissing.

(** A submission whose author cannot be fetched and whose timestamp is not
    a number. *)
Definition damaged_post : Item := fun field =>
  if String.eqb field "author" then AttrRaises (Exn PrawcoreException "received 404")
  else if String.eqb field "created_utc" then AttrValue (PStr "yesterday")
  else link_post field.

(** r/pics serves one link post; every other subreddit is not found. *)
Definition api : request -> Listing := fun r =>
  if String.eqb (req_subreddit r) "pics" then mkListing [link_post] None
  else mkListing [] (Some (Exn PrawcoreException "received 404 HTTP response")).

(** 2023-11-14 22:13:20 *)
Definition noon : Z := 1700000000 * ns_per_s.

Definition world (h : list DataFrame) (now : Z) : World :=
  mkWorld h now api [] [] "data/output" (fun _ => None) [].

(** What [extract_posts_batch] builds from r/pics. *)
Definition pics_frame : DataFrame :=
  frame_of_records
    [[("id", PStr "abc"); ("subreddit", PObj "pics"); ("title", PStr "A picture");
      ("selftext", PStr ""); ("score", PInt 5); ("num_comments", PInt 2);
      ("author", PStr "bob"); ("created_utc", PInt 1609459200);
      ("upvote_ratio", PFloat (97 # 100)); ("url", PStr "https://i.redd.it/x.png");
      ("permalink", PStr "/r/pics/abc"); ("is_self", PBool false);
      ("over_18", PBool false); ("stickied", PBool false);
      ("distinguished", PNone)]].

(** tests/test_data_transformer.py, [test_remove_duplicates] *)
Definition repeated_id_frame : DataFrame :=
  mkFrame 3
    [("id", SObject [PStr "1"; PStr "1"; PStr "2"]);
     ("title", SObject [PStr "Title 1"; PStr "Title 2"; PStr "Title 3"])].

(** tests/test_data_validator.py, [test_validate_valid_data] *)
Definition valid_frame : DataFrame :=
  mkFrame 3
    [("id", SObject [PStr "1"; PStr "2"; PStr "3"]);
     ("title", SObject [PStr "Title 1"; PStr "Title 2"; PStr "Title 3"]);
     ("subreddit", SObject [PStr "test"; PStr "test"; PStr "test"]);
     ("score", SInt [10; 20; 30]%Z);
     ("num_comments", SInt [5; 10; 15]%Z)].

(** tests/test_data_validator.py, [test_validate_missing_required_columns] *)
Definition title_only_frame : DataFrame :=
  mkFrame 2 [("title", SObject [PStr "Title 1"; PStr "Title 2"])].

(** Five rows, three of them without an author: 60% null. *)
Definition sparse_frame : DataFrame :=
  mkFrame 5
    [("id", SObject [PStr "1"; PStr "2"; PStr "3"; PStr "4"; PStr "5"]);
     ("title", SObject [PStr "a"; PStr "b"; PStr "c"; PStr "d"; PStr "e"]);
     ("subreddit", SObject [PStr "x"; PStr "y"; PStr "x"; PStr "y"; PStr "x"]);
     ("author", SObject [PStr "u"; PNone; PNone; PStr "v"; PNone])].

(** One transformed post created at [noon]. *)
Definition dated_frame : DataFrame :=
  mkFrame 1
    [("id", SObject [PStr "abc"]);
     ("title", SObject [PStr "A picture"]);
     ("subreddit", SObject [PStr "pics"]);
     ("created_utc", SDatetime [Some noon])].

(** A raw frame where nobody is distinguished. *)
Definition undistinguished_frame : DataFrame :=
  mkFrame 2
    [("id", SObject [PStr "a"; PStr "b"]);
     ("distinguished", SObject [PNone; PStr "moderator"])].

(** A text post, and an API where r/python serves it; the clock reads
    [noon] and every path can be written. *)
Definition self_post : Item := fun field =>
  if String.eqb field "id" then AttrValue (PStr "def")
  else if String.eqb field "subreddit" then AttrValue (PObj "python")
  else if String.eqb field "selftext" then AttrValue (PStr "Some text ")
  else if String.eqb field "is_self" then AttrValue (PBool true)
  else link_post field.

Definition text_world : World :=
  mkWorld [] noon
          (fun r => if String.eqb (req_subreddit r) "python"
                    then mkListing [self_post] None else api r)
          [] [] "data/output" (fun _ => None) [].

(** Two posts, one by a deleted account; the first title has blanks around
    it. *)
Definition deleted_author_frame : DataFrame :=
  mkFrame 2
    [("id", SObject [PStr "a"; PStr "b"]);
     ("title", SObject [PStr " First "; PStr "Second"]);
     ("author", SObject [PStr "[deleted]"; PStr "bob"])].

(** Twenty posts, eleven of them without an author. *)
Definition boundary_frame : DataFrame :=
  mkFrame 20
    [("id", SObject (map (fun n => PStr (nat_to_string n)) (seq 1 20)));
     ("title", SObject (repeat (PStr "A title") 20));
     ("author", SObject (repeat PNone 11 ++ repeat (PStr "bob") 9)%list)].

(** The frame of [test_remove_duplicates] with the last title missing. *)
Definition untitled_frame : DataFrame :=
  mkFrame 3
    [("id", SObject [PStr "1"; PStr "1"; PStr "2"]);
     ("title", SObject [PStr "Title 1"; PStr "Title 2"; PNaN])].

End Examples.

(** ** Vocabulary of the statements *)

Module Spec.

Import RedditExtractor.

(** What a field ends up holding: the extracted value, or None when the
    attempt raised. *)
Definition field_value (post : Item) (field : string) : pyobj :=
  match extract_field post field with
  | Ok v => v
  | Raise _ => PNone
  end.

Definition valid_sort (sort : string) : bool :=
  mem sort ["top"; "hot"; "new"; "rising"].

(** A partition that gives the batch nothing: its sort mode is refused, its
    listing is broken, or its listing has no item. *)
Definition yields_nothing (api : request -> Listing) (subreddit time_filter : string)
    (limit : option Z) (sort : string) : Prop :=
  forall r, select_listing subreddit time_filter limit sort = Ok r ->
            listing_error (api r) <> None \/ listing_items (api r) = [].

(** A partition that fails. *)
Definition partition_fails (api : request -> Listing) (subreddit time_filter : string)
    (limit : option Z) (sort : string) : Prop :=
  forall r, select_listing subreddit time_filter limit sort = Ok r ->
            listing_error (api r) <> None.

(** Two worlds that differ at most in the log of requests and of pauses. *)
Definition only_logged (w w' : World) : Prop :=
  heap w' = heap w /\ clock w' = clock w /\ reddit w' = reddit w /\
  output_dir w' = output_dir w /\ disk_error w' = disk_error w /\
  files w' = files w.

(** [l1] is [l2] with some elements left out, the others in their order. *)
Inductive subseq {A : Type} : list A -> list A -> Prop :=
| subseq_nil : subseq [] []
| subseq_skip (x : A) (l1 l2 : list A) : subseq l1 l2 -> subseq l1 (x :: l2)
| subseq_keep (x : A) (l1 l2 : list A) : subseq l1 l2 -> subseq (x :: l1) (x :: l2).

(** Among three identifiers exactly one pair is equal. *)
Definition one_repeated (a b c : pyobj) : bool :=
  match py_eqb a b, py_eqb a c, py_eqb b c with
  | true, false, false | false, true, false | false, false, true => true
  | _, _, _ => false
  end.

(** [s.nunique()]: the number of distinct values that are not null. *)
Definition nunique (s : Series) : nat := List.length (value_counts s).

(** From [w] to [w'] the first [n] DataFrame objects are untouched, none
    disappears, and nothing but DataFrame objects changes. *)
Definition keeps_objects (n : nat) (w w' : World) : Prop :=
  (n <= List.length (heap w'))%nat /\
  firstn n (heap w') = firstn n (heap w) /\
  with_heap (heap w') w = w'.

(** Code that, started with at least [n] objects, leaves the first [n] as
    they are and returns a value satisfying [P]. *)
Definition keeps (n : nat) {A} (P : A -> Prop) (m : M A) : Prop :=
  forall w, (n <= List.length (heap w))%nat ->
    keeps_objects n w (snd (m w)) /\
    (forall a, fst (m w) = Ok a -> P a).

(** Code that changes nothing at all. *)
Definition read_only {A} (m : M A) : Prop := forall w, snd (m w) = w.

Import DataValidator.

(** What the date check finds when the clock reads [now]. *)
Definition date_findings (frame : DataFrame) (now : Z) : tier :=
  match get_column frame "created_utc" with
  | Some (SDatetime l) =>
      let future_dates :=
        count_true (map (fun x => match x with
                                  | Some ns => (now <? ns)%Z
                                  | None => false
                                  end) l) in
      also (if (0 <? future_dates)%nat then error (Future_dates future_dates)
            else no_findings)
           (record_stat "date_range"
              (StatDateRange (ts_extreme Z.min l) (ts_extreme Z.max l)))
  | _ => no_findings
  end.

(** The business tier on a frame, when the clock reads [now]. *)
Definition business_rules (frame : DataFrame) (now : Z) : result tier :=
  (scores <- score_rules frame ;;
   comments <- comment_rules frame ;;
   ratios <- ratio_rules frame ;;
   Ok (all_findings [scores; comments; ratios; date_findings frame now;
                     subreddit_rules frame]))%result.

(** The outcome of [validate] on a frame, when the clock reads [now]. *)
Definition outcome (self : validator) (frame : DataFrame) (now : Z)
  : result ValidationResult :=
  match business_rules frame now with
  | Ok business =>
      let findings :=
        all_findings [structure_checks frame; quality_checks self frame; business] in
      Ok (mkValidationResult (is_empty (tier_errors findings)) (tier_errors findings)
                             (tier_warnings findings) (tier_stats findings))
  | Raise e => Raise (validation_failed e)
  end.

(** The [created_utc] column is a datetime column. *)
Definition has_datetime (frame : DataFrame) : bool :=
  match get_column frame "created_utc" with
  | Some (SDatetime _) => true
  | _ => false
  end.

(** The columns the business tier compares with numbers are numeric, or
    are not there. *)
Definition comparable (frame : DataFrame) : bool :=
  forallb (fun c => match get_column frame c with
                    | Some s => is_numeric_dtype s
                    | None => true
                    end)
          ["score"; "num_comments"; "upvote_ratio"].

Definition is_null_error (m : message) : bool :=
  match m with Null_percentage_error _ _ _ => true | _ => false end.
Definition is_null_warning (m : message) : bool :=
  match m with Null_percentage_warning _ _ => true | _ => false end.

End Spec.

(** ** More vocabulary *)

Module Notions.
Import RedditExtractor.

(** The record that [_extract_post_fields] builds for a submission. *)
Definition record_of (post : Item) : pydict :=
  fold_left (fun d f => dict_set d f (Spec.field_value post f)) POST_FIELDS [].

(** What the handlers of [extract_posts] make of an exception. *)
Definition wrap_failure (e : exn) : exn :=
  if is_prawcore e
  then Exn RedditAPIException ("Reddit API error: " ++ exn_msg e)
  else Exn RedditAPIException ("Post extraction failed: " ++ exn_msg e).

(** What a partition gives under an API: the records of its listing, or
    the failure of the partition. *)
Definition partition_outcome (api : request -> Listing) (subreddit time_filter : string)
    (limit : option Z) (sort : string) : result (list pydict) :=
  match select_listing subreddit time_filter limit sort with
  | Raise e => Raise (wrap_failure e)
  | Ok r =>
      match listing_error (api r) with
      | Some e => Raise (wrap_failure e)
      | None => Ok (map record_of (listing_items (api r)))
      end
  end.

(** The posts a partition adds to a batch: none when it fails. *)
Definition partition_posts (api : request -> Listing) (time_filter : string)
    (limit : option Z) (sort : string) (subreddit : string) : list pydict :=
  match partition_outcome api subreddit time_filter limit sort with
  | Ok posts => posts
  | Raise _ => []
  end.

(** The listing a partition asks for: none when its sort mode is refused. *)
Definition partition_requests (time_filter : string) (limit : option Z)
    (sort : string) (subreddit : string) : list request :=
  match select_listing subreddit time_filter limit sort with
  | Ok r => [r]
  | Raise _ => []
  end.

(** The pause after a partition: one, when the partition succeeded and the
    delay is positive. *)
Definition partition_pauses (api : request -> Listing) (time_filter : string)
    (limit : option Z) (sort : string) (delay : Q) (subreddit : string) : list Q :=
  match partition_outcome api subreddit time_filter limit sort with
  | Ok _ => if Qgtb delay 0 then [delay] else []
  | Raise _ => []
  end.

(** A stage that, given an object whose frame satisfies [P], returns, when
    it returns, an object whose frame satisfies [Q]. *)
Definition establishes (P Q : DataFrame -> Prop) (stage : loc -> M loc) : Prop :=
  forall df w out w',
    (df < List.length (heap w))%nat ->
    P (nth df (heap w) empty_frame) ->
    stage df w = (Ok out, w') ->
    (out < List.length (heap w'))%nat /\ Q (nth out (heap w') empty_frame).

(** Statements that leave the index alone and assign to no column outside
    [touched]. *)
Definition untouched (touched : list string) (body : F unit) : Prop :=
  forall frame,
    nrows (snd (body frame)) = nrows frame /\
    forall c, ~ In c touched -> get_column (snd (body frame)) c = get_column frame c.

(** A column without a null. *)
Definition no_null (s : Series) : bool := forallb negb (isnull s).

(** A column without two equal values. *)
Definition unique (s : Series) : bool := forallb negb (duplicated s).

(** A test that holds of a column, or the column is not there. *)
Definition column_is (test : Series -> bool) (frame : DataFrame) (col : string) : bool :=
  match get_column frame col with
  | Some s => test s
  | None => true
  end.

(** What type coercion makes of an element of a string column. *)
Definition coerced_text (v : pyobj) : pyobj :=
  if String.eqb (py_str v) "nan" then PNaN else PStr (py_str v).

(** The columns that feature engineering assigns. *)
Definition engineered_columns : list string :=
  ["title_length"; "title_word_count"; "selftext_length"; "selftext_word_count";
   "engagement_score"; "popularity_category"].


(** What [prepare_for_export] makes of a frame. *)
Definition export_of (format : string) (frame : DataFrame) : DataFrame :=
  DataTransformer.map_columns DataTransformer.fill_blank
    (if String.eqb (DataTransformer.lower format) "csv"
     then DataTransformer.map_columns DataTransformer.dt_strftime frame
     else frame).

(** The name [run] gives the output file. *)
Definition output_name (output_filename : option string) (now : Z) : string :=
  match output_filename with
  | Some name => name
  | None => "reddit_" ++ ts_yyyymmdd now
  end.

(** Where [run] writes. *)
Definition output_path (w : World) (output_filename : option string) : string :=
  path_join (output_dir w) (output_name output_filename (clock w) ++ ".csv").

Definition is_pstr (v : pyobj) : bool := match v with PStr _ => true | _ => false end.

(** A text as cleaning leaves it: not empty, and nothing to strip. *)
Definition trimmed (v : pyobj) : bool :=
  match v with
  | PStr x => negb (String.eqb x "") && String.eqb (strip x) x
  | _ => true
  end.

(** Not one of the names that stand for a deleted account. *)
Definition named_author (v : pyobj) : bool :=
  negb (is_one_of ["[deleted]"; "[removed]"; "nan"] v).

(** A test that holds of every element of a column. *)
Definition all_elements (test : pyobj -> bool) (s : Series) : bool :=
  forallb test (to_objects s).

(** The text columns as cleaning leaves them. *)
Definition clean_text (frame : DataFrame) : Prop :=
  column_is (all_elements trimmed) frame "title" = true /\
  column_is (all_elements trimmed) frame "selftext" = true /\
  column_is (all_elements named_author) frame "author" = true.

(** A finding of one kind is not among findings of other kinds. *)
Ltac no_such_finding :=
  repeat match goal with
         | |- context [if ?c then _ else _] => destruct c
         end;
  split; simpl; intuition discriminate.

End Notions.

(** * Properties *)

(** ** Dictionaries and strings *)



Lemma mem_In (x : string) (l : list string) : mem x l = true <-> In x l.
Proof.
  unfold mem. rewrite existsb_exists. split.
  - intros [y [Hy E]]. apply String.eqb_eq in E. now subst.
  - intros H. exists x. split; auto. apply String.eqb_refl.
Qed.

Lemma mem_false (x : string) (l : list string) : mem x l = false <-> ~ In x l.
Proof.
  rewrite <- mem_In. destruct (mem x l); split; intros H; congruence.
Qed.

Lemma distinct_NoDup (l : list string) : distinct l = true <-> NoDup l.
Proof.
  induction l as [|x l IH]; simpl.
  - split; auto using NoDup_nil.
  - rewrite andb_true_iff, negb_true_iff, mem_false, IH. split.
    + intros [H1 H2]. now constructor.
    + intros H. inversion H; subst. auto.
Qed.

Lemma starts_with_append (p s : string) : starts_with p (p ++ s) = true.
Proof.
  induction p as [|a p IH]; simpl; auto.
  now rewrite Ascii.eqb_refl.
Qed.

Lemma contains_prefix (p s : string) : contains p (p ++ s) = true.
Proof.
  destruct (p ++ s) eqn:E; simpl; rewrite <- E, starts_with_append; auto.
Qed.

Lemma contains_later (p s : string) (a : ascii) :
  contains p s = true -> contains p (String a s) = true.
Proof.
  intros H. simpl. rewrite H. apply orb_true_r.
Qed.

Lemma contains_append (p t s : string) :
  contains p s = true -> contains p (t ++ s) = true.
Proof.
  intros H. induction t as [|a t IH]; simpl; auto.
  rewrite IH. apply orb_true_r.
Qed.

(** ** Running stateful code *)

Lemma bind_ok {A B} (m : M A) (k : A -> M B) (w w1 : World) (a : A) :
  m w = (Ok a, w1) -> bind m k w = k a w1.
Proof. intros H. unfold bind. now rewrite H. Qed.


Lemma try_catch_ok {A} (m : M A) (h : exn -> M A) (w w1 : World) (a : A) :
  m w = (Ok a, w1) -> try_catch m h w = (Ok a, w1).
Proof. intros H. unfold try_catch. now rewrite H. Qed.

Lemma try_catch_raise {A} (m : M A) (h : exn -> M A) (w w1 : World) (e : exn) :
  m w = (Raise e, w1) -> try_catch m h w = h e w1.
Proof. intros H. unfold try_catch. now rewrite H. Qed.

Lemma heap_with_heap (h : list DataFrame) (w : World) : heap (with_heap h w) = h.
Proof. reflexivity. Qed.

Lemma load_eq (l : loc) (w : World) : load l w = (Ok (nth l (heap w) empty_frame), w).
Proof. reflexivity. Qed.

Lemma nth_alloc {A} (h : list A) (x d : A) : nth (List.length h) (h ++ [x])%list d = x.
Proof. rewrite app_nth2 by lia. now rewrite Nat.sub_diag. Qed.

(** ** The extractor *)

Module ExtractorFacts.
Import Spec.
Import RedditExtractor.

Lemma extract_fields_fold (post : Item) (fields : list string) (d0 : pydict) :
  extract_fields post fields d0 =
  Ok (fold_left (fun d f => dict_set d f (field_value post f)) fields d0).
Proof.
  revert d0. induction fields as [|f fields IH]; intros d0; simpl; auto.
  rewrite <- IH. unfold field_value.
  destruct (extract_field post f) as [v|e]; reflexivity.
Qed.



Lemma dict_keys_set (d : pydict) (k : string) (v : pyobj) :
  dict_keys (dict_set d k v) =
  if mem k (dict_keys d) then dict_keys d else (dict_keys d ++ [k])%list.
Proof.
  unfold dict_keys, mem. induction d as [|[k' v'] d IH]; simpl; auto.
  destruct (String.eqb k k') eqn:E; simpl; auto.
  rewrite IH. now destruct (existsb (String.eqb k) (map fst d)).
Qed.

Lemma fold_set_keys (post : Item) (fields : list string) (d0 : pydict) :
  NoDup (dict_keys d0 ++ fields)%list ->
  dict_keys (fold_left (fun d f => dict_set d f (field_value post f)) fields d0) =
  (dict_keys d0 ++ fields)%list.
Proof.
  revert d0. induction fields as [|f fields IH]; intros d0 Hnd; simpl.
  - now rewrite app_nil_r.
  - assert (Hf : mem f (dict_keys d0) = false).
    { apply mem_false. intros Hin. apply NoDup_remove_2 in Hnd.
      apply Hnd. apply in_or_app. now left. }
    rewrite IH; rewrite dict_keys_set, Hf.
    + now rewrite <- app_assoc.
    + now rewrite <- app_assoc.
Qed.

Lemma POST_FIELDS_NoDup : NoDup POST_FIELDS.
Proof. apply distinct_NoDup. reflexivity. Qed.


(** The damaged submission: two fields fail, both come out as None, every
    key is there. *)
Example damaged_post_extracted :
  _extract_post_fields Examples.damaged_post =
  Ok [("id", PStr "abc"); ("subreddit", PObj "pics"); ("title", PStr "A picture");
      ("selftext", PStr ""); ("score", PInt 5); ("num_comments", PInt 2);
      ("author", PNone); ("created_utc", PNone);
      ("upvote_ratio", PFloat (97 # 100)); ("url", PStr "https://i.redd.it/x.png");
      ("permalink", PStr "/r/pics/abc"); ("is_self", PBool false);
      ("over_18", PBool false); ("stickied", PBool false);
      ("distinguished", PNone)].
Proof. reflexivity. Qed.

Lemma extract_items_ok (posts : list Item) (acc : list pydict) :
  exists l, extract_items posts acc = Ok l /\
            (posts = [] -> l = acc).
Proof.
  revert acc. induction posts as [|post posts IH]; intros acc; simpl.
  - exists acc. auto.
  - unfold _extract_post_fields. rewrite extract_fields_fold.
    set (d := fold_left (fun d f => dict_set d f (field_value post f)) POST_FIELDS []).
    cbn [try_except rbind].
    destruct (IH (acc ++ [d])%list) as [l [Hl _]].
    exists l. split; auto. discriminate.
Qed.

Lemma select_listing_invalid (subreddit time_filter : string) (limit : option Z)
    (sort : string) :
  valid_sort sort = false ->
  select_listing subreddit time_filter limit sort = Raise (invalid_sort sort).
Proof.
  unfold valid_sort, mem, select_listing. simpl.
  destruct (String.eqb sort "top"); [discriminate|].
  destruct (String.eqb sort "hot"); [discriminate|].
  destruct (String.eqb sort "new"); [discriminate|].
  destruct (String.eqb sort "rising"); [discriminate|]. reflexivity.
Qed.

(** A sort mode outside the enumerated set: [extract_posts] fails before
    any listing is iterated and leaves the world as it was; the
    [ValueError] raised for the mode is caught by the function's own
    handler, and the caller receives a [RedditAPIException] that carries
    the text of the [ValueError]. *)
Lemma extract_posts_invalid_sort (subreddit time_filter : string)
    (limit : option Z) (sort : string) (w : World) :
  valid_sort sort = false ->
  extract_posts subreddit time_filter limit sort w =
  (Raise (Exn RedditAPIException
              ("Post extraction failed: Invalid sort method: " ++ sort)), w).
Proof.
  intros H. unfold extract_posts, try_catch, bind, lift.
  rewrite select_listing_invalid by assumption. reflexivity.
Qed.

(** C6, on the code. Called with the sort mode 'best', which is outside
    the enumerated set, [extract_posts] does fail before anything is
    fetched, but not with the invalid-argument error: the [ValueError] it
    raises is caught by its own handler and the caller receives a
    [RedditAPIException], "Post extraction failed: Invalid sort method:
    best". *)
Theorem invalid_sort_raises_api_exception :
  let w := Examples.world [] Examples.noon in
  valid_sort "best" = false /\
  select_listing "pics" "all" None "best" =
  Raise (Exn ValueError "Invalid sort method: best") /\
  extract_posts "pics" "all" None "best" w =
  (Raise (Exn RedditAPIException
              "Post extraction failed: Invalid sort method: best"), w) /\
  fetched (snd (extract_posts "pics" "all" None "best" w)) = [] /\
  RedditAPIException <> ValueError.
Proof.
  cbv zeta. split; [reflexivity|]. split; [reflexivity|].
  rewrite (extract_posts_invalid_sort "pics" "all" None "best") by reflexivity.
  split; [reflexivity|]. split; [reflexivity|discriminate].
Qed.

End ExtractorFacts.

(** ** Batch aggregation and the empty run *)

Module BatchFacts.
Import Spec.
Import RedditExtractor ExtractorFacts.

Lemma only_logged_refl (w : World) : only_logged w w.
Proof. repeat split. Qed.

Lemma only_logged_trans (w1 w2 w3 : World) :
  only_logged w1 w2 -> only_logged w2 w3 -> only_logged w1 w3.
Proof.
  unfold only_logged. intros (a1 & a2 & a3 & a4 & a5 & a6) (b1 & b2 & b3 & b4 & b5 & b6).
  repeat split; congruence.
Qed.

Lemma partition_fails_yields_nothing api subreddit time_filter limit sort :
  partition_fails api subreddit time_filter limit sort ->
  yields_nothing api subreddit time_filter limit sort.
Proof. intros H r Hr. left. now apply H. Qed.

Lemma extract_posts_nothing (subreddit time_filter : string) (limit : option Z)
    (sort : string) (w : World) :
  yields_nothing (reddit w) subreddit time_filter limit sort ->
  exists r w',
    extract_posts subreddit time_filter limit sort w = (r, w') /\
    only_logged w w' /\
    ((exists e, r = Raise e) \/ r = Ok []).
Proof.
  intros H. unfold extract_posts, try_catch, bind, lift.
  destruct (select_listing subreddit time_filter limit sort) as [req|e] eqn:Hsel.
  - simpl.
    destruct (extract_items_ok (listing_items (reddit w req)) []) as [l [Hl Hnil]].
    rewrite Hl.
    destruct (listing_error (reddit w req)) as [e|] eqn:Herr.
    + unfold raise. destruct (is_prawcore e);
        do 2 eexists; (split; [reflexivity|]); (split; [repeat split|]);
        left; eexists; reflexivity.
    + unfold ret. destruct (H req Hsel) as [Hbroken|Hempty]; [congruence|].
      rewrite (Hnil Hempty).
      do 2 eexists. split; [reflexivity|]. split; [repeat split|]. now right.
  - unfold raise. destruct (is_prawcore e);
      do 2 eexists; (split; [reflexivity|]); (split; [apply only_logged_refl|]);
      left; eexists; reflexivity.
Qed.

Lemma extract_each_nothing (subreddits : list string) (time_filter : string)
    (limit : option Z) (sort : string) (delay : Q) (w : World) :
  (forall s, In s subreddits ->
             yields_nothing (reddit w) s time_filter limit sort) ->
  exists w',
    extract_each subreddits time_filter limit sort delay [] w = (Ok [], w') /\
    only_logged w w'.
Proof.
  revert w. induction subreddits as [|s subreddits IH]; intros w H; simpl.
  - exists w. split; [reflexivity|apply only_logged_refl].
  - destruct (extract_posts_nothing s time_filter limit sort w) as (r & w1 & Hr & Hlog & Hres).
    { apply H. now left. }
    assert (Hstep : exists w2,
      extract_one s time_filter limit sort delay [] w = (Ok [], w2) /\
      only_logged w w2).
    { unfold extract_one, try_catch, bind. rewrite Hr.
      destruct Hres as [[e ->]| ->].
      - exists w1. split; [reflexivity|assumption].
      - simpl. destruct (Qgtb delay 0); simpl.
        + eexists. split; [reflexivity|].
          eapply only_logged_trans; [exact Hlog|]. repeat split.
        + exists w1. split; [reflexivity|assumption]. }
    destruct Hstep as (w2 & Hstep & Hlog2).
    destruct (IH w2) as (w3 & Hrest & Hlog3).
    { intros s' Hs'. destruct Hlog2 as (_ & _ & Hapi & _). rewrite Hapi.
      apply H. now right. }
    exists w3. split.
    + unfold bind at 1. rewrite Hstep. exact Hrest.
    + eapply only_logged_trans; eassumption.
Qed.

(** C1. When every partition fails (or yields no post),
    [extract_posts_batch] returns, without raising, a DataFrame that is
    empty; and [run], which receives it, raises a
    [RedditPipelineException] whose message cites "No data extracted",
    having written no file. *)
Theorem empty_batch_aborts_run (subreddits : list string) (time_filter : string)
    (limit : option Z) (sort : string) (delay : Q)
    (output_filename : option string) (validate transform : bool) (w : World) :
  (forall s, In s subreddits ->
             yields_nothing (reddit w) s time_filter limit sort) ->
  (exists df w',
     extract_posts_batch subreddits time_filter limit sort delay w = (Ok df, w') /\
     nth df (heap w') empty_frame = empty_frame /\
     frame_empty (nth df (heap w') empty_frame) = true /\
     files w' = files w) /\
  (exists w',
     RedditPipeline.run subreddits time_filter limit sort output_filename
                        validate transform w =
     (Raise (Exn RedditPipelineException
                 "Pipeline execution failed: No data extracted from Reddit"), w') /\
     files w' = files w) /\
  contains "No data extracted"
           "Pipeline execution failed: No data extracted from Reddit" = true.
Proof.
  intros H. split; [|split; [|reflexivity]].
  - destruct (extract_each_nothing subreddits time_filter limit sort delay w H)
      as (w1 & Hall & Hlog).
    unfold extract_posts_batch, bind. rewrite Hall. unfold alloc.
    do 2 eexists. split; [reflexivity|]. simpl.
    rewrite nth_alloc. repeat split. apply Hlog.
  - destruct (extract_each_nothing subreddits time_filter limit sort 1 w H)
      as (w1 & Hall & Hlog).
    assert (Hbatch :
      extract_posts_batch subreddits time_filter limit sort 1 w =
      (Ok (List.length (heap w1)), with_heap (heap w1 ++ [empty_frame])%list w1)).
    { unfold extract_posts_batch. now rewrite (bind_ok _ _ _ _ _ Hall). }
    eexists. split.
    + unfold RedditPipeline.run.
      rewrite (try_catch_raise _ _ _
                 (with_heap (heap w1 ++ [empty_frame])%list w1)
                 RedditPipeline.no_data); [reflexivity|].
      rewrite (bind_ok _ _ _ _ _ Hbatch).
      rewrite (bind_ok _ _ _ _ _ (load_eq _ _)).
      cbv beta. rewrite heap_with_heap, nth_alloc. reflexivity.
    + simpl. apply Hlog.
Qed.

(** Every subreddit but r/pics is not found. *)
Lemma empty_batch_aborts_run_witness :
  (exists w',
     RedditPipeline.run ["nope"; "neither"] "all" None "top" None true true
                        (Examples.world [] Examples.noon) =
     (Raise (Exn RedditPipelineException
                 "Pipeline execution failed: No data extracted from Reddit"), w') /\
     files w' = []).
Proof.
  apply (empty_batch_aborts_run ["nope"; "neither"] "all" None "top" 1 None true true
                                (Examples.world [] Examples.noon)).
  intros s Hs r Hr. left.
  destruct Hs as [<-|[<-|[]]]; inversion Hr; subst; discriminate.
Defined.

End BatchFacts.

(** ** Deduplication *)

Module DedupFacts.
Import Spec.
Import DataTransformer.

Lemma subseq_nil_l {A} (l : list A) : subseq [] l.
Proof. induction l; constructor; auto. Qed.

Lemma mask_filter_subseq {A} (m : list bool) (l : list A) :
  subseq (mask_filter m l) l.
Proof.
  revert m. induction l as [|x l IH]; intros [|b m]; simpl;
    try apply subseq_nil_l.
  destruct b; constructor; apply IH.
Qed.

Lemma mask_filter_map {A B} (f : A -> B) (m : list bool) (l : list A) :
  mask_filter m (map f l) = map f (mask_filter m l).
Proof.
  revert m. induction l as [|x l IH]; intros [|b m]; simpl; auto.
  destruct b; simpl; now rewrite IH.
Qed.

Lemma to_objects_filter (m : list bool) (s : Series) :
  to_objects (series_filter m s) = mask_filter m (to_objects s).
Proof. destruct s; simpl; rewrite ?mask_filter_map; reflexivity. Qed.

Lemma count_true_cons (b : bool) (m : list bool) :
  count_true (b :: m) = ((if b then 1 else 0) + count_true m)%nat.
Proof. unfold count_true. simpl. now destruct b. Qed.

Lemma length_mask_filter {A} (m : list bool) (l : list A) :
  (List.length (mask_filter m l) <= count_true m)%nat.
Proof.
  revert l. induction m as [|b m IH]; intros [|x l]; simpl; try lia.
  rewrite count_true_cons. destruct b; simpl; specialize (IH l); lia.
Qed.

Lemma mask_filter_all_true {A} (n : nat) (l : list A) :
  (List.length l <= n)%nat -> mask_filter (repeat true n) l = l.
Proof.
  revert l. induction n as [|n IH]; intros [|x l] H; simpl in *; auto; try lia.
  rewrite IH; auto. lia.
Qed.

Lemma count_true_firstn_le (n : nat) (m : list bool) :
  (count_true (firstn n m) <= count_true m)%nat.
Proof.
  revert n. induction m as [|b m IH]; intros [|n]; simpl;
    rewrite ?count_true_cons; try (unfold count_true; simpl; lia).
  specialize (IH n). lia.
Qed.

Lemma count_true_firstn_repeat (n k : nat) :
  (n <= k)%nat -> count_true (firstn n (repeat true k)) = n.
Proof.
  revert k. induction n as [|n IH]; intros [|k] H; simpl; try reflexivity; try lia.
  rewrite count_true_cons, IH; lia.
Qed.

(** A value kept by the filter, looked for among fewer earlier values, is
    still a first occurrence. *)
Lemma first_occurrence_filtered (l : list pyobj) (E E' : list pyobj) :
  (forall v, seen v E' = true -> seen v E = true) ->
  first_occurrence E' (mask_filter (first_occurrence E l) l) =
  repeat true (count_true (first_occurrence E l)).
Proof.
  revert E E'. induction l as [|v l IH]; intros E E' Hsub; simpl; auto.
  rewrite count_true_cons.
  destruct (seen v E) eqn:Hv; simpl.
  - apply IH. intros x Hx. unfold seen in *. simpl.
    rewrite (Hsub x Hx). apply orb_true_r.
  - assert (Hv' : seen v E' = false).
    { destruct (seen v E') eqn:E1; auto. apply Hsub in E1. congruence. }
    rewrite Hv'. simpl. f_equal. apply IH.
    intros x Hx. unfold seen in *. simpl in *.
    destruct (py_eqb x v); simpl in *; auto.
Qed.

Lemma lookup_map (f : Series -> Series) (c : string) (cols : list (string * Series)) :
  lookup c (map (fun cs => (fst cs, f (snd cs))) cols) = option_map f (lookup c cols).
Proof.
  induction cols as [|[c' s] cols IH]; simpl; auto.
  destruct (String.eqb c c'); auto.
Qed.

Lemma get_column_filter (m : list bool) (frame : DataFrame) (c : string) :
  get_column (frame_filter m frame) c = option_map (series_filter m) (get_column frame c).
Proof. unfold get_column, frame_filter. simpl. apply lookup_map. Qed.

Lemma series_filter_all_true (k : nat) (m : list bool) (s : Series) :
  count_true m = k ->
  series_filter (repeat true k) (series_filter m s) = series_filter m s.
Proof.
  intros <-. destruct s; simpl; f_equal;
    apply mask_filter_all_true, length_mask_filter.
Qed.

Lemma drop_duplicates_again (frame : DataFrame) (ids : Series) :
  drop_duplicates_id
    (drop_duplicates_id frame ids)
    (series_filter (first_occurrence [] (to_objects ids)) ids) =
  drop_duplicates_id frame ids.
Proof.
  unfold drop_duplicates_id.
  rewrite to_objects_filter.
  rewrite (first_occurrence_filtered _ [] []) by auto.
  set (m := first_occurrence [] (to_objects ids)).
  unfold frame_filter. simpl. f_equal.
  - apply count_true_firstn_repeat, count_true_firstn_le.
  - rewrite map_map. apply map_ext. intros [c s]. simpl. f_equal.
    now apply series_filter_all_true.
Qed.

Lemma remove_duplicates_eq (df : loc) (w : World) :
  _remove_duplicates df w =
  match get_column (nth df (heap w) empty_frame) "id" with
  | Some ids =>
      (Ok (List.length (heap w)),
       with_heap (heap w ++ [drop_duplicates_id (nth df (heap w) empty_frame) ids])%list w)
  | None => (Ok df, w)
  end.
Proof.
  unfold _remove_duplicates. rewrite (bind_ok _ _ _ _ _ (load_eq _ _)).
  destruct (get_column (nth df (heap w) empty_frame) "id"); reflexivity.
Qed.

Lemma seen_false (v : pyobj) (E : list pyobj) :
  seen v E = false <-> forall x, In x E -> py_eqb v x = false.
Proof.
  unfold seen. split.
  - intros H x Hx. destruct (py_eqb v x) eqn:Ex; auto.
    assert (existsb (py_eqb v) E = true) by (apply existsb_exists; eauto).
    congruence.
  - intros H. destruct (existsb (py_eqb v) E) eqn:Ex; auto.
    apply existsb_exists in Ex. destruct Ex as [x [Hx Hv]].
    rewrite (H x Hx) in Hv. discriminate.
Qed.

Lemma first_occurrence_nth (l E : list pyobj) (i : nat) :
  (i < List.length l)%nat ->
  (nth i (first_occurrence E l) false = true <->
   seen (nth i l PNone) E = false /\
   forall j, (j < i)%nat -> py_eqb (nth i l PNone) (nth j l PNone) = false).
Proof.
  revert E i. induction l as [|v l IH]; intros E i Hi; simpl in Hi; [lia|].
  destruct i as [|i]; simpl.
  - rewrite negb_true_iff. split.
    + intros H. split; auto. intros j Hj. lia.
    + intros [H _]. exact H.
  - rewrite IH by lia. rewrite !seen_false. split.
    + intros [H1 H2]. split.
      * intros x Hx. apply H1. now right.
      * intros [|j] Hj.
        -- apply H1. now left.
        -- apply H2. lia.
    + intros [H1 H2]. split.
      * intros x [<-|Hx].
        -- apply (H2 0%nat). lia.
        -- now apply H1.
      * intros j Hj. apply (H2 (S j)). lia.
Qed.

Lemma Qeqb_sym (x y : Q) : Qeqb x y = Qeqb y x.
Proof.
  unfold Qeqb. destruct (Qeq_bool x y) eqn:E1, (Qeq_bool y x) eqn:E2; auto.
  - apply Qeq_bool_iff in E1. symmetry in E1. apply Qeq_bool_iff in E1. congruence.
  - apply Qeq_bool_iff in E2. symmetry in E2. apply Qeq_bool_iff in E2. congruence.
Qed.

Lemma py_eqb_sym (a b : pyobj) : py_eqb a b = py_eqb b a.
Proof.
  unfold py_eqb.
  destruct (num_of a) as [x|] eqn:Ha, (num_of b) as [y|] eqn:Hb; auto.
  - apply Qeqb_sym.
  - destruct a, b; simpl in *; try discriminate; auto using String.eqb_sym, Z.eqb_sym.
Qed.

Lemma is_null_not_eq (a b : pyobj) :
  is_null a = false -> is_null b = false ->
  filter (fun v => negb (is_null v)) [a; b] = [a; b].
Proof. intros Ha Hb. simpl. now rewrite Ha, Hb. Qed.

(** The mask of three identifiers of which exactly one pair is equal. *)
Lemma first_occurrence_three (a b c : pyobj) :
  one_repeated a b c = true ->
  (first_occurrence [] [a; b; c] = [true; false; true] /\ py_eqb a c = false) \/
  (first_occurrence [] [a; b; c] = [true; true; false] /\ py_eqb a b = false).
Proof.
  unfold one_repeated. intros H.
  cbn [first_occurrence seen existsb negb orb].
  rewrite (py_eqb_sym b a), (py_eqb_sym c b), (py_eqb_sym c a).
  destruct (py_eqb a b), (py_eqb a c), (py_eqb b c); try discriminate;
    cbn [negb orb]; auto.
Qed.

Lemma nunique_two (x y : pyobj) :
  py_eqb x y = false -> is_null x = false -> is_null y = false ->
  nunique (SObject [x; y]) = 2%nat.
Proof.
  intros Hxy Hx Hy. unfold nunique, value_counts.
  cbn [to_objects filter]. rewrite Hx, Hy.
  cbn [negb first_occurrence seen existsb orb].
  rewrite (py_eqb_sym y x), Hxy. reflexivity.
Qed.

Lemma nunique_objects (s : Series) : nunique s = nunique (SObject (to_objects s)).
Proof. reflexivity. Qed.

(** C9, as the code has it. The deduplication stage returns a dataset
    without an 'id' column as it is. Otherwise it returns a new dataset
    and leaves the one it was given unchanged; a row survives exactly when
    no earlier row has an equal identifier, so the first occurrence of
    each identifier is kept; the surviving rows are in their order of
    arrival, every column is the column it comes from with the dropped
    rows left out, and no identifier is repeated among them. The stage is
    idempotent: applied to its own result it returns an equal dataset. And
    from a dataset of three rows where exactly one identifier is repeated
    it returns two rows whose identifiers differ. *)
Theorem remove_duplicates_keeps_first (df : loc) (w : World) :
  let frame := nth df (heap w) empty_frame in
  exists out w',
    _remove_duplicates df w = (Ok out, w') /\
    let kept := nth out (heap w') empty_frame in
    firstn (List.length (heap w)) (heap w') = heap w /\
    (* no id column *)
    (get_column frame "id" = None -> out = df /\ w' = w) /\
    (* first occurrence, order of arrival *)
    (forall ids, get_column frame "id" = Some ids ->
       let m := first_occurrence [] (to_objects ids) in
       (forall i, (i < series_len ids)%nat ->
          (nth i m false = true <->
           forall j, (j < i)%nat ->
             py_eqb (nth i (to_objects ids) PNone) (nth j (to_objects ids) PNone) = false)) /\
       out = List.length (heap w) /\
       nrows kept = count_true (firstn (nrows frame) m) /\
       column_names kept = column_names frame /\
       (forall c s, get_column frame c = Some s ->
          exists s', get_column kept c = Some s' /\
                     to_objects s' = mask_filter m (to_objects s) /\
                     subseq (to_objects s') (to_objects s)) /\
       Notions.column_is Notions.unique kept "id" = true) /\
    (* idempotence *)
    (exists out2 w2,
       _remove_duplicates out w' = (Ok out2, w2) /\
       nth out2 (heap w2) empty_frame = kept) /\
    (* three rows, one repeated identifier *)
    (forall (ids : Series) (a b c : pyobj),
       nrows frame = 3%nat ->
       get_column frame "id" = Some ids ->
       to_objects ids = [a; b; c] ->
       one_repeated a b c = true ->
       nrows kept = 2%nat /\
       exists ids' x y,
         get_column kept "id" = Some ids' /\
         to_objects ids' = [x; y] /\ py_eqb x y = false /\
         (is_null a = false -> is_null b = false -> is_null c = false ->
          nunique ids' = 2%nat)).
Proof.
  intros frame. rewrite remove_duplicates_eq. fold frame.
  destruct (get_column frame "id") as [ids|] eqn:Hid.
  - do 2 eexists. split; [reflexivity|]. cbv zeta.
    rewrite heap_with_heap, nth_alloc.
    set (m := first_occurrence [] (to_objects ids)).
    assert (Hid' : get_column (drop_duplicates_id frame ids) "id" =
                   Some (series_filter m ids)).
    { unfold drop_duplicates_id. fold m. now rewrite get_column_filter, Hid. }
    split; [|split; [discriminate|split; [|split]]].
    + rewrite firstn_app, Nat.sub_diag, firstn_all. cbn [firstn]. apply app_nil_r.
    + intros ids0 E. inversion E; subst ids0. fold m.
      split; [|split; [reflexivity|split; [reflexivity|split; [|split]]]].
      * intros i Hi. unfold m. unfold series_len in Hi.
        rewrite first_occurrence_nth by assumption. split.
        -- intros [_ H]. exact H.
        -- intros H. split; [reflexivity|exact H].
      * unfold drop_duplicates_id, frame_filter, column_names. cbn [columns].
        rewrite map_map. reflexivity.
      * intros c s Hs. exists (series_filter m s).
        unfold drop_duplicates_id. fold m.
        rewrite get_column_filter, Hs. split; [reflexivity|].
        rewrite to_objects_filter. split; [reflexivity|apply mask_filter_subseq].
      * unfold Notions.column_is. rewrite Hid'.
        unfold Notions.unique, duplicated, m. rewrite to_objects_filter.
        rewrite (first_occurrence_filtered _ [] []) by auto.
        induction (count_true (first_occurrence [] (to_objects ids))); simpl; auto.
    + do 2 eexists. rewrite remove_duplicates_eq, heap_with_heap, nth_alloc, Hid'.
      split; [reflexivity|].
      rewrite heap_with_heap, nth_alloc. apply drop_duplicates_again.
    + intros ids0 a b c Hrows E Hobjs Hone. inversion E; subst ids0.
      rewrite Hid'. unfold drop_duplicates_id. unfold m. rewrite Hobjs.
      unfold frame_filter at 1. cbn [nrows]. rewrite Hrows.
      destruct (first_occurrence_three a b c Hone) as [[-> Hac]|[-> Hab]].
      * split; [reflexivity|].
        exists (series_filter [true; false; true] ids), a, c.
        split; [reflexivity|].
        rewrite nunique_objects, to_objects_filter, Hobjs.
        cbn [mask_filter]. split; [reflexivity|]. split; [assumption|].
        intros Ha _ Hc. now apply nunique_two.
      * split; [reflexivity|].
        exists (series_filter [true; true; false] ids), a, b.
        split; [reflexivity|].
        rewrite nunique_objects, to_objects_filter, Hobjs.
        cbn [mask_filter]. split; [reflexivity|]. split; [assumption|].
        intros Ha Hb _. now apply nunique_two.
  - exists df, w. split; [reflexivity|]. cbv zeta. fold frame.
    split; [apply firstn_all|]. split; [auto|]. split; [discriminate|]. split.
    + exists df, w. rewrite remove_duplicates_eq. fold frame. rewrite Hid.
      split; reflexivity.
    + intros ids a b c _ E. discriminate.
Qed.

(** tests/test_data_transformer.py, [test_remove_duplicates]: from ids '1',
    '1' and '2' the stage returns two rows and two different ids. *)
Lemma remove_duplicates_keeps_first_witness :
  exists out w',
    _remove_duplicates 0%nat (Examples.world [Examples.repeated_id_frame] Examples.noon) =
    (Ok out, w') /\
    nrows (nth out (heap w') empty_frame) = 2%nat /\
    exists ids' x y,
      get_column (nth out (heap w') empty_frame) "id" = Some ids' /\
      to_objects ids' = [x; y] /\ py_eqb x y = false.
Proof.
  destruct (remove_duplicates_keeps_first 0%nat
              (Examples.world [Examples.repeated_id_frame] Examples.noon))
    as (out & w' & Hrun & _ & _ & _ & _ & H).
  destruct (H (SObject [PStr "1"; PStr "1"; PStr "2"]) (PStr "1") (PStr "1") (PStr "2"))
    as (Hrows & ids' & x & y & H1 & H2 & H3 & _); try reflexivity.
  exists out, w'. split; [exact Hrun|]. split; [exact Hrows|].
  exists ids', x, y. split; [exact H1|]. split; [exact H2|exact H3].
Defined.

(** After the whole transformation fewer rows can be left: cleaning drops
    the rows without a title before the duplicates are removed. Of three
    rows with the ids '1', '1' and '2', the last without a title, one row
    is left. *)
Lemma transform_can_leave_one_row :
  let frame := Examples.untitled_frame in
  let run := transform_reddit_posts 0%nat (Examples.world [frame] Examples.noon) in
  nrows frame = 3%nat /\
  option_map to_objects (get_column frame "id") = Some [PStr "1"; PStr "1"; PStr "2"] /\
  one_repeated (PStr "1") (PStr "1") (PStr "2") = true /\
  fst run = Ok 4%nat /\
  nrows (nth 4 (heap (snd run)) empty_frame) = 1%nat /\
  option_map to_objects (get_column (nth 4 (heap (snd run)) empty_frame) "id") =
  Some [PStr "1"].
Proof. repeat split; vm_compute; reflexivity. Qed.

(** The whole transformation of that dataset also ends with two rows. *)
Example transform_repeated_id :
  let run := transform_reddit_posts 0%nat
               (Examples.world [Examples.repeated_id_frame] Examples.noon) in
  fst run = Ok 4%nat /\
  nrows (nth 4 (heap (snd run)) empty_frame) = 2%nat /\
  option_map to_objects (get_column (nth 4 (heap (snd run)) empty_frame) "id") =
  Some [PStr "1"; PStr "2"].
Proof. repeat split; vm_compute; reflexivity. Qed.

End DedupFacts.

(** ** Objects and their frames *)

Module HeapFacts.
Import Spec.

Lemma with_heap_same (w : World) : with_heap (heap w) w = w.
Proof. now destruct w. Qed.

Lemma keeps_objects_refl (n : nat) (w : World) :
  (n <= List.length (heap w))%nat -> keeps_objects n w w.
Proof. intros H. repeat split; auto using with_heap_same. Qed.




Lemma keeps_lift (n : nat) {A} (r : result A) : keeps n (fun _ => True) (lift r).
Proof. intros w Hn. simpl. split; [now apply keeps_objects_refl|]. auto. Qed.






Lemma length_update_nth {A} (l : nat) (x : A) (h : list A) :
  List.length (update_nth l x h) = List.length h.
Proof.
  revert l. induction h as [|y h IH]; intros [|l]; simpl; auto.
Qed.


Lemma nth_update_nth {A} (l : nat) (x d : A) (h : list A) :
  (l < List.length h)%nat -> nth l (update_nth l x h) d = x.
Proof.
  revert l. induction h as [|y h IH]; intros [|l] H; simpl in *; auto; try lia.
  apply IH. lia.
Qed.


Lemma read_only_ret {A} (a : A) : read_only (ret a).
Proof. intros w. reflexivity. Qed.

Lemma read_only_raise {A} (e : exn) : read_only (@raise A e).
Proof. intros w. reflexivity. Qed.

Lemma read_only_lift {A} (r : result A) : read_only (lift r).
Proof. intros w. reflexivity. Qed.

Lemma read_only_load (l : loc) : read_only (load l).
Proof. intros w. reflexivity. Qed.

Lemma read_only_now : read_only timestamp_now.
Proof. intros w. reflexivity. Qed.

Lemma read_only_bind {A B} (m : M A) (k : A -> M B) :
  read_only m -> (forall a, read_only (k a)) -> read_only (bind m k).
Proof.
  intros Hm Hk w. unfold bind. specialize (Hm w).
  destruct (m w) as [[a|e] w1]; simpl in *; subst; auto. apply Hk.
Qed.

Lemma read_only_try_catch {A} (m : M A) (h : exn -> M A) :
  read_only m -> (forall e, read_only (h e)) -> read_only (try_catch m h).
Proof.
  intros Hm Hh w. unfold try_catch. specialize (Hm w).
  destruct (m w) as [[a|e] w1]; simpl in *; subst; auto. apply Hh.
Qed.

End HeapFacts.

(** ** The transformer *)

Module TransformerFacts.
Import Spec.
Import DataTransformer HeapFacts.

Lemma lookup_assign_same (c : string) (s : Series) (cols : list (string * Series)) :
  lookup c (assign c s cols) = Some s.
Proof.
  induction cols as [|[c' s'] cols IH]; simpl.
  - now rewrite String.eqb_refl.
  - destruct (String.eqb c c') eqn:E; simpl; rewrite E; auto.
Qed.

Lemma lookup_assign_other (c c' : string) (s : Series) (cols : list (string * Series)) :
  c <> c' -> lookup c' (assign c s cols) = lookup c' cols.
Proof.
  intros Hne. induction cols as [|[c0 s0] cols IH]; simpl.
  - destruct (String.eqb c' c) eqn:E; auto.
    apply String.eqb_eq in E. congruence.
  - destruct (String.eqb c c0) eqn:E; simpl.
    + apply String.eqb_eq in E. subst c0.
      destruct (String.eqb c' c) eqn:E'; auto.
      apply String.eqb_eq in E'. congruence.
    + destruct (String.eqb c' c0); auto.
Qed.

Lemma get_set_same (frame : DataFrame) (c : string) (s : Series) :
  get_column (set_column frame c s) c = Some s.
Proof. apply lookup_assign_same. Qed.

Lemma get_set_other (frame : DataFrame) (c c' : string) (s : Series) :
  c <> c' -> get_column (set_column frame c s) c' = get_column frame c'.
Proof. apply lookup_assign_other. Qed.

Lemma fbind_ok {A B} (m : F A) (k : A -> F B) (df df1 : DataFrame) (a : A) :
  m df = (Ok a, df1) -> fbind m k df = k a df1.
Proof. intros H. unfold fbind. now rewrite H. Qed.

(** An assignment from a column leaves every other column as it is,
    whether it raises or not. *)
Lemma assign_from_other (new col : string) (f : Series -> result Series)
    (frame : DataFrame) (c : string) :
  new <> c ->
  get_column (snd (assign_from new col f frame)) c = get_column frame c.
Proof.
  intros Hne. unfold assign_from.
  destruct (get_column frame col) as [s|]; auto.
  destruct (f s); simpl; auto. now apply get_set_other.
Qed.

(** A loop of conversions that cannot raise. *)
Lemma for_each_update (g : Series -> Series) (cols : list string) (frame : DataFrame) :
  NoDup cols ->
  exists frame',
    for_each cols (fun col => update_column col (fun s => Ok (g s))) frame =
    (Ok tt, frame') /\
    forall c, get_column frame' c =
              if mem c cols then option_map g (get_column frame c)
              else get_column frame c.
Proof.
  revert frame. induction cols as [|c0 cols IH]; intros frame Hnd.
  - exists frame. split; auto.
  - inversion Hnd as [|? ? Hc0 Hnd']; subst.
    cbn [for_each]. unfold fbind, update_column at 1, assign_from at 1.
    destruct (get_column frame c0) as [s|] eqn:Hs.
    + destruct (IH (set_column frame c0 (g s)) Hnd') as (frame' & Hrun & Hget).
      exists frame'. split.
      * exact Hrun.
      * intros c. rewrite Hget. unfold mem at 2. cbn [existsb].
        fold (mem c cols).
        destruct (String.eqb c c0) eqn:E.
        -- apply String.eqb_eq in E. subst c.
           apply mem_false in Hc0. rewrite Hc0, get_set_same, Hs. reflexivity.
        -- assert (c0 <> c) by (intros ->; rewrite String.eqb_refl in E; discriminate).
           rewrite get_set_other by assumption. reflexivity.
    + destruct (IH frame Hnd') as (frame' & Hrun & Hget).
      exists frame'. split.
      * exact Hrun.
      * intros c. rewrite Hget. unfold mem at 2. cbn [existsb].
        fold (mem c cols).
        destruct (String.eqb c c0) eqn:E; auto.
        apply String.eqb_eq in E. subst c.
        apply mem_false in Hc0. rewrite Hc0, Hs. reflexivity.
Qed.

Lemma to_datetime_is_datetime (s : Series) : exists l, to_datetime s = SDatetime l.
Proof. destruct s; simpl; eauto. Qed.

(** The date columns are derived from a column that has just been made a
    datetime column, so [.dt] is never refused. *)
Lemma derive_dates_ok (frame : DataFrame) :
  exists frame',
    fbind (update_column "created_utc" (fun s => Ok (to_datetime s)))
      (fun _ =>
         fbind (assign_from "created_date" "created_utc" dt_date)
           (fun _ =>
              fbind (assign_from "created_hour" "created_utc" dt_hour)
                (fun _ => assign_from "created_day_of_week" "created_utc" dt_day_name)))
      frame = (Ok tt, frame') /\
    forall c, ~ In c ["created_utc"; "created_date"; "created_hour";
                      "created_day_of_week"] ->
              get_column frame' c = get_column frame c.
Proof.
  unfold fbind, update_column. unfold assign_from at 1.
  destruct (get_column frame "created_utc") as [s|] eqn:Hs.
  - destruct (to_datetime_is_datetime s) as [l Hl]. rewrite Hl.
    unfold assign_from at 1. rewrite get_set_same. cbn [dt_date].
    unfold assign_from at 1.
    rewrite get_set_other, get_set_same by discriminate. cbn [dt_hour].
    unfold assign_from at 1.
    rewrite !get_set_other, get_set_same by discriminate. cbn [dt_day_name].
    eexists. split; [reflexivity|].
    intros c Hc.
    rewrite !get_set_other; auto; intros <-; apply Hc; simpl; auto.
  - unfold assign_from. exists frame. split; [|auto].
    repeat (rewrite Hs; cbv beta iota). reflexivity.
Qed.

Lemma string_columns_NoDup : NoDup string_columns.
Proof. apply distinct_NoDup. reflexivity. Qed.
Lemma numeric_columns_NoDup : NoDup numeric_columns.
Proof. apply distinct_NoDup. reflexivity. Qed.
Lemma boolean_columns_NoDup : NoDup boolean_columns.
Proof. apply distinct_NoDup. reflexivity. Qed.

(** Type coercion never raises, and turns each boolean column into the
    truth values of its elements. *)
Lemma convert_types_body_ok (frame : DataFrame) :
  exists frame',
    convert_types_body frame = (Ok tt, frame') /\
    forall col, In col boolean_columns ->
      get_column frame' col = option_map astype_bool (get_column frame col).
Proof.
  unfold convert_types_body.
  destruct (for_each_update (fun s => replace_nan "nan" (astype_str s))
              string_columns frame string_columns_NoDup) as (f1 & H1 & G1).
  destruct (for_each_update to_numeric numeric_columns f1 numeric_columns_NoDup)
    as (f2 & H2 & G2).
  destruct (for_each_update astype_bool boolean_columns f2 boolean_columns_NoDup)
    as (f3 & H3 & G3).
  destruct (derive_dates_ok f3) as (f4 & H4 & G4).
  exists f4. split.
  - rewrite (fbind_ok _ _ _ _ _ H1), (fbind_ok _ _ _ _ _ H2), (fbind_ok _ _ _ _ _ H3).
    exact H4.
  - intros col Hin.
    rewrite G4, G3, G2, G1.
    + destruct Hin as [<-|[<-|[<-|[<-|[]]]]]; reflexivity.
    + destruct Hin as [<-|[<-|[<-|[<-|[]]]]]; simpl; intuition discriminate.
Qed.

Lemma convert_types_eq (df : loc) (w : World) :
  exists frame',
    convert_types_body (nth df (heap w) empty_frame) = (Ok tt, frame') /\
    _convert_types df w = (Ok df, with_heap (update_nth df frame' (heap w)) w).
Proof.
  destruct (convert_types_body_ok (nth df (heap w) empty_frame)) as (frame' & Hrun & _).
  exists frame'. split; auto.
  unfold _convert_types, bind, in_object. rewrite Hrun. reflexivity.
Qed.

Lemma astype_bool_is_bool (s : Series) : exists l, astype_bool s = SBool l.
Proof. destruct s; simpl; eauto. Qed.

Lemma isnull_bool (l : list bool) : existsb (fun b => b) (isnull (SBool l)) = false.
Proof. unfold isnull. simpl. induction l; simpl; auto. Qed.

(** C10, as the code has it. In the type-coercion stage every boolean
    column that is present is replaced by the truth values of its
    elements: in an [object] column None becomes False and NaN becomes
    True, in a [float64] column NaN becomes True; the stage does not raise,
    and afterwards the column is a [bool] column without any null. *)
Theorem convert_types_booleans (df : loc) (w : World) (col : string) (s : Series) :
  (df < List.length (heap w))%nat ->
  In col boolean_columns ->
  get_column (nth df (heap w) empty_frame) col = Some s ->
  exists w',
    _convert_types df w = (Ok df, w') /\
    get_column (nth df (heap w') empty_frame) col = Some (astype_bool s) /\
    (exists l, astype_bool s = SBool l) /\
    existsb (fun b => b) (isnull (astype_bool s)) = false /\
    (forall vs, s = SObject vs -> astype_bool s = SBool (map truthy vs)) /\
    (forall vs, s = SFloat vs ->
       astype_bool s =
       SBool (map (fun x => match x with
                            | Some q => negb (Qeqb q 0)
                            | None => true
                            end) vs)) /\
    truthy PNone = false /\ truthy PNaN = true.
Proof.
  intros Hdf Hin Hs.
  destruct (convert_types_body_ok (nth df (heap w) empty_frame)) as (frame' & Hrun & Hget).
  eexists. split; [|split; [|split; [|split; [|split; [|split]]]]].
  - unfold _convert_types, bind, in_object. rewrite Hrun. reflexivity.
  - rewrite heap_with_heap, nth_update_nth by assumption.
    rewrite Hget, Hs by assumption. reflexivity.
  - apply astype_bool_is_bool.
  - destruct (astype_bool_is_bool s) as [l ->]. apply isnull_bool.
  - intros vs ->. reflexivity.
  - intros vs ->. simpl. f_equal. rewrite map_map. apply map_ext.
    intros [q|]; reflexivity.
  - auto.
Qed.

Lemma convert_types_booleans_witness :
  exists w',
    _convert_types 0%nat (Examples.world [Examples.undistinguished_frame] Examples.noon) =
    (Ok 0%nat, w') /\
    get_column (nth 0%nat (heap w') empty_frame) "distinguished" =
    Some (astype_bool (SObject [PNone; PStr "moderator"])).
Proof.
  destruct (convert_types_booleans 0%nat
              (Examples.world [Examples.undistinguished_frame] Examples.noon)
              "distinguished" (SObject [PNone; PStr "moderator"]))
    as (w' & H1 & H2 & _).
  - simpl. lia.
  - simpl. auto.
  - reflexivity.
  - exists w'. split; assumption.
Defined.

(** A missing [distinguished] value is None in the extracted data, and
    type coercion makes it False, not True. *)
Lemma null_boolean_becomes_false :
  let w := Examples.world [Examples.undistinguished_frame] Examples.noon in
  option_map isnull (get_column (nth 0%nat (heap w) empty_frame) "distinguished") =
  Some [true; false] /\
  fst (_convert_types 0%nat w) = Ok 0%nat /\
  get_column (nth 0%nat (heap (snd (_convert_types 0%nat w))) empty_frame)
             "distinguished" =
  Some (SBool [false; true]).
Proof. repeat split; vm_compute; reflexivity. Qed.

(** *** Stages and objects *)










(** C5, on the code. The stages are not total on what extraction
    produces. A batch of link posts, as r/pics serves them, is reachable
    from extraction, and on it the transformation raises its wrapper,
    [ProcessingException]: every [selftext] is the empty string, cleaning
    turns the column into a [float64] column of NaN, and feature
    engineering then asks for its [.str] accessor, which raises. *)
Theorem transform_raises_on_link_posts :
  let batch := RedditExtractor.extract_posts_batch ["pics"] "all" None "top" 1
                 (Examples.world [] Examples.noon) in
  fst batch = Ok 0%nat /\
  nth 0%nat (heap (snd batch)) empty_frame = Examples.pics_frame /\
  fst (transform_reddit_posts 0%nat (snd batch)) =
  Raise (Exn ProcessingException
             "Data transformation failed: Can only use .str accessor with string values!") /\
  (let cleaned := bind (_convert_types 0%nat) _clean_data
                       (Examples.world [Examples.pics_frame] Examples.noon) in
   fst cleaned = Ok 2%nat /\
   get_column (nth 2%nat (heap (snd cleaned)) empty_frame) "selftext" =
   Some (SFloat [None]) /\
   fst (_engineer_features 2%nat (snd cleaned)) = Raise str_accessor_error).
Proof. repeat split; vm_compute; reflexivity. Qed.

(** With one text post in the batch the same call returns: the failure
    depends on no post of the batch having a text. *)
Example transform_returns_with_a_text_post :
  let batch := RedditExtractor.extract_posts_batch ["python"] "all" None "top" 1
                 Examples.text_world in
  fst batch = Ok 0%nat /\
  fst (transform_reddit_posts 0%nat (snd batch)) = Ok 4%nat /\
  let mixed := RedditExtractor.extract_posts_batch ["pics"; "python"] "all" None "top" 1
                 Examples.text_world in
  nrows (nth 0%nat (heap (snd mixed)) empty_frame) = 2%nat /\
  fst (transform_reddit_posts 0%nat (snd mixed)) = Ok 4%nat.
Proof. repeat split; vm_compute; reflexivity. Qed.

(** A stage assigns into the DataFrame it is given: after feature
    engineering the caller's object has the derived columns. *)
Example engineer_features_in_place :
  let w := Examples.world [Examples.valid_frame] Examples.noon in
  fst (_engineer_features 0%nat w) = Ok 0%nat /\
  column_names (nth 0%nat (heap w) empty_frame) =
  ["id"; "title"; "subreddit"; "score"; "num_comments"] /\
  column_names (nth 0%nat (heap (snd (_engineer_features 0%nat w))) empty_frame) =
  ["id"; "title"; "subreddit"; "score"; "num_comments"; "title_length";
   "title_word_count"; "engagement_score"; "popularity_category"].
Proof. repeat split; vm_compute; reflexivity. Qed.

End TransformerFacts.

(** ** The validator *)

Module ValidatorFacts.
Import Spec.
Import DataValidator HeapFacts.

Lemma tier_errors_fold (l : list tier) (t : tier) :
  tier_errors (fold_left also l t) = (tier_errors t ++ List.concat (map tier_errors l))%list.
Proof.
  revert t. induction l as [|a l IH]; intros t; simpl.
  - now rewrite app_nil_r.
  - rewrite IH. unfold also at 1. unfold tier_errors at 1. simpl.
    now rewrite <- app_assoc.
Qed.

Lemma tier_warnings_fold (l : list tier) (t : tier) :
  tier_warnings (fold_left also l t) =
  (tier_warnings t ++ List.concat (map tier_warnings l))%list.
Proof.
  revert t. induction l as [|a l IH]; intros t; simpl.
  - now rewrite app_nil_r.
  - rewrite IH. unfold also at 1. unfold tier_warnings at 1. simpl.
    now rewrite <- app_assoc.
Qed.

Lemma errors_all_findings (l : list tier) :
  tier_errors (all_findings l) = List.concat (map tier_errors l).
Proof. unfold all_findings. now rewrite tier_errors_fold. Qed.

Lemma warnings_all_findings (l : list tier) :
  tier_warnings (all_findings l) = List.concat (map tier_warnings l).
Proof. unfold all_findings. now rewrite tier_warnings_fold. Qed.

Lemma date_rules_eq (frame : DataFrame) (w : World) :
  date_rules frame w = (Ok (date_findings frame (clock w)), w).
Proof.
  unfold date_rules, date_findings.
  destruct (get_column frame "created_utc") as [[]|]; reflexivity.
Qed.

Lemma business_rules_eq (self : validator) (df : loc) (w : World) :
  _validate_business_rules self df w =
  (business_rules (nth df (heap w) empty_frame) (clock w), w).
Proof.
  unfold _validate_business_rules, business_rules.
  rewrite (bind_ok _ _ _ _ _ (load_eq _ _)).
  unfold bind, lift.
  destruct (score_rules (nth df (heap w) empty_frame)); [|reflexivity].
  destruct (comment_rules (nth df (heap w) empty_frame)); [|reflexivity].
  destruct (ratio_rules (nth df (heap w) empty_frame)); [|reflexivity].
  simpl. rewrite date_rules_eq. reflexivity.
Qed.

Lemma validate_eq (self : validator) (df : loc) (w : World) :
  validate self df w = (outcome self (nth df (heap w) empty_frame) (clock w), w).
Proof.
  unfold validate, outcome, try_catch.
  unfold _validate_structure, _validate_quality.
  rewrite (bind_ok _ _ _ _ _ (bind_ok _ _ _ _ _ (load_eq _ _))).
  rewrite (bind_ok _ _ _ _ _ (bind_ok _ _ _ _ _ (load_eq _ _))).
  unfold bind at 1. rewrite business_rules_eq.
  destruct (business_rules (nth df (heap w) empty_frame) (clock w)); reflexivity.
Qed.

Lemma validate_schema_eq (self : validator) (df : loc)
    (expected_schema : list (string * string)) (w : World) :
  exists findings,
    validate_schema self df expected_schema w =
    (Ok (mkValidationResult (is_empty (tier_errors findings)) (tier_errors findings)
                            (tier_warnings findings) []), w).
Proof.
  unfold validate_schema. rewrite (bind_ok _ _ _ _ _ (load_eq _ _)).
  eexists. reflexivity.
Qed.

Lemma is_empty_nil {A} (l : list A) : is_empty l = true <-> l = [].
Proof. destruct l; simpl; split; intros; congruence. Qed.

(** C2. In every result that [validate] or [validate_schema] produces,
    [is_valid] is true exactly when the list of errors is empty; it is
    computed from the errors alone, so warnings have no part in it. *)
Theorem is_valid_iff_no_errors (self : validator) (df : loc) (w w' : World)
    (r : ValidationResult) :
  validate self df w = (Ok r, w') \/
  (exists expected_schema, validate_schema self df expected_schema w = (Ok r, w')) ->
  is_valid r = is_empty (errors r) /\
  (is_valid r = true <-> errors r = []).
Proof.
  intros [H|[schema H]].
  - rewrite validate_eq in H. unfold outcome in H.
    destruct (business_rules (nth df (heap w) empty_frame) (clock w)); [|discriminate].
    inversion H; subst; simpl. split; [reflexivity|apply is_empty_nil].
  - destruct (validate_schema_eq self df schema w) as [findings Hs].
    rewrite Hs in H. inversion H; subst; simpl.
    split; [reflexivity|apply is_empty_nil].
Qed.

(** tests/test_data_validator.py, [test_validate_valid_data]: a warning is
    issued and the result is valid. *)
Lemma is_valid_iff_no_errors_witness :
  exists r,
    fst (validate default_validator 0%nat
           (Examples.world [Examples.valid_frame] Examples.noon)) = Ok r /\
    warnings r = [One_subreddit] /\
    is_valid r = is_empty (errors r) /\
    (is_valid r = true <-> errors r = []).
Proof.
  eexists. split; [vm_compute; reflexivity|]. split; [reflexivity|].
  eapply (is_valid_iff_no_errors default_validator 0%nat
            (Examples.world [Examples.valid_frame] Examples.noon)).
  left. vm_compute. reflexivity.
Defined.

(** *** Null percentages *)

Lemma Qgtb_lt (x y : Q) : Qgtb x y = true <-> (y < x)%Q.
Proof.
  unfold Qgtb, Qltb. rewrite negb_true_iff. split.
  - intros H. apply Qnot_le_lt. intros Hle. apply Qle_bool_iff in Hle. congruence.
  - intros H. destruct (Qle_bool x y) eqn:E; auto.
    apply Qle_bool_iff in E. exfalso. eapply Qlt_not_le; eassumption.
Qed.

Lemma Qgtb_le (x y : Q) : Qgtb x y = false <-> (x <= y)%Q.
Proof.
  unfold Qgtb, Qltb. rewrite negb_false_iff. apply Qle_bool_iff.
Qed.

Lemma not_in_by_kind (k : message -> bool) (m : message) (l : list message) :
  k m = true -> forallb (fun x => negb (k x)) l = true -> ~ In m l.
Proof.
  intros Hk Hall Hin. rewrite forallb_forall in Hall.
  specialize (Hall m Hin). rewrite Hk in Hall. discriminate.
Qed.

Lemma lookup_In (c : string) (s : Series) (cols : list (string * Series)) :
  lookup c cols = Some s -> In (c, s) cols.
Proof.
  induction cols as [|[c' s'] cols IH]; simpl; [discriminate|].
  destruct (String.eqb c c') eqn:E.
  - apply String.eqb_eq in E. intros H. inversion H. subst. now left.
  - intros H. right. now apply IH.
Qed.

Lemma In_lookup (c : string) (s : Series) (cols : list (string * Series)) :
  NoDup (map fst cols) -> In (c, s) cols -> lookup c cols = Some s.
Proof.
  induction cols as [|[c' s'] cols IH]; simpl; intros Hnd Hin; [destruct Hin|].
  inversion Hnd as [|? ? Hc' Hnd']; subst.
  destruct Hin as [E|Hin].
  - inversion E; subst. now rewrite String.eqb_refl.
  - destruct (String.eqb c c') eqn:E.
    + apply String.eqb_eq in E. subst c'. exfalso. apply Hc'.
      apply in_map_iff. exists (c, s). auto.
    + now apply IH.
Qed.

(** The errors and the warnings of the quality tier that are about null
    percentages are those of its loop over the columns. *)
Lemma quality_null_errors (self : validator) (frame : DataFrame) (m : message) :
  is_null_error m = true ->
  (In m (tier_errors (quality_checks self frame)) <->
   In m (List.concat (map (fun cp => tier_errors
                                  (null_percentage_check self (fst cp) (snd cp)))
                     (null_percentages frame)))).
Proof.
  intros Hk. unfold quality_checks. rewrite errors_all_findings.
  cbn [map List.concat]. rewrite errors_all_findings, map_map, app_nil_r.
  rewrite !in_app_iff.
  assert (H1 : ~ In m (tier_errors
                 (if (Z.of_nat (nrows frame) <? min_rows self)%Z
                  then error (Too_few_rows (nrows frame) (min_rows self))
                  else no_findings))).
  { apply (not_in_by_kind is_null_error); auto.
    destruct (Z.of_nat (nrows frame) <? min_rows self)%Z; reflexivity. }
  assert (H2 : ~ In m (tier_errors
                 match get_column frame "id" with
                 | Some ids =>
                     let duplicate_count := count_true (duplicated ids) in
                     also (record_stat "duplicate_ids" (StatInt duplicate_count))
                          (if (0 <? duplicate_count)%nat && require_unique_ids self
                           then error (Duplicate_ids duplicate_count)
                           else if (0 <? duplicate_count)%nat
                                then warning (Duplicate_ids duplicate_count)
                                else no_findings)
                 | None => no_findings
                 end)).
  { apply (not_in_by_kind is_null_error); auto.
    destruct (get_column frame "id"); [|reflexivity]. cbv zeta.
    destruct ((0 <? count_true (duplicated s))%nat && require_unique_ids self);
      [reflexivity|].
    destruct (0 <? count_true (duplicated s))%nat; reflexivity. }
  assert (H3 : ~ In m (tier_errors
                 match get_column frame "title" with
                 | Some title =>
                     let empty_titles := count_empty_titles title in
                     if (0 <? empty_titles)%nat then error (Empty_titles empty_titles)
                     else no_findings
                 | None => no_findings
                 end)).
  { apply (not_in_by_kind is_null_error); auto.
    destruct (get_column frame "title"); [|reflexivity]. cbv zeta.
    destruct (0 <? count_empty_titles s)%nat; reflexivity. }
  cbn [tier_errors record_stat fst snd In]. tauto.
Qed.

Lemma quality_null_warnings (self : validator) (frame : DataFrame) (m : message) :
  is_null_warning m = true ->
  (In m (tier_warnings (quality_checks self frame)) <->
   In m (List.concat (map (fun cp => tier_warnings
                                  (null_percentage_check self (fst cp) (snd cp)))
                     (null_percentages frame)))).
Proof.
  intros Hk. unfold quality_checks. rewrite warnings_all_findings.
  cbn [map List.concat]. rewrite warnings_all_findings, map_map, app_nil_r.
  rewrite !in_app_iff.
  assert (H1 : ~ In m (tier_warnings
                 (if (Z.of_nat (nrows frame) <? min_rows self)%Z
                  then error (Too_few_rows (nrows frame) (min_rows self))
                  else no_findings))).
  { apply (not_in_by_kind is_null_warning); auto.
    destruct (Z.of_nat (nrows frame) <? min_rows self)%Z; reflexivity. }
  assert (H2 : ~ In m (tier_warnings
                 match get_column frame "id" with
                 | Some ids =>
                     let duplicate_count := count_true (duplicated ids) in
                     also (record_stat "duplicate_ids" (StatInt duplicate_count))
                          (if (0 <? duplicate_count)%nat && require_unique_ids self
                           then error (Duplicate_ids duplicate_count)
                           else if (0 <? duplicate_count)%nat
                                then warning (Duplicate_ids duplicate_count)
                                else no_findings)
                 | None => no_findings
                 end)).
  { apply (not_in_by_kind is_null_warning); auto.
    destruct (get_column frame "id"); [|reflexivity]. cbv zeta.
    destruct ((0 <? count_true (duplicated s))%nat && require_unique_ids self);
      [reflexivity|].
    destruct (0 <? count_true (duplicated s))%nat; reflexivity. }
  assert (H3 : ~ In m (tier_warnings
                 match get_column frame "title" with
                 | Some title =>
                     let empty_titles := count_empty_titles title in
                     if (0 <? empty_titles)%nat then error (Empty_titles empty_titles)
                     else no_findings
                 | None => no_findings
                 end)).
  { apply (not_in_by_kind is_null_warning); auto.
    destruct (get_column frame "title"); [|reflexivity]. cbv zeta.
    destruct (0 <? count_empty_titles s)%nat; reflexivity. }
  cbn [tier_warnings record_stat fst snd In]. tauto.
Qed.

(** A finding of the loop about [col] comes from the column [col]. *)
Lemma in_null_loop (self : validator) (frame : DataFrame) (part : tier -> list message)
    (m : message) :
  In m (List.concat (map (fun cp => part (null_percentage_check self (fst cp) (snd cp)))
                    (null_percentages frame))) <->
  exists c s, In (c, s) (columns frame) /\
              In m (part (null_percentage_check self c (null_percentage (nrows frame) s))).
Proof.
  rewrite in_concat. unfold null_percentages. split.
  - intros (l & Hl & Hm). apply in_map_iff in Hl. destruct Hl as ([c p] & <- & Hcp).
    apply in_map_iff in Hcp. destruct Hcp as ([c' s] & E & Hin).
    inversion E; subst. simpl in *. eauto.
  - intros (c & s & Hin & Hm). eexists. split; [|exact Hm].
    apply in_map_iff. exists (c, null_percentage (nrows frame) s). split; auto.
    apply in_map_iff. exists (c, s). auto.
Qed.

(** C3, as the code has it. For every dataset that is not empty and every
    column of it, the quality tier emits a null-percentage error for the
    column exactly when the percentage the code computes, the count of
    nulls divided by the number of rows and then multiplied by 100, both
    in float64, is strictly above the ceiling [max_null_percentage]; and a
    null-percentage warning exactly when that percentage is strictly above
    half the ceiling, [max_null_percentage / 2] in float64, and at most
    the ceiling. *)
Theorem null_percentage_thresholds (self : validator) (df : loc) (w : World)
    (col : string) (s : Series) :
  let frame := nth df (heap w) empty_frame in
  frame_empty frame = false ->
  distinct (column_names frame) = true ->
  get_column frame col = Some s ->
  exists t pct,
    _validate_quality self df w = (Ok t, w) /\
    null_percentage (nrows frame) s = Some pct /\
    pct = f64_value
            (f64_mul (f64_div (f64_of_Z (Z.of_nat (count_true (isnull s))))
                              (f64_of_Z (Z.of_nat (nrows frame))))
                     (f64_of_Z 100)) /\
    ((exists p mx, In (Null_percentage_error col p mx) (tier_errors t)) <->
     (max_null_percentage self < pct)%Q) /\
    ((exists p, In (Null_percentage_warning col p) (tier_warnings t)) <->
     (half_ceiling (max_null_percentage self) < pct)%Q /\ (pct <= max_null_percentage self)%Q).
Proof.
  intros frame Hne Hdistinct Hs.
  assert (Hrows : nrows frame <> 0%nat).
  { unfold frame_empty in Hne. apply orb_false_iff in Hne. destruct Hne as [Hn _].
    now apply Nat.eqb_neq in Hn. }
  assert (Hpct : exists pct, null_percentage (nrows frame) s = Some pct /\
                 pct = f64_value
                         (f64_mul (f64_div (f64_of_Z (Z.of_nat (count_true (isnull s))))
                                           (f64_of_Z (Z.of_nat (nrows frame))))
                                  (f64_of_Z 100))).
  { unfold null_percentage. destruct (nrows frame); [congruence|]. eauto. }
  destruct Hpct as (pct & Hpct & Hval).
  apply distinct_NoDup in Hdistinct.
  assert (Hcol : forall s', In (col, s') (columns frame) -> s' = s).
  { intros s' Hin. apply In_lookup in Hin; [|exact Hdistinct].
    unfold get_column in Hs. congruence. }
  exists (quality_checks self frame), pct.
  split; [reflexivity|]. split; [exact Hpct|]. split; [exact Hval|]. split.
  - split.
    + intros (p & mx & Hin). apply quality_null_errors in Hin; [|reflexivity].
      apply (in_null_loop self frame tier_errors) in Hin.
      destruct Hin as (c & s' & Hcs & Hm).
      unfold null_percentage_check in Hm.
      destruct (null_percentage (nrows frame) s') as [q|] eqn:Hq; [|destruct Hm].
      destruct (Qgtb q (max_null_percentage self)) eqn:Hgt.
      * destruct Hm as [E|[]]. inversion E; subst.
        rewrite (Hcol s' Hcs) in Hq. rewrite Hpct in Hq. inversion Hq; subst.
        now apply Qgtb_lt.
      * destruct (Qgtb q (half_ceiling (max_null_percentage self))); destruct Hm.
    + intros Hlt. exists pct, (max_null_percentage self).
      apply quality_null_errors; [reflexivity|].
      apply (in_null_loop self frame tier_errors).
      exists col, s. split; [now apply lookup_In|].
      unfold null_percentage_check. rewrite Hpct.
      apply Qgtb_lt in Hlt. rewrite Hlt. now left.
  - split.
    + intros (p & Hin). apply quality_null_warnings in Hin; [|reflexivity].
      apply (in_null_loop self frame tier_warnings) in Hin.
      destruct Hin as (c & s' & Hcs & Hm).
      unfold null_percentage_check in Hm.
      destruct (null_percentage (nrows frame) s') as [q|] eqn:Hq; [|destruct Hm].
      destruct (Qgtb q (max_null_percentage self)) eqn:Hgt; [destruct Hm|].
      destruct (Qgtb q (half_ceiling (max_null_percentage self))) eqn:Hhalf; [|destruct Hm].
      destruct Hm as [E|[]]. inversion E; subst.
      rewrite (Hcol s' Hcs) in Hq. rewrite Hpct in Hq. inversion Hq; subst.
      split; [now apply Qgtb_lt|now apply Qgtb_le].
    + intros [Hhalf Hle]. exists pct.
      apply quality_null_warnings; [reflexivity|].
      apply (in_null_loop self frame tier_warnings).
      exists col, s. split; [now apply lookup_In|].
      unfold null_percentage_check. rewrite Hpct.
      apply Qgtb_le in Hle. rewrite Hle.
      apply Qgtb_lt in Hhalf. rewrite Hhalf. now left.
Qed.

(** Three authors out of five are missing: the percentage is 60, above
    the default ceiling of 50. *)
Lemma null_percentage_thresholds_witness :
  exists t pct,
    _validate_quality default_validator 0%nat
      (Examples.world [Examples.sparse_frame] Examples.noon) =
    (Ok t, Examples.world [Examples.sparse_frame] Examples.noon) /\
    pct = f64_value (f64_mul (f64_div (f64_of_Z 3) (f64_of_Z 5)) (f64_of_Z 100)) /\
    ((exists p mx, In (Null_percentage_error "author" p mx) (tier_errors t)) <->
     (50 < pct)%Q).
Proof.
  destruct (null_percentage_thresholds default_validator 0%nat
              (Examples.world [Examples.sparse_frame] Examples.noon)
              "author" (SObject [PStr "u"; PNone; PNone; PStr "v"; PNone]))
    as (t & pct & H1 & _ & H3 & H4 & _); try reflexivity.
  exists t, pct. split; [exact H1|]. split; [exact H3|exact H4].
Defined.

(** Eleven authors out of twenty are missing and the ceiling is 55: the
    percentage is the ceiling, not above it, but 11 / 20 * 100 is
    55.00000000000001 in float64, and the quality tier reports an error
    for the column and no warning. With a ceiling of 110 the same column
    draws a warning, at exactly half the ceiling. *)
Lemma null_share_at_ceiling_is_error :
  let w := Examples.world [Examples.boundary_frame] Examples.noon in
  let findings := fun self =>
    option_map (fun t => (map render (tier_errors t), map render (tier_warnings t)))
               (match fst (_validate_quality self 0%nat w) with
                | Ok t => Some t
                | Raise _ => None
                end) in
  nrows Examples.boundary_frame = 20%nat /\
  option_map (fun s => count_true (isnull s))
             (get_column Examples.boundary_frame "author") = Some 11%nat /\
  Qeq_bool (inject_Z 11 / inject_Z 20 * 100) 55 = true /\
  Qgtb (inject_Z 11 / inject_Z 20 * 100) 55 = false /\
  option_map (null_percentage 20) (get_column Examples.boundary_frame "author") =
  Some (Some (7740561859543041 # 140737488355328)) /\
  Qgtb (7740561859543041 # 140737488355328) 55 = true /\
  findings (mkValidator 1 55 true) =
  Some (["Column 'author' has 55.00% null values (max allowed: 55.0%)"], []) /\
  findings (mkValidator 1 110 true) =
  Some ([], ["Column 'author' has 55.00% null values"]).
Proof. repeat split; vm_compute; reflexivity. Qed.

(** The scenario of the specification: 60% null against a ceiling of 50 is
    an error naming the column; against a ceiling of 70 it is a warning
    only. *)
Example sixty_percent_null :
  let w := Examples.world [Examples.sparse_frame] Examples.noon in
  let findings := fun self =>
    option_map (fun r => (map render (errors r), map render (warnings r)))
               (match fst (validate self 0%nat w) with
                | Ok r => Some r
                | Raise _ => None
                end) in
  findings (mkValidator 1 50 true) =
  Some (["Column 'author' has 60.00% null values (max allowed: 50.0%)"], []) /\
  findings (mkValidator 1 70 true) =
  Some ([], ["Column 'author' has 60.00% null values"]) /\
  Qeq_bool (f64_value (f64_mul (f64_div (f64_of_Z 3) (f64_of_Z 5)) (f64_of_Z 100))) 60 =
  true.
Proof. repeat split; vm_compute; reflexivity. Qed.

(** Halving a ceiling in float64: 50, 55 and 110 give 25, 27.5 and 55. *)
Example half_ceilings :
  Qeq_bool (half_ceiling 50) 25 = true /\
  Qeq_bool (half_ceiling 55) (55 # 2) = true /\
  Qeq_bool (half_ceiling 110) 55 = true.
Proof. repeat split; vm_compute; reflexivity. Qed.

(** *** Purity and the clock *)

Lemma validate_read_only (self : validator) (df : loc) : read_only (validate self df).
Proof. intros w. now rewrite validate_eq. Qed.

Lemma date_findings_no_datetime (frame : DataFrame) (now : Z) :
  has_datetime frame = false -> date_findings frame now = no_findings.
Proof.
  unfold has_datetime, date_findings.
  destruct (get_column frame "created_utc") as [[]|]; auto; discriminate.
Qed.

Lemma outcome_no_datetime (self : validator) (frame : DataFrame) (now1 now2 : Z) :
  has_datetime frame = false -> outcome self frame now1 = outcome self frame now2.
Proof.
  intros H. unfold outcome, business_rules.
  now rewrite !(date_findings_no_datetime frame) by assumption.
Qed.

(** C4, as the code has it. [validate] changes nothing: not the dataset,
    nor anything else. Its result is determined by the dataset and by what
    the clock reads: two calls on the same unchanged dataset return equal
    results when the clock reads the same at both, and also whenever the
    dataset has no datetime [created_utc] column. *)
Theorem validate_pure_given_clock (self : validator) (df : loc) (w1 w2 : World) :
  snd (validate self df w1) = w1 /\
  (nth df (heap w2) empty_frame = nth df (heap w1) empty_frame ->
   clock w2 = clock w1 \/ has_datetime (nth df (heap w1) empty_frame) = false ->
   fst (validate self df w2) = fst (validate self df w1)).
Proof.
  split; [apply validate_read_only|].
  intros Hframe Hclock. rewrite !validate_eq. simpl. rewrite Hframe.
  destruct Hclock as [->|Hno]; [reflexivity|].
  now apply outcome_no_datetime.
Qed.

Lemma validate_pure_given_clock_witness :
  fst (validate default_validator 0%nat
         (Examples.world [Examples.valid_frame] (Examples.noon + ns_per_s))) =
  fst (validate default_validator 0%nat
         (Examples.world [Examples.valid_frame] Examples.noon)).
Proof.
  apply (validate_pure_given_clock default_validator 0%nat
           (Examples.world [Examples.valid_frame] Examples.noon)
           (Examples.world [Examples.valid_frame] (Examples.noon + ns_per_s))).
  - reflexivity.
  - right. reflexivity.
Defined.

(** Two calls on the same unchanged dataset, one second before and one
    second after the time of its only post: the first reports a future
    date and is invalid, the second is valid. *)
Lemma validate_depends_on_clock :
  let before := Examples.world [Examples.dated_frame] (Examples.noon - ns_per_s) in
  let after := Examples.world [Examples.dated_frame] (Examples.noon + ns_per_s) in
  heap (snd (validate default_validator 0%nat before)) = heap after /\
  option_map (fun r => (is_valid r, errors r))
             (match fst (validate default_validator 0%nat before) with
              | Ok r => Some r | Raise _ => None end) =
  Some (false, [Future_dates 1]) /\
  option_map (fun r => (is_valid r, errors r))
             (match fst (validate default_validator 0%nat after) with
              | Ok r => Some r | Raise _ => None end) =
  Some (true, []) /\
  fst (validate default_validator 0%nat before) <>
  fst (validate default_validator 0%nat after).
Proof.
  repeat split; try (vm_compute; reflexivity).
  intros H.
  assert (E : option_map (fun r => is_valid r)
                (match fst (validate default_validator 0%nat
                              (Examples.world [Examples.dated_frame]
                                              (Examples.noon - ns_per_s))) with
                 | Ok r => Some r | Raise _ => None end) = Some true).
  { rewrite H. vm_compute. reflexivity. }
  vm_compute in E. discriminate.
Qed.

(** *** Missing required columns *)

Lemma rmap_ok {A B} (f : A -> result B) (l : list A) :
  (forall x, In x l -> is_ok (f x) = true) -> exists ys, rmap f l = Ok ys.
Proof.
  induction l as [|x l IH]; intros H; simpl; eauto.
  destruct (f x) as [y|e] eqn:E.
  - destruct IH as [ys Hys]; [intros z Hz; apply H; now right|].
    rewrite Hys. simpl. eauto.
  - specialize (H x (or_introl eq_refl)). rewrite E in H. discriminate.
Qed.

Lemma compare_numeric (s : Series) :
  is_numeric_dtype s = true ->
  exists l, rmap compare_operand (to_objects s) = Ok l.
Proof.
  intros H. apply rmap_ok. intros x Hx.
  destruct s; try discriminate; simpl in Hx; apply in_map_iff in Hx;
    destruct Hx as [y [<- _]]; try reflexivity.
  destruct y; reflexivity.
Qed.

Lemma lt_const_numeric (s : Series) (c : Q) :
  is_numeric_dtype s = true -> exists l, lt_const s c = Ok l.
Proof.
  intros H. unfold lt_const.
  replace (is_sdatetime s) with false by (destruct s; auto; discriminate).
  destruct (compare_numeric s H) as [l ->]. simpl. eauto.
Qed.

Lemma gt_const_numeric (s : Series) (c : Q) :
  is_numeric_dtype s = true -> exists l, gt_const s c = Ok l.
Proof.
  intros H. unfold gt_const.
  replace (is_sdatetime s) with false by (destruct s; auto; discriminate).
  destruct (compare_numeric s H) as [l ->]. simpl. eauto.
Qed.

(** The business tier returns when the columns it compares are numeric. *)
Lemma business_rules_returns (frame : DataFrame) (now : Z) :
  comparable frame = true -> exists t, business_rules frame now = Ok t.
Proof.
  unfold comparable. cbn [forallb]. rewrite !andb_true_iff.
  intros (H1 & H2 & H3 & _).
  unfold business_rules, score_rules, comment_rules, ratio_rules.
  destruct (get_column frame "score") as [s1|].
  - destruct (lt_const_numeric s1 0 H1) as [l1 ->]. simpl.
    destruct (get_column frame "num_comments") as [s2|].
    + destruct (lt_const_numeric s2 0 H2) as [l2 ->]. simpl.
      destruct (get_column frame "upvote_ratio") as [s3|]; simpl; eauto.
      destruct (lt_const_numeric s3 0 H3) as [l3 ->].
      destruct (gt_const_numeric s3 1 H3) as [l4 ->]. simpl. eauto.
    + simpl. destruct (get_column frame "upvote_ratio") as [s3|]; simpl; eauto.
      destruct (lt_const_numeric s3 0 H3) as [l3 ->].
      destruct (gt_const_numeric s3 1 H3) as [l4 ->]. simpl. eauto.
  - simpl. destruct (get_column frame "num_comments") as [s2|].
    + destruct (lt_const_numeric s2 0 H2) as [l2 ->]. simpl.
      destruct (get_column frame "upvote_ratio") as [s3|]; simpl; eauto.
      destruct (lt_const_numeric s3 0 H3) as [l3 ->].
      destruct (gt_const_numeric s3 1 H3) as [l4 ->]. simpl. eauto.
    + simpl. destruct (get_column frame "upvote_ratio") as [s3|]; simpl; eauto.
      destruct (lt_const_numeric s3 0 H3) as [l3 ->].
      destruct (gt_const_numeric s3 1 H3) as [l4 ->]. simpl. eauto.
Qed.

(** In a frame that is not empty a missing required column is an error of
    the structure tier. *)
Lemma structure_reports_missing (frame : DataFrame) (col : string) :
  frame_empty frame = false ->
  In col REQUIRED_COLUMNS ->
  has_column frame col = false ->
  exists missing,
    In col missing /\
    In (Missing_required_columns missing) (tier_errors (structure_checks frame)).
Proof.
  intros Hne Hreq Hcol. unfold structure_checks. rewrite Hne.
  set (missing := filter (fun c => negb (has_column frame c)) REQUIRED_COLUMNS).
  assert (Hin : In col missing).
  { apply filter_In. split; auto. now rewrite Hcol. }
  exists missing. split; [exact Hin|].
  rewrite errors_all_findings. cbn [map List.concat].
  rewrite !in_app_iff. right. right. left.
  destruct missing; [destruct Hin|]. now left.
Qed.

(** C8, as the code has it. For every dataset that is not empty and lacks
    a 'title' column, [validate] either returns a result that is not valid
    and has an error mentioning "Missing required columns", which lists
    'title'; or, when a comparison of the business tier raises, raises
    [DataValidationException]. It returns whenever the columns that the
    business tier compares are numeric or absent. *)
Theorem missing_title_is_reported (self : validator) (df : loc) (w : World) :
  let frame := nth df (heap w) empty_frame in
  frame_empty frame = false ->
  has_column frame "title" = false ->
  match fst (validate self df w) with
  | Ok r =>
      is_valid r = false /\
      exists missing,
        In "title" missing /\
        In (Missing_required_columns missing) (errors r) /\
        contains "Missing required columns"
                 (render (Missing_required_columns missing)) = true
  | Raise e =>
      exists cause,
        business_rules frame (clock w) = Raise cause /\
        e = Exn DataValidationException ("Validation failed: " ++ exn_msg cause)
  end /\
  (comparable frame = true -> exists r, fst (validate self df w) = Ok r).
Proof.
  intros frame Hne Htitle. rewrite validate_eq. cbn [fst]. fold frame.
  unfold outcome. split.
  - destruct (business_rules frame (clock w)) as [b|cause] eqn:Hb.
    + cbn [is_valid errors].
      destruct (structure_reports_missing frame "title" Hne) as (missing & Hin & Herr);
        [simpl; auto|exact Htitle|].
      assert (Hall : In (Missing_required_columns missing)
                        (tier_errors (all_findings
                           [structure_checks frame; quality_checks self frame; b]))).
      { rewrite errors_all_findings. cbn [map List.concat].
        apply in_or_app. now left. }
      split.
      * destruct (tier_errors (all_findings
                    [structure_checks frame; quality_checks self frame; b]));
          [destruct Hall|reflexivity].
      * exists missing. split; [exact Hin|]. split; [exact Hall|].
        apply (contains_prefix "Missing required columns").
    + exists cause. split; reflexivity.
  - intros Hcmp. destruct (business_rules_returns frame (clock w) Hcmp) as [t ->].
    eauto.
Qed.

(** tests/test_data_validator.py, [test_validate_missing_required_columns] *)
Lemma missing_title_is_reported_witness :
  exists r, fst (validate default_validator 0%nat
                   (Examples.world [mkFrame 2 [("id", SObject [PStr "1"; PStr "2"])]]
                                   Examples.noon)) = Ok r.
Proof.
  apply (missing_title_is_reported default_validator 0%nat
           (Examples.world [mkFrame 2 [("id", SObject [PStr "1"; PStr "2"])]]
                           Examples.noon)); reflexivity.
Defined.

(** The empty DataFrame lacks a 'title' column, and [validate] returns for
    it a result none of whose errors mentions "Missing required columns". *)
Lemma empty_frame_missing_not_reported :
  let w := Examples.world [empty_frame] Examples.noon in
  has_column (nth 0%nat (heap w) empty_frame) "title" = false /\
  option_map (fun r => (is_valid r, errors r))
             (match fst (validate default_validator 0%nat w) with
              | Ok r => Some r | Raise _ => None end) =
  Some (false, [DataFrame_is_empty; Too_few_rows 0 1]) /\
  existsb (fun m => contains "Missing required columns" (render m))
          [DataFrame_is_empty; Too_few_rows 0 1] = false.
Proof. repeat split; vm_compute; reflexivity. Qed.

End ValidatorFacts.

(** ** More on the extractor *)

Module ExtractorMore.
Import Spec Notions RedditExtractor ExtractorFacts BatchFacts.

Lemma extract_post_fields_record (post : Item) :
  _extract_post_fields post = Ok (record_of post).
Proof. unfold _extract_post_fields. apply extract_fields_fold. Qed.

Lemma record_keys (post : Item) : dict_keys (record_of post) = POST_FIELDS.
Proof.
  unfold record_of. rewrite fold_set_keys; simpl; auto. apply POST_FIELDS_NoDup.
Qed.

Lemma extract_items_records (posts : list Item) (acc : list pydict) :
  extract_items posts acc = Ok (acc ++ map record_of posts)%list.
Proof.
  revert acc. induction posts as [|post posts IH]; intros acc; cbn [extract_items map].
  - now rewrite app_nil_r.
  - rewrite extract_post_fields_record. cbn [rbind try_except].
    rewrite IH, <- app_assoc. reflexivity.
Qed.

(** What [extract_posts] returns and what it leaves behind. *)
Lemma extract_posts_eq (subreddit time_filter : string) (limit : option Z)
    (sort : string) (w : World) :
  exists w',
    extract_posts subreddit time_filter limit sort w =
    (partition_outcome (reddit w) subreddit time_filter limit sort, w') /\
    only_logged w w' /\
    fetched w' = (fetched w ++ partition_requests time_filter limit sort subreddit)%list /\
    slept w' = slept w.
Proof.
  unfold extract_posts, partition_outcome, partition_requests, try_catch, bind, lift.
  destruct (select_listing subreddit time_filter limit sort) as [r|e].
  - cbn [iterate fst snd]. simpl listing_items.
    rewrite extract_items_records. cbn [app].
    destruct (listing_error (reddit w r)) as [e|].
    + unfold raise, wrap_failure. destruct (is_prawcore e);
        eexists; (split; [reflexivity|]); repeat split.
    + eexists. split; [reflexivity|]. repeat split.
  - exists w. unfold raise, wrap_failure. destruct (is_prawcore e);
      (split; [reflexivity|]); rewrite app_nil_r; repeat split.
Qed.

(** X1. With a sort mode of the enumerated set and a listing that does not
    break, [extract_posts] returns one record per submission, in the order
    of the listing; every record has exactly the fixed fields as keys, and
    no submission is skipped. One listing is iterated and nothing else
    changes. *)
Theorem extract_posts_records (subreddit time_filter : string) (limit : option Z)
    (sort : string) (w : World) (r : request) :
  select_listing subreddit time_filter limit sort = Ok r ->
  listing_error (reddit w r) = None ->
  exists w',
    extract_posts subreddit time_filter limit sort w =
    (Ok (map record_of (listing_items (reddit w r))), w') /\
    List.length (map record_of (listing_items (reddit w r))) =
    List.length (listing_items (reddit w r)) /\
    Forall (fun d => dict_keys d = POST_FIELDS)
           (map record_of (listing_items (reddit w r))) /\
    fetched w' = (fetched w ++ [r])%list /\
    only_logged w w'.
Proof.
  intros Hsel Herr.
  destruct (extract_posts_eq subreddit time_filter limit sort w)
    as (w' & Hrun & Hlog & Hfetched & _).
  unfold partition_outcome in Hrun. unfold partition_requests in Hfetched.
  rewrite Hsel in *. rewrite Herr in Hrun.
  exists w'. split; [exact Hrun|]. split; [apply length_map|].
  split; [|split; assumption].
  apply Forall_forall. intros d Hd. apply in_map_iff in Hd.
  destruct Hd as [post [<- _]]. apply record_keys.
Qed.

Lemma extract_posts_records_witness :
  exists w',
    extract_posts "pics" "all" None "top" (Examples.world [] Examples.noon) =
    (Ok (map record_of (listing_items (Examples.api (mkRequest "pics" (Top "all") None)))),
     w') /\
    fetched w' = [mkRequest "pics" (Top "all") None].
Proof.
  destruct (extract_posts_records "pics" "all" None "top"
              (Examples.world [] Examples.noon) (mkRequest "pics" (Top "all") None))
    as (w' & H1 & _ & _ & H4 & _); try reflexivity.
  exists w'. split; [exact H1|exact H4].
Defined.

(** X2. When the listing of a partition breaks, [extract_posts] raises
    [RedditAPIException] whatever was extracted before: with the message
    "Reddit API error: ..." for an exception of prawcore and "Post
    extraction failed: ..." for any other. The listing has been asked
    for. *)
Theorem extract_posts_broken_listing (subreddit time_filter : string)
    (limit : option Z) (sort : string) (w : World) (r : request) (e : exn) :
  select_listing subreddit time_filter limit sort = Ok r ->
  listing_error (reddit w r) = Some e ->
  exists w',
    extract_posts subreddit time_filter limit sort w =
    (Raise (Exn RedditAPIException
                ((if is_prawcore e then "Reddit API error: "
                  else "Post extraction failed: ") ++ exn_msg e)), w') /\
    fetched w' = (fetched w ++ [r])%list /\
    only_logged w w'.
Proof.
  intros Hsel Herr.
  destruct (extract_posts_eq subreddit time_filter limit sort w)
    as (w' & Hrun & Hlog & Hfetched & _).
  unfold partition_outcome in Hrun. unfold partition_requests in Hfetched.
  rewrite Hsel in *. rewrite Herr in Hrun.
  exists w'. split; [|split; assumption].
  rewrite Hrun. unfold wrap_failure. destruct (is_prawcore e); reflexivity.
Qed.

Lemma extract_posts_broken_listing_witness :
  exists w',
    extract_posts "nope" "all" None "hot" (Examples.world [] Examples.noon) =
    (Raise (Exn RedditAPIException
                "Reddit API error: received 404 HTTP response"), w') /\
    fetched w' = [mkRequest "nope" Hot None].
Proof.
  destruct (extract_posts_broken_listing "nope" "all" None "hot"
              (Examples.world [] Examples.noon) (mkRequest "nope" Hot None)
              (Exn PrawcoreException "received 404 HTTP response"))
    as (w' & H1 & H2 & _); try reflexivity.
  exists w'. split; [exact H1|exact H2].
Defined.

Lemma extract_one_eq (subreddit time_filter : string) (limit : option Z)
    (sort : string) (delay : Q) (all_posts : list pydict) (w : World) :
  exists w',
    extract_one subreddit time_filter limit sort delay all_posts w =
    (Ok (all_posts ++ partition_posts (reddit w) time_filter limit sort subreddit)%list,
     w') /\
    only_logged w w' /\
    fetched w' = (fetched w ++ partition_requests time_filter limit sort subreddit)%list /\
    slept w' =
    (slept w ++ partition_pauses (reddit w) time_filter limit sort delay subreddit)%list.
Proof.
  destruct (extract_posts_eq subreddit time_filter limit sort w)
    as (w1 & Hrun & Hlog & Hfetched & Hslept).
  unfold extract_one, partition_posts, partition_pauses, try_catch, bind.
  rewrite Hrun.
  destruct (partition_outcome (reddit w) subreddit time_filter limit sort) as [posts|e].
  - destruct (Qgtb delay 0).
    + eexists. split; [reflexivity|]. cbn [sleep snd heap clock reddit output_dir
                                           disk_error files fetched slept].
      destruct Hlog as (a1 & a2 & a3 & a4 & a5 & a6).
      repeat split; try assumption. now rewrite Hslept.
    + exists w1. split; [reflexivity|]. rewrite app_nil_r.
      split; [exact Hlog|]. split; assumption.
  - exists w1. unfold ret. rewrite !app_nil_r.
    split; [reflexivity|]. split; [exact Hlog|]. split; assumption.
Qed.

Lemma extract_each_eq (subreddits : list string) (time_filter : string)
    (limit : option Z) (sort : string) (delay : Q) (all_posts : list pydict)
    (w : World) :
  exists w',
    extract_each subreddits time_filter limit sort delay all_posts w =
    (Ok (all_posts ++
         flat_map (partition_posts (reddit w) time_filter limit sort) subreddits)%list,
     w') /\
    only_logged w w' /\
    fetched w' =
    (fetched w ++ flat_map (partition_requests time_filter limit sort) subreddits)%list /\
    slept w' =
    (slept w ++
     flat_map (partition_pauses (reddit w) time_filter limit sort delay) subreddits)%list.
Proof.
  revert all_posts w.
  induction subreddits as [|s subreddits IH]; intros all_posts w; cbn [extract_each flat_map].
  - exists w. rewrite !app_nil_r. repeat split.
  - destruct (extract_one_eq s time_filter limit sort delay all_posts w)
      as (w1 & Hone & Hlog1 & Hf1 & Hs1).
    destruct (IH (all_posts ++ partition_posts (reddit w) time_filter limit sort s)%list w1)
      as (w2 & Hrest & Hlog2 & Hf2 & Hs2).
    assert (Hapi : reddit w1 = reddit w) by apply Hlog1.
    rewrite Hapi in *.
    exists w2. split; [|split; [|split]].
    + rewrite (bind_ok _ _ _ _ _ Hone), Hrest, <- app_assoc. reflexivity.
    + eapply only_logged_trans; eassumption.
    + rewrite Hf2, Hf1, <- app_assoc. reflexivity.
    + rewrite Hs2, Hs1, <- app_assoc. reflexivity.
Qed.

(** X3. [extract_posts_batch] never raises. The DataFrame it returns is a
    new object; it holds, in the order of the partitions, the posts of the
    partitions that succeeded, one row each, and a partition that failed
    contributes nothing and loses nothing of the others. It is
    [pd.DataFrame()] exactly when no post was collected. *)
Theorem extract_posts_batch_isolates_failures (subreddits : list string)
    (time_filter : string) (limit : option Z) (sort : string) (delay : Q) (w : World) :
  let collected :=
    flat_map (partition_posts (reddit w) time_filter limit sort) subreddits in
  exists w',
    extract_posts_batch subreddits time_filter limit sort delay w =
    (Ok (List.length (heap w)), w') /\
    firstn (List.length (heap w)) (heap w') = heap w /\
    nrows (nth (List.length (heap w)) (heap w') empty_frame) = List.length collected /\
    (collected = [] ->
     nth (List.length (heap w)) (heap w') empty_frame = empty_frame) /\
    (collected <> [] ->
     nth (List.length (heap w)) (heap w') empty_frame = frame_of_records collected) /\
    files w' = files w.
Proof.
  intros collected.
  destruct (extract_each_eq subreddits time_filter limit sort delay [] w)
    as (w1 & Hrun & Hlog & _ & _).
  cbn [app] in Hrun. fold collected in Hrun.
  assert (Hheap : heap w1 = heap w) by apply Hlog.
  assert (Hfiles : files w1 = files w) by apply Hlog.
  unfold extract_posts_batch. rewrite (bind_ok _ _ _ _ _ Hrun).
  destruct collected as [|d rest] eqn:Hc.
  - eexists. split; [unfold alloc; rewrite Hheap; reflexivity|].
    rewrite heap_with_heap, nth_alloc, firstn_app, Nat.sub_diag, firstn_all.
    cbn [firstn]. rewrite app_nil_r. repeat split; auto; congruence.
  - eexists. split; [unfold alloc; rewrite Hheap; reflexivity|].
    rewrite heap_with_heap, nth_alloc, firstn_app, Nat.sub_diag, firstn_all.
    cbn [firstn]. rewrite app_nil_r. repeat split; auto; discriminate.
Qed.

Lemma no_pauses (api : request -> Listing) (time_filter : string) (limit : option Z)
    (sort : string) (delay : Q) (subreddits : list string) :
  Qgtb delay 0 = false ->
  flat_map (partition_pauses api time_filter limit sort delay) subreddits = [].
Proof.
  intros Hd. induction subreddits as [|s l IH]; cbn [flat_map]; auto.
  rewrite IH. unfold partition_pauses.
  destruct (partition_outcome api s time_filter limit sort); rewrite ?Hd; reflexivity.
Qed.

(** X4. In a batch every partition whose sort mode is accepted has its
    listing asked for once, in the order given, whether it then fails or
    not; and the batch pauses once, for the delay, after each partition
    that succeeded, never after one that failed and never when the delay
    is zero or negative. *)
Theorem extract_posts_batch_paces (subreddits : list string)
    (time_filter : string) (limit : option Z) (sort : string) (delay : Q) (w : World) :
  fetched (snd (extract_posts_batch subreddits time_filter limit sort delay w)) =
  (fetched w ++ flat_map (partition_requests time_filter limit sort) subreddits)%list /\
  slept (snd (extract_posts_batch subreddits time_filter limit sort delay w)) =
  (slept w ++
   flat_map (partition_pauses (reddit w) time_filter limit sort delay) subreddits)%list /\
  (Qgtb delay 0 = false ->
   slept (snd (extract_posts_batch subreddits time_filter limit sort delay w)) = slept w).
Proof.
  destruct (extract_each_eq subreddits time_filter limit sort delay [] w)
    as (w1 & Hrun & _ & Hf & Hs).
  assert (Hw : fetched (snd (extract_posts_batch subreddits time_filter limit sort delay w))
               = fetched w1 /\
               slept (snd (extract_posts_batch subreddits time_filter limit sort delay w))
               = slept w1).
  { unfold extract_posts_batch. rewrite (bind_ok _ _ _ _ _ Hrun). cbn [app].
    destruct (flat_map (partition_posts (reddit w) time_filter limit sort) subreddits);
      split; reflexivity. }
  destruct Hw as [-> ->]. split; [exact Hf|]. split; [exact Hs|].
  intros Hd. rewrite Hs.
  rewrite (no_pauses _ _ _ _ _ _ Hd). apply app_nil_r.
Qed.

(** One subreddit that is not found, then r/pics: two listings asked for,
    one pause. *)
Example batch_of_two :
  let w' := snd (extract_posts_batch ["nope"; "pics"] "all" None "top" 1
                   (Examples.world [] Examples.noon)) in
  fetched w' = [mkRequest "nope" (Top "all") None; mkRequest "pics" (Top "all") None] /\
  slept w' = [1%Q] /\
  nrows (nth 0%nat (heap w') empty_frame) = 1%nat.
Proof. repeat split; vm_compute; reflexivity. Qed.

(** *** Streaming *)

Lemma stream_item_eq (batch_size : Z) (yielded : list (list pydict))
    (batch : list pydict) (post : Item) :
  stream_item batch_size (yielded, batch) post =
  if (batch_size <=? Z.of_nat (List.length (batch ++ [record_of post])))%Z
  then ((yielded ++ [(batch ++ [record_of post])%list])%list, [])
  else (yielded, (batch ++ [record_of post])%list).
Proof. unfold stream_item. now rewrite extract_post_fields_record. Qed.

(** What the loop keeps true of the batches yielded and the batch being
    filled. *)
Lemma stream_loop (batch_size : Z) (posts : list Item) (yielded : list (list pydict))
    (batch : list pydict) :
  let '(yielded', batch') := fold_left (stream_item batch_size) posts (yielded, batch) in
  (List.concat yielded' ++ batch' =
   List.concat yielded ++ batch ++ map record_of posts)%list /\
  (Forall (fun b => b <> []) yielded -> Forall (fun b => b <> []) yielded') /\
  ((1 <= batch_size)%Z -> (Z.of_nat (List.length batch) < batch_size)%Z ->
   Forall (fun b => Z.of_nat (List.length b) = batch_size) yielded ->
   Forall (fun b => Z.of_nat (List.length b) = batch_size) yielded' /\
   (Z.of_nat (List.length batch') < batch_size)%Z) /\
  ((batch_size <= 1)%Z -> batch = [] ->
   Forall (fun b => List.length b = 1%nat) yielded ->
   Forall (fun b => List.length b = 1%nat) yielded' /\ batch' = []).
Proof.
  revert yielded batch. induction posts as [|post posts IH]; intros yielded batch.
  - cbn [fold_left map]. rewrite app_nil_r. repeat split; auto.
  - cbn [fold_left map]. rewrite stream_item_eq.
    destruct (batch_size <=? Z.of_nat (List.length (batch ++ [record_of post])))%Z eqn:Hfull.
    + specialize (IH (yielded ++ [(batch ++ [record_of post])%list])%list []).
      destruct (fold_left (stream_item batch_size) posts
                  ((yielded ++ [(batch ++ [record_of post])%list])%list, []))
        as [yielded' batch'].
      destruct IH as (Hcat & Hne & Hsize & Hone).
      apply Z.leb_le in Hfull. rewrite length_app in Hfull. cbn [List.length] in Hfull.
      split; [|split; [|split]].
      * rewrite Hcat, concat_app. cbn [List.concat app].
        rewrite app_nil_r, <- !app_assoc. reflexivity.
      * intros H. apply Hne. apply Forall_app. split; auto.
        constructor; auto. now destruct batch.
      * intros H1 Hlt Hall. apply Hsize; auto; [cbn; lia|].
        apply Forall_app. split; auto. constructor; auto.
        rewrite length_app. cbn [List.length]. lia.
      * intros H1 -> Hall. apply Hone; auto.
        apply Forall_app. split; auto.
    + specialize (IH yielded (batch ++ [record_of post])%list).
      destruct (fold_left (stream_item batch_size) posts
                  (yielded, (batch ++ [record_of post])%list))
        as [yielded' batch'].
      destruct IH as (Hcat & Hne & Hsize & Hone).
      apply Z.leb_gt in Hfull.
      split; [|split; [|split]].
      * rewrite Hcat, <- !app_assoc. reflexivity.
      * exact Hne.
      * intros H1 Hlt Hall. apply Hsize; auto.
      * intros H1 -> Hall. exfalso. cbn in Hfull. lia.
Qed.

(** X5. The batches of [extract_posts_streaming], taken to the end: none
    is empty, and put end to end they are the records of the listing in its
    order, nothing repeated. With a batch size of at least one every batch
    is full except possibly the last, which is shorter; with a batch size
    of one or less every batch holds a single record. When the listing
    breaks, the consumer receives [RedditAPIException] "Streaming
    extraction failed: ..." after the full batches, and the records of the
    batch being filled, fewer than a batch, are lost. *)
Theorem streaming_batches (subreddit time_filter : string) (batch_size : Z) (w : World) :
  let listing := reddit w (mkRequest subreddit (Top time_filter) (Some 100%Z)) in
  let records := map record_of (listing_items listing) in
  exists batches ending w',
    extract_posts_streaming subreddit time_filter batch_size w =
    (Ok (batches, ending), w') /\
    Forall (fun b => b <> []) batches /\
    (listing_error listing = None ->
     ending = None /\ List.concat batches = records /\
     ((1 <= batch_size)%Z ->
      exists full rest,
        batches = (full ++ rest)%list /\
        Forall (fun b => Z.of_nat (List.length b) = batch_size) full /\
        (rest = [] \/
         exists b, rest = [b] /\ (Z.of_nat (List.length b) < batch_size)%Z))) /\
    (forall e, listing_error listing = Some e ->
     ending = Some (Exn RedditAPIException
                        ("Streaming extraction failed: " ++ exn_msg e)) /\
     exists lost,
       (List.concat batches ++ lost)%list = records /\
       ((1 <= batch_size)%Z ->
        Forall (fun b => Z.of_nat (List.length b) = batch_size) batches /\
        (Z.of_nat (List.length lost) < batch_size)%Z)) /\
    ((batch_size <= 1)%Z -> Forall (fun b => List.length b = 1%nat) batches).
Proof.
  intros listing records.
  unfold extract_posts_streaming, bind. cbn [iterate]. fold listing.
  pose proof (stream_loop batch_size (listing_items listing) [] []) as Hloop.
  destruct (fold_left (stream_item batch_size) (listing_items listing) ([], []))
    as [yielded batch].
  cbn [List.concat app] in Hloop. fold records in Hloop.
  destruct Hloop as (Hcat & Hne & Hsize & Hone).
  specialize (Hne (Forall_nil _)).
  destruct (listing_error listing) as [e|] eqn:Herr.
  - do 3 eexists. split; [reflexivity|]. split; [exact Hne|].
    split; [discriminate|]. split.
    + intros e' E. inversion E; subst e'. split; [reflexivity|].
      exists batch. split; [exact Hcat|].
      intros H1. apply Hsize; auto. cbn. lia.
    + intros H1. now apply Hone.
  - destruct batch as [|d batch].
    + do 3 eexists. split; [reflexivity|]. split; [exact Hne|].
      split; [|split; [discriminate|]].
      * intros _. split; [reflexivity|]. split; [now rewrite app_nil_r in Hcat|].
        intros H1. exists yielded, []. rewrite app_nil_r.
        split; [reflexivity|]. split; [|now left].
        apply Hsize; auto. cbn. lia.
      * intros H1. now apply Hone.
    + do 3 eexists. split; [reflexivity|].
      split; [apply Forall_app; split; [exact Hne|constructor; [discriminate|constructor]]|].
      split; [|split; [discriminate|]].
      * intros _. split; [reflexivity|]. split.
        -- rewrite concat_app. cbn [List.concat]. now rewrite app_nil_r.
        -- intros H1. exists yielded, [d :: batch].
           split; [reflexivity|].
           destruct (Hsize H1) as [Hall Hlt]; [cbn; lia|constructor|].
           split; [exact Hall|]. right. exists (d :: batch). split; auto.
      * intros H1. destruct (Hone H1 eq_refl (Forall_nil _)) as [_ Habs]. discriminate.
Qed.

(** r/pics in batches of two: its one record comes in a last, short
    batch. *)
Example streaming_pics :
  fst (extract_posts_streaming "pics" "all" 2 (Examples.world [] Examples.noon)) =
  Ok ([[record_of Examples.link_post]], None).
Proof. vm_compute. reflexivity. Qed.

End ExtractorMore.

(** ** More on the transformer *)

Module TransformerMore.
Import Spec Notions DataTransformer HeapFacts DedupFacts TransformerFacts.

(** *** Statements on one frame *)

Lemma untouched_assign_from (new col : string) (f : Series -> result Series) :
  untouched [new] (assign_from new col f).
Proof.
  intros frame. split.
  - unfold assign_from. destruct (get_column frame col) as [s|]; auto.
    destruct (f s); reflexivity.
  - intros c Hc. apply assign_from_other. intros ->. apply Hc. now left.
Qed.

Lemma untouched_weaken (t1 t2 : list string) (body : F unit) :
  incl t1 t2 -> untouched t1 body -> untouched t2 body.
Proof.
  intros Hincl H frame. destruct (H frame) as [Hn Hc]. split; auto.
Qed.

Lemma untouched_fbind (t : list string) (m : F unit) (k : unit -> F unit) :
  untouched t m -> (forall a, untouched t (k a)) -> untouched t (fbind m k).
Proof.
  intros Hm Hk frame. unfold fbind.
  destruct (Hm frame) as [Hn Hc].
  destruct (m frame) as [[a|e] frame1]; cbn [snd] in *; auto.
  destruct (Hk a frame1) as [Hn' Hc']. split.
  - congruence.
  - intros c H. rewrite Hc', Hc; auto.
Qed.

Lemma untouched_for_each (t : list string) (cols : list string)
    (body : string -> F unit) :
  (forall c, In c cols -> untouched t (body c)) -> untouched t (for_each cols body).
Proof.
  induction cols as [|c cols IH]; intros H; cbn [for_each].
  - intros frame. split; auto.
  - apply untouched_fbind; [apply H; now left|].
    intros _. apply IH. intros c' Hc'. apply H. now right.
Qed.

Lemma untouched_clean_text :
  untouched ["title"; "selftext"; "author"] clean_text_body.
Proof.
  unfold clean_text_body. apply untouched_fbind.
  - apply untouched_for_each. intros c Hc. apply untouched_fbind.
    + eapply untouched_weaken; [|apply untouched_assign_from].
      intros x [<-|[]]. destruct Hc as [<-|[<-|[]]]; simpl; auto.
    + intros _. eapply untouched_weaken; [|apply untouched_assign_from].
      intros x [<-|[]]. destruct Hc as [<-|[<-|[]]]; simpl; auto.
  - intros _. eapply untouched_weaken; [|apply untouched_assign_from].
    intros x [<-|[]]. simpl. auto.
Qed.

Lemma untouched_engineer_features :
  untouched engineered_columns engineer_features_body.
Proof.
  unfold engineer_features_body.
  repeat (apply untouched_fbind;
          [eapply untouched_weaken; [|apply untouched_assign_from];
           intros x [<-|[]]; simpl; tauto | intros _]).
  apply untouched_fbind.
  - intros frame.
    destruct (get_column frame "score"); [|split; auto].
    destruct (get_column frame "num_comments"); [|split; auto].
    destruct (engagement s s0); cbn [snd]; [|split; auto].
    split; [reflexivity|]. intros c Hc. apply get_set_other.
    intros <-. apply Hc. simpl. tauto.
  - intros _. eapply untouched_weaken; [|apply untouched_assign_from].
    intros x [<-|[]]; simpl; tauto.
Qed.

(** *** Stages as transformers of frames *)

Lemma establishes_in_object (P Q : DataFrame -> Prop) (body : F unit) :
  (forall frame, P frame -> Q (snd (body frame))) ->
  establishes P Q (fun df => (in_object df body ;;; ret df)%M).
Proof.
  intros H df w out w' Hdf HP Hrun.
  unfold bind, in_object in Hrun.
  specialize (H (nth df (heap w) empty_frame) HP).
  destruct (body (nth df (heap w) empty_frame)) as [[[]|e] frame']; [|discriminate].
  inversion Hrun; subst. rewrite heap_with_heap, length_update_nth.
  split; auto. rewrite nth_update_nth by assumption. exact H.
Qed.

Lemma establishes_compose (P Q R : DataFrame -> Prop) (s1 s2 : loc -> M loc) :
  establishes P Q s1 -> establishes Q R s2 ->
  establishes P R (fun df => bind (s1 df) s2).
Proof.
  intros H1 H2 df w out w' Hdf HP Hrun. unfold bind in Hrun.
  destruct (s1 df w) as [[d1|e] w1] eqn:E1; [|discriminate].
  destruct (H1 df w d1 w1 Hdf HP E1) as [Hd1 HQ].
  exact (H2 d1 w1 out w' Hd1 HQ Hrun).
Qed.

Lemma establishes_weaken (P P' Q Q' : DataFrame -> Prop) (stage : loc -> M loc) :
  (forall f, P' f -> P f) -> (forall f, Q f -> Q' f) ->
  establishes P Q stage -> establishes P' Q' stage.
Proof.
  intros HP HQ H df w out w' Hdf HP' Hrun.
  destruct (H df w out w' Hdf (HP _ HP') Hrun). auto.
Qed.

Lemma alloc_frame (frame : DataFrame) (w : World) :
  alloc frame w = (Ok (List.length (heap w)), with_heap (heap w ++ [frame])%list w).
Proof. reflexivity. Qed.

Lemma establishes_drop_missing (P : DataFrame -> Prop) (fields : list string) :
  (forall m frame, P frame -> P (frame_filter m frame)) ->
  establishes P P (fun df => drop_missing df fields).
Proof.
  intros Hclosed. induction fields as [|field fields IH]; intros df w out w' Hdf HP Hrun.
  - cbn in Hrun. inversion Hrun; subst. auto.
  - cbn [drop_missing] in Hrun. rewrite (bind_ok _ _ _ _ _ (load_eq _ _)) in Hrun.
    destruct (get_column (nth df (heap w) empty_frame) field) as [s|].
    + rewrite (bind_ok _ _ _ _ _ (alloc_frame _ _)) in Hrun.
      eapply IH; [| |exact Hrun].
      * rewrite heap_with_heap, length_app. simpl. lia.
      * rewrite heap_with_heap, nth_alloc. now apply Hclosed.
    + eapply IH; eassumption.
Qed.

Lemma establishes_remove_duplicates (P : DataFrame -> Prop) :
  (forall m frame, P frame -> P (frame_filter m frame)) ->
  establishes P P _remove_duplicates.
Proof.
  intros Hclosed df w out w' Hdf HP Hrun. rewrite remove_duplicates_eq in Hrun.
  destruct (get_column (nth df (heap w) empty_frame) "id") as [ids|].
  - inversion Hrun; subst. rewrite heap_with_heap, length_app, nth_alloc.
    split; [simpl; lia|]. now apply Hclosed.
  - inversion Hrun; subst. auto.
Qed.

(** *** What filtering keeps *)

Lemma count_true_le_length (m : list bool) : (count_true m <= List.length m)%nat.
Proof.
  induction m as [|b m IH]; [unfold count_true; simpl; lia|].
  rewrite count_true_cons. destruct b; simpl; lia.
Qed.

Lemma nrows_filter (m : list bool) (frame : DataFrame) :
  (nrows (frame_filter m frame) <= nrows frame)%nat.
Proof.
  unfold frame_filter. cbn [nrows].
  etransitivity; [apply count_true_le_length|]. apply firstn_le_length.
Qed.

Lemma column_is_filter (test : Series -> bool) (m : list bool) (frame : DataFrame)
    (col : string) :
  (forall s, test s = true -> test (series_filter m s) = true) ->
  column_is test frame col = true -> column_is test (frame_filter m frame) col = true.
Proof.
  intros Hclosed. unfold column_is. rewrite get_column_filter.
  destruct (get_column frame col); simpl; auto.
Qed.

Lemma numeric_filter (m : list bool) (s : Series) :
  is_numeric_dtype s = true -> is_numeric_dtype (series_filter m s) = true.
Proof. destruct s; auto. Qed.

Lemma isnull_filter (m : list bool) (s : Series) :
  isnull (series_filter m s) = mask_filter m (isnull s).
Proof. unfold isnull. now rewrite to_objects_filter, mask_filter_map. Qed.

Lemma forallb_mask_filter {A} (p : A -> bool) (m : list bool) (l : list A) :
  forallb p l = true -> forallb p (mask_filter m l) = true.
Proof.
  revert m. induction l as [|x l IH]; intros [|b m] H; simpl in *; auto.
  apply andb_true_iff in H. destruct H as [Hx Hl].
  destruct b; simpl; rewrite ?Hx; simpl; now apply IH.
Qed.

Lemma no_null_filter (m : list bool) (s : Series) :
  no_null s = true -> no_null (series_filter m s) = true.
Proof. unfold no_null. rewrite isnull_filter. apply forallb_mask_filter. Qed.

Lemma notna_filter_no_null (s : Series) : no_null (series_filter (notna s) s) = true.
Proof.
  unfold no_null, notna. rewrite isnull_filter.
  induction (isnull s) as [|b l IH]; simpl; auto.
  destruct b; simpl; auto.
Qed.

Lemma forallb_repeat_true (n : nat) : forallb (fun b => b) (repeat true n) = true.
Proof. induction n; simpl; auto. Qed.

Lemma unique_after_dedup (ids : Series) :
  unique (series_filter (first_occurrence [] (to_objects ids)) ids) = true.
Proof.
  unfold unique, duplicated. rewrite to_objects_filter.
  rewrite (first_occurrence_filtered _ [] []) by auto.
  induction (count_true (first_occurrence [] (to_objects ids))); simpl; auto.
Qed.

(** *** Type coercion, column by column *)

Lemma convert_types_columns (frame : DataFrame) :
  exists frame',
    convert_types_body frame = (Ok tt, frame') /\
    nrows frame' = nrows frame /\
    (forall col, In col string_columns ->
       get_column frame' col =
       option_map (fun s => replace_nan "nan" (astype_str s)) (get_column frame col)) /\
    (forall col, In col numeric_columns ->
       get_column frame' col = option_map to_numeric (get_column frame col)).
Proof.
  assert (Hrows : untouched (string_columns ++ numeric_columns ++ boolean_columns ++
                             ["created_utc"; "created_date"; "created_hour";
                              "created_day_of_week"])%list convert_types_body).
  { unfold convert_types_body.
    repeat (apply untouched_fbind;
            [first [ apply untouched_for_each; intros c Hc
                   | idtac ];
             (eapply untouched_weaken; [|apply untouched_assign_from]);
             intros x [<-|[]]; simpl in *; tauto
            | intros _]).
    eapply untouched_weaken; [|apply untouched_assign_from].
    intros x [<-|[]]; simpl; tauto. }
  unfold convert_types_body in *.
  destruct (for_each_update (fun s => replace_nan "nan" (astype_str s))
              string_columns frame string_columns_NoDup) as (f1 & H1 & G1).
  destruct (for_each_update to_numeric numeric_columns f1 numeric_columns_NoDup)
    as (f2 & H2 & G2).
  destruct (for_each_update astype_bool boolean_columns f2 boolean_columns_NoDup)
    as (f3 & H3 & G3).
  destruct (derive_dates_ok f3) as (f4 & H4 & G4).
  assert (Hrun : fbind
      (for_each string_columns
         (fun col => update_column col (fun s => Ok (replace_nan "nan" (astype_str s)))))
      (fun _ => fbind
         (for_each numeric_columns (fun col => update_column col (fun s => Ok (to_numeric s))))
         (fun _ => fbind
            (for_each boolean_columns
               (fun col => update_column col (fun s => Ok (astype_bool s))))
            (fun _ => fbind (update_column "created_utc" (fun s => Ok (to_datetime s)))
               (fun _ => fbind (assign_from "created_date" "created_utc" dt_date)
                  (fun _ => fbind (assign_from "created_hour" "created_utc" dt_hour)
                     (fun _ => assign_from "created_day_of_week" "created_utc"
                                           dt_day_name)))))) frame = (Ok tt, f4)).
  { rewrite (fbind_ok _ _ _ _ _ H1), (fbind_ok _ _ _ _ _ H2), (fbind_ok _ _ _ _ _ H3).
    exact H4. }
  exists f4. split; [exact Hrun|]. split; [|split].
  - destruct (Hrows frame) as [Hn _]. rewrite Hrun in Hn. exact Hn.
  - intros col Hin. rewrite G4, G3, G2, G1.
    + destruct Hin as [<-|[<-|[<-|[<-|[<-|[<-|[<-|[]]]]]]]]; reflexivity.
    + destruct Hin as [<-|[<-|[<-|[<-|[<-|[<-|[<-|[]]]]]]]]; simpl; intuition discriminate.
  - intros col Hin. rewrite G4, G3, G2, G1.
    + destruct Hin as [<-|[<-|[<-|[]]]]; reflexivity.
    + destruct Hin as [<-|[<-|[<-|[]]]]; simpl; intuition discriminate.
Qed.

Lemma existsb_only_nan (p : pyobj -> bool) (l : list pyobj) :
  p PNaN = false -> Forall (fun v => v = PNaN) l -> existsb p l = false.
Proof.
  intros Hp H. induction H as [|v l -> _ IH]; simpl; auto. now rewrite Hp.
Qed.

(** Converting again a block of strings and NaN changes no element. *)
Lemma infer_text (l : list pyobj) :
  Forall (fun v => v = PNaN \/ exists x, v = PStr x) l ->
  to_objects (infer_objects l) = l.
Proof.
  intros H. unfold infer_objects.
  destruct (existsb is_plain_object l) eqn:Hplain; [reflexivity|].
  assert (Hnan : Forall (fun v => v = PNaN) l).
  { apply Forall_forall. intros v Hv.
    rewrite Forall_forall in H. destruct (H v Hv) as [->|[x ->]]; auto.
    assert (existsb is_plain_object l = true)
      by (apply existsb_exists; exists (PStr x); auto).
    congruence. }
  rewrite (existsb_only_nan is_pnat), (existsb_only_nan is_pbool),
          (existsb_only_nan is_pnone), (existsb_only_nan is_pfloat),
          (existsb_only_nan is_pint) by auto.
  destruct l as [|v l]; [reflexivity|].
  inversion Hnan; subst. cbn [existsb is_pnan orb to_objects].
  rewrite map_map. cbn [map as_float num_of float_obj]. f_equal.
  clear -H3. induction H3 as [|v l -> _ IH]; simpl; auto. now rewrite IH.
Qed.

Lemma coerced_text_objects (s : Series) :
  to_objects (replace_nan "nan" (astype_str s)) = map coerced_text (to_objects s).
Proof.
  unfold astype_str, replace_nan.
  set (l := to_objects s).
  assert (Hput : put_nan ["nan"] (map (fun v => PStr (py_str v)) l) = map coerced_text l).
  { unfold put_nan. rewrite map_map. apply map_ext. intros v.
    unfold coerced_text, is_one_of, mem. cbn [existsb]. now rewrite orb_false_r. }
  destruct (existsb (is_one_of ["nan"]) (map (fun v => PStr (py_str v)) l)) eqn:Hhit.
  - rewrite Hput. apply infer_text. apply Forall_forall. intros v Hv.
    apply in_map_iff in Hv. destruct Hv as [x [<- _]]. unfold coerced_text.
    destruct (String.eqb (py_str x) "nan"); eauto.
  - cbn [to_objects]. apply map_ext_in. intros v Hv. unfold coerced_text.
    destruct (String.eqb (py_str v) "nan") eqn:E; auto.
    assert (existsb (is_one_of ["nan"]) (map (fun v => PStr (py_str v)) l) = true).
    { apply existsb_exists. exists (PStr (py_str v)). split.
      - apply in_map_iff. eauto.
      - unfold is_one_of, mem. cbn [existsb]. now rewrite E. }
    congruence.
Qed.

(** X6. Type coercion of a string column (id, subreddit, title, selftext,
    author, url, permalink) never raises and replaces every element by its
    text, except that an element whose text is 'nan' becomes null. So a
    NaN becomes null, and a None does not: it becomes the string 'None'. *)
Theorem convert_types_strings (df : loc) (w : World) (col : string) (s : Series) :
  (df < List.length (heap w))%nat ->
  In col string_columns ->
  get_column (nth df (heap w) empty_frame) col = Some s ->
  exists w' s',
    _convert_types df w = (Ok df, w') /\
    get_column (nth df (heap w') empty_frame) col = Some s' /\
    to_objects s' = map coerced_text (to_objects s) /\
    isnull s' = map (fun v => String.eqb (py_str v) "nan") (to_objects s) /\
    coerced_text PNaN = PNaN /\ coerced_text PNone = PStr "None".
Proof.
  intros Hdf Hin Hs.
  destruct (convert_types_columns (nth df (heap w) empty_frame))
    as (frame' & Hrun & _ & Hstr & _).
  exists (with_heap (update_nth df frame' (heap w)) w),
         (replace_nan "nan" (astype_str s)).
  split; [|split; [|split; [|split; [|split]]]].
  - unfold _convert_types, bind, in_object. rewrite Hrun. reflexivity.
  - rewrite heap_with_heap, nth_update_nth by assumption.
    rewrite Hstr, Hs by assumption. reflexivity.
  - apply coerced_text_objects.
  - unfold isnull. rewrite coerced_text_objects, map_map. apply map_ext.
    intros v. unfold coerced_text. destruct (String.eqb (py_str v) "nan"); reflexivity.
  - reflexivity.
  - reflexivity.
Qed.

Lemma convert_types_strings_witness :
  exists w' s',
    _convert_types 0%nat (Examples.world [Examples.sparse_frame] Examples.noon) =
    (Ok 0%nat, w') /\
    get_column (nth 0%nat (heap w') empty_frame) "author" = Some s' /\
    to_objects s' =
    map coerced_text [PStr "u"; PNone; PNone; PStr "v"; PNone].
Proof.
  destruct (convert_types_strings 0%nat
              (Examples.world [Examples.sparse_frame] Examples.noon) "author"
              (SObject [PStr "u"; PNone; PNone; PStr "v"; PNone]))
    as (w' & s' & H1 & H2 & H3 & _).
  - simpl. lia.
  - simpl. tauto.
  - reflexivity.
  - exists w', s'. repeat split; assumption.
Defined.

(** *** From stage to stage *)

Lemma establishes_ret (P : DataFrame -> Prop) : establishes P P (fun df => ret df).
Proof. intros df w out w' Hdf HP Hrun. inversion Hrun; subst. auto. Qed.

Lemma establishes_stages (P0 P1 P2 P3 P4 : DataFrame -> Prop) :
  establishes P0 P1 _convert_types ->
  establishes P1 P2 _clean_data ->
  establishes P2 P3 _engineer_features ->
  establishes P3 P4 _remove_duplicates ->
  establishes P0 P4 stages.
Proof.
  intros H1 H2 H3 H4. unfold stages.
  apply (establishes_compose P0 P1 P4); [exact H1|].
  apply (establishes_compose P1 P2 P4); [exact H2|].
  apply (establishes_compose P2 P3 P4); [exact H3|].
  apply (establishes_compose P3 P4 P4); [exact H4|apply establishes_ret].
Qed.

Lemma establishes_clean_data (P Q : DataFrame -> Prop) :
  establishes P Q (fun df => drop_missing df ["id"; "title"]) ->
  (forall frame, Q frame -> Q (snd (clean_text_body frame))) ->
  establishes P Q _clean_data.
Proof.
  intros Hdrop Hbody. unfold _clean_data.
  apply (establishes_compose P Q Q); [exact Hdrop|].
  now apply establishes_in_object.
Qed.

(** A non-empty dataset that the transformation returns came out of the
    four stages, run on a copy. *)
Lemma transform_ok_stages (df : loc) (w : World) (out : loc) (w' : World) :
  frame_empty (nth df (heap w) empty_frame) = false ->
  transform_reddit_posts df w = (Ok out, w') ->
  stages (List.length (heap w))
         (with_heap (heap w ++ [nth df (heap w) empty_frame])%list w) = (Ok out, w').
Proof.
  intros Hne Hrun. unfold transform_reddit_posts in Hrun.
  rewrite (bind_ok _ _ _ _ _ (load_eq _ _)), Hne in Hrun.
  rewrite (bind_ok _ _ _ _ _ (alloc_frame _ _)) in Hrun.
  unfold try_catch in Hrun.
  destruct (stages (List.length (heap w))
              (with_heap (heap w ++ [nth df (heap w) empty_frame])%list w))
    as [[o|e] w1]; [exact Hrun|discriminate].
Qed.

Lemma transform_establishes (P Q : DataFrame -> Prop) (df : loc) (w : World)
    (out : loc) (w' : World) :
  establishes P Q stages ->
  frame_empty (nth df (heap w) empty_frame) = false ->
  P (nth df (heap w) empty_frame) ->
  transform_reddit_posts df w = (Ok out, w') ->
  Q (nth out (heap w') empty_frame).
Proof.
  intros Hst Hne HP Hrun.
  apply transform_ok_stages in Hrun; [|exact Hne].
  eapply Hst; [| |exact Hrun].
  - rewrite heap_with_heap, length_app. simpl. lia.
  - rewrite heap_with_heap, nth_alloc. exact HP.
Qed.

(** *** Rows *)

Lemma stages_rows (k : nat) :
  establishes (fun f => nrows f <= k)%nat (fun f => nrows f <= k)%nat stages.
Proof.
  assert (Hfilter : forall m frame, (nrows frame <= k)%nat ->
                                    (nrows (frame_filter m frame) <= k)%nat).
  { intros m frame H. etransitivity; [apply nrows_filter|exact H]. }
  apply (establishes_stages _ (fun f => nrows f <= k)%nat (fun f => nrows f <= k)%nat
                            (fun f => nrows f <= k)%nat).
  - apply establishes_in_object. intros frame H.
    destruct (convert_types_columns frame) as (f' & Hrun & Hn & _).
    rewrite Hrun. cbn [snd]. lia.
  - apply establishes_clean_data.
    + now apply establishes_drop_missing.
    + intros frame H. destruct (untouched_clean_text frame) as [Hn _]. lia.
  - apply establishes_in_object. intros frame H.
    destruct (untouched_engineer_features frame) as [Hn _]. lia.
  - now apply establishes_remove_duplicates.
Qed.

(** X8. The transformation never adds a row: the dataset that
    [transform_reddit_posts] returns has at most as many rows as the one it
    was given. *)
Theorem transform_never_adds_rows (df : loc) (w : World) (out : loc) (w' : World) :
  (df < List.length (heap w))%nat ->
  transform_reddit_posts df w = (Ok out, w') ->
  (nrows (nth out (heap w') empty_frame) <= nrows (nth df (heap w) empty_frame))%nat.
Proof.
  intros Hdf Hrun.
  destruct (frame_empty (nth df (heap w) empty_frame)) eqn:Hne.
  - unfold transform_reddit_posts in Hrun.
    rewrite (bind_ok _ _ _ _ _ (load_eq _ _)), Hne in Hrun.
    inversion Hrun; subst. lia.
  - apply (transform_establishes (fun f => nrows f <= nrows (nth df (heap w) empty_frame))%nat
             (fun f => nrows f <= nrows (nth df (heap w) empty_frame))%nat df w out w');
      auto. apply stages_rows.
Qed.

Lemma transform_never_adds_rows_witness :
  (nrows (nth 4%nat (heap (snd (transform_reddit_posts 0%nat
            (Examples.world [Examples.repeated_id_frame] Examples.noon)))) empty_frame)
   <= nrows (nth 0%nat (heap (Examples.world [Examples.repeated_id_frame] Examples.noon))
                 empty_frame))%nat.
Proof.
  apply (transform_never_adds_rows 0%nat
           (Examples.world [Examples.repeated_id_frame] Examples.noon) 4%nat).
  - simpl. lia.
  - vm_compute. reflexivity.
Defined.

(** *** Identifiers *)

Lemma column_is_same (test : Series -> bool) (f f' : DataFrame) (col : string) :
  get_column f' col = get_column f col ->
  column_is test f' col = column_is test f col.
Proof. unfold column_is. now intros ->. Qed.

Lemma drop_missing_id :
  establishes (fun _ => True) (fun f => column_is no_null f "id" = true)
              (fun df => drop_missing df ["id"; "title"]).
Proof.
  assert (Hclosed : forall m frame, column_is no_null frame "id" = true ->
                                    column_is no_null (frame_filter m frame) "id" = true).
  { intros m frame. apply column_is_filter. intros s. apply no_null_filter. }
  intros df w out w' Hdf _ Hrun.
  cbn [drop_missing] in Hrun. rewrite (bind_ok _ _ _ _ _ (load_eq _ _)) in Hrun.
  destruct (get_column (nth df (heap w) empty_frame) "id") as [ids|] eqn:Hid.
  - rewrite (bind_ok _ _ _ _ _ (alloc_frame _ _)) in Hrun.
    eapply (establishes_drop_missing _ ["title"] Hclosed); [| |exact Hrun].
    + rewrite heap_with_heap, length_app. simpl. lia.
    + rewrite heap_with_heap, nth_alloc. unfold column_is.
      rewrite get_column_filter, Hid. cbn [option_map]. apply notna_filter_no_null.
  - eapply (establishes_drop_missing _ ["title"] Hclosed); [exact Hdf| |exact Hrun].
    unfold column_is. now rewrite Hid.
Qed.

Lemma stages_identifiers :
  establishes (fun _ => True)
              (fun f => column_is no_null f "id" = true /\ column_is unique f "id" = true)
              stages.
Proof.
  apply (establishes_stages _ (fun _ => True)
           (fun f => column_is no_null f "id" = true)
           (fun f => column_is no_null f "id" = true)).
  - apply establishes_in_object. auto.
  - apply establishes_clean_data; [apply drop_missing_id|].
    intros frame H. destruct (untouched_clean_text frame) as [_ Hc].
    rewrite (column_is_same _ frame); auto. apply Hc. simpl. intuition discriminate.
  - apply establishes_in_object. intros frame H.
    destruct (untouched_engineer_features frame) as [_ Hc].
    rewrite (column_is_same _ frame); auto. apply Hc.
    unfold engineered_columns. simpl. intuition discriminate.
  - intros df w out w' Hdf HP Hrun. rewrite remove_duplicates_eq in Hrun.
    destruct (get_column (nth df (heap w) empty_frame) "id") as [ids|] eqn:Hid.
    + inversion Hrun; subst. rewrite heap_with_heap, length_app, nth_alloc.
      split; [simpl; lia|]. unfold drop_duplicates_id. split.
      * apply column_is_filter; [intros s; apply no_null_filter|exact HP].
      * unfold column_is. rewrite get_column_filter, Hid. cbn [option_map].
        apply unique_after_dedup.
    + inversion Hrun; subst. split; auto. split; auto.
      unfold column_is. now rewrite Hid.
Qed.

(** X7. In the dataset that [transform_reddit_posts] returns for a dataset
    that is not empty, the identifiers, if there is an 'id' column, are all
    present and pairwise different: no id is null and none is repeated. *)
Theorem transform_identifiers (df : loc) (w : World) (out : loc) (w' : World) :
  frame_empty (nth df (heap w) empty_frame) = false ->
  transform_reddit_posts df w = (Ok out, w') ->
  column_is no_null (nth out (heap w') empty_frame) "id" = true /\
  column_is unique (nth out (heap w') empty_frame) "id" = true.
Proof.
  intros Hne Hrun.
  apply (transform_establishes (fun _ => True)
           (fun f => column_is no_null f "id" = true /\ column_is unique f "id" = true)
           df w out w'); auto.
  apply stages_identifiers.
Qed.

Lemma transform_identifiers_witness :
  column_is no_null
    (nth 4%nat (heap (snd (transform_reddit_posts 0%nat
       (Examples.world [Examples.repeated_id_frame] Examples.noon)))) empty_frame)
    "id" = true /\
  column_is unique
    (nth 4%nat (heap (snd (transform_reddit_posts 0%nat
       (Examples.world [Examples.repeated_id_frame] Examples.noon)))) empty_frame)
    "id" = true.
Proof.
  apply (transform_identifiers 0%nat
           (Examples.world [Examples.repeated_id_frame] Examples.noon) 4%nat).
  - reflexivity.
  - vm_compute. reflexivity.
Defined.

(** *** Numbers *)

Lemma to_numeric_is_numeric (s : Series) : is_numeric_dtype (to_numeric s) = true.
Proof.
  destruct s; try reflexivity. simpl.
  destruct (existsb numeral_is_float (map numeral_of l)); [reflexivity|].
  destruct (existsb numeral_is_int (map numeral_of l)); [reflexivity|].
  destruct (map numeral_of l); reflexivity.
Qed.

Lemma comparable_columns (frame : DataFrame) :
  comparable frame = true <->
  forall col, In col numeric_columns ->
              column_is is_numeric_dtype frame col = true.
Proof.
  unfold comparable, numeric_columns, column_is. cbn [forallb].
  rewrite !andb_true_iff. split.
  - intros (H1 & H2 & H3 & _) col [<-|[<-|[<-|[]]]]; assumption.
  - intros H. repeat split; apply H; simpl; auto.
Qed.

Lemma comparable_same (f f' : DataFrame) :
  (forall col, In col numeric_columns -> get_column f' col = get_column f col) ->
  comparable f = true -> comparable f' = true.
Proof.
  intros Hsame H. apply comparable_columns. intros col Hin.
  rewrite (column_is_same _ f) by auto.
  now apply comparable_columns.
Qed.

Lemma comparable_filter (m : list bool) (frame : DataFrame) :
  comparable frame = true -> comparable (frame_filter m frame) = true.
Proof.
  intros H. apply comparable_columns. intros col Hin.
  apply column_is_filter; [intros s; apply numeric_filter|].
  now apply comparable_columns.
Qed.

Lemma stages_numbers :
  establishes (fun _ => True) (fun f => comparable f = true) stages.
Proof.
  apply (establishes_stages _ (fun f => comparable f = true)
           (fun f => comparable f = true) (fun f => comparable f = true)).
  - apply establishes_in_object. intros frame _.
    destruct (convert_types_columns frame) as (f' & Hrun & _ & _ & Hnum).
    rewrite Hrun. cbn [snd]. apply comparable_columns. intros col Hin.
    unfold column_is. rewrite Hnum by assumption.
    destruct (get_column frame col); cbn [option_map]; auto.
    apply to_numeric_is_numeric.
  - apply establishes_clean_data.
    + apply establishes_drop_missing. intros m frame. apply comparable_filter.
    + intros frame H. destruct (untouched_clean_text frame) as [_ Hc].
      apply (comparable_same frame); auto. intros col Hin. apply Hc.
      destruct Hin as [<-|[<-|[<-|[]]]]; simpl; intuition discriminate.
  - apply establishes_in_object. intros frame H.
    destruct (untouched_engineer_features frame) as [_ Hc].
    apply (comparable_same frame); auto. intros col Hin. apply Hc.
    unfold engineered_columns.
    destruct Hin as [<-|[<-|[<-|[]]]]; simpl; intuition discriminate.
  - apply establishes_remove_duplicates. intros m frame. apply comparable_filter.
Qed.

(** X9. Validation never raises on what the transformer returns: after
    [transform_reddit_posts] has returned a dataset for a dataset that is
    not empty, its score, num_comments and upvote_ratio columns are
    numeric, and [validate], with any settings, returns a result for it
    and changes nothing. *)
Theorem validate_returns_after_transform (self : DataValidator.validator)
    (df : loc) (w : World) (out : loc) (w' : World) :
  frame_empty (nth df (heap w) empty_frame) = false ->
  transform_reddit_posts df w = (Ok out, w') ->
  comparable (nth out (heap w') empty_frame) = true /\
  exists r, DataValidator.validate self out w' = (Ok r, w').
Proof.
  intros Hne Hrun.
  assert (Hcmp : comparable (nth out (heap w') empty_frame) = true).
  { apply (transform_establishes (fun _ => True) (fun f => comparable f = true)
             df w out w'); auto. apply stages_numbers. }
  split; [exact Hcmp|].
  rewrite ValidatorFacts.validate_eq. unfold outcome.
  destruct (ValidatorFacts.business_rules_returns _ (clock w') Hcmp) as [t ->].
  eauto.
Qed.

Lemma validate_returns_after_transform_witness :
  exists r,
    DataValidator.validate DataValidator.default_validator 4%nat
      (snd (transform_reddit_posts 0%nat
              (Examples.world [Examples.repeated_id_frame] Examples.noon))) =
    (Ok r, snd (transform_reddit_posts 0%nat
                  (Examples.world [Examples.repeated_id_frame] Examples.noon))).
Proof.
  apply (validate_returns_after_transform DataValidator.default_validator 0%nat
           (Examples.world [Examples.repeated_id_frame] Examples.noon) 4%nat).
  - reflexivity.
  - vm_compute. reflexivity.
Defined.

(** *** Text *)


Lemma all_space_rstrip (s : string) : all_space (rstrip s) = all_space s.
Proof.
  induction s as [|a s IH]; [reflexivity|].
  cbn [rstrip]. destruct (all_space (String a s)) eqn:E; [reflexivity|].
  cbn [all_space] in *. now rewrite IH.
Qed.

Lemma rstrip_again (s : string) : rstrip (rstrip s) = rstrip s.
Proof.
  induction s as [|a s IH]; [reflexivity|].
  cbn [rstrip]. destruct (all_space (String a s)) eqn:E; [reflexivity|].
  cbn [rstrip]. cbn [all_space] in *. now rewrite all_space_rstrip, E, IH.
Qed.

Lemma lstrip_head (s : string) :
  lstrip s = "" \/ exists a rest, lstrip s = String a rest /\ is_space a = false.
Proof.
  induction s as [|a s IH]; [now left|].
  cbn [lstrip]. destruct (is_space a) eqn:E; [exact IH|]. right. eauto.
Qed.

Lemma strip_again (s : string) : strip (strip s) = strip s.
Proof.
  unfold strip.
  assert (H : lstrip (rstrip (lstrip s)) = rstrip (lstrip s)).
  { destruct (lstrip_head s) as [->|(a & rest & -> & Ha)]; [reflexivity|].
    cbn [rstrip all_space]. rewrite Ha. cbn [andb lstrip]. now rewrite Ha. }
  rewrite H. apply rstrip_again.
Qed.

Lemma forallb_map_all {A B} (test : B -> bool) (f : A -> B) (l : list A) :
  (forall x, test (f x) = true) -> forallb test (map f l) = true.
Proof. intros H. induction l as [|x l IH]; simpl; [reflexivity|now rewrite H]. Qed.

(** A test that only strings can fail survives the inference of a dtype. *)
Lemma all_elements_infer (test : pyobj -> bool) (l : list pyobj) :
  (forall v, is_pstr v = false -> test v = true) ->
  forallb test l = true -> all_elements test (infer_objects l) = true.
Proof.
  intros Hstr Hl. unfold all_elements, infer_objects.
  repeat match goal with
         | |- context [if ?c then _ else _] => destruct c
         end; cbn [to_objects]; try exact Hl;
    apply forallb_map_all; intros x; apply Hstr;
    try reflexivity; try (destruct x; reflexivity);
    try (destruct (as_float x); reflexivity).
Qed.

Lemma all_elements_typed (test : pyobj -> bool) (s : Series) :
  (forall v, is_pstr v = false -> test v = true) ->
  (forall l, s <> SObject l) -> all_elements test s = true.
Proof.
  intros Hstr Hs. unfold all_elements.
  destruct s; cbn [to_objects]; try (exfalso; eapply Hs; reflexivity);
    apply forallb_map_all; intros x; apply Hstr; try reflexivity;
    destruct x; reflexivity.
Qed.

Lemma all_elements_filter (test : pyobj -> bool) (m : list bool) (s : Series) :
  all_elements test s = true -> all_elements test (series_filter m s) = true.
Proof.
  unfold all_elements. rewrite to_objects_filter. apply forallb_mask_filter.
Qed.

Lemma trimmed_typed (v : pyobj) : is_pstr v = false -> trimmed v = true.
Proof. destruct v; auto; discriminate. Qed.

Lemma named_typed (v : pyobj) : is_pstr v = false -> named_author v = true.
Proof. destruct v; auto; discriminate. Qed.

Lemma put_nan_none (olds : list string) (l : list pyobj) :
  existsb (is_one_of olds) l = false -> put_nan olds l = l.
Proof.
  unfold put_nan. induction l as [|v l IH]; simpl; [reflexivity|].
  intros H. apply orb_false_iff in H. destruct H as [-> Hl]. now rewrite IH.
Qed.

(** What [.str.strip()] and [.replace('', np.nan)] leave of a column. *)
Lemma stripped_is_trimmed (s s1 : Series) :
  str_strip s = Ok s1 -> all_elements trimmed (replace_nan "" s1) = true.
Proof.
  unfold str_strip. destruct (str_accessor_ok s); [|discriminate].
  intros E. inversion E; subst s1. clear E.
  set (l1 := map _ (to_objects s)).
  assert (H : forallb trimmed (put_nan [""] l1) = true).
  { unfold put_nan, l1. rewrite map_map. apply forallb_map_all. intros v.
    destruct v; try reflexivity.
    cbn [is_one_of mem existsb]. rewrite orb_false_r.
    destruct (String.eqb (strip s0) "") eqn:E; [reflexivity|].
    cbn [trimmed]. rewrite E, strip_again, String.eqb_refl. reflexivity. }
  unfold replace_nan.
  destruct (existsb (is_one_of [""]) l1) eqn:E.
  - apply all_elements_infer; [apply trimmed_typed|exact H].
  - rewrite put_nan_none in H by exact E. exact H.
Qed.

Lemma replaced_is_named (s : Series) :
  all_elements named_author (replace_list_nan ["[deleted]"; "[removed]"; "nan"] s) = true.
Proof.
  destruct s; try (apply all_elements_typed; [apply named_typed|discriminate]).
  cbn [replace_list_nan]. apply all_elements_infer; [apply named_typed|].
  unfold put_nan. apply forallb_map_all. intros v.
  destruct (is_one_of ["[deleted]"; "[removed]"; "nan"] v) eqn:E; [reflexivity|].
  unfold named_author. now rewrite E.
Qed.

Lemma clean_field_ok (field : string) (frame frame' : DataFrame) :
  fbind (update_column field str_strip)
        (fun _ => update_column field (fun s => Ok (replace_nan "" s))) frame =
  (Ok tt, frame') ->
  column_is (all_elements trimmed) frame' field = true /\
  forall c, c <> field -> get_column frame' c = get_column frame c.
Proof.
  unfold fbind, update_column. unfold assign_from at 1.
  destruct (get_column frame field) as [s|] eqn:Hs.
  - destruct (str_strip s) as [s1|e] eqn:Hstrip; [|discriminate].
    unfold assign_from. rewrite get_set_same. intros E. inversion E; subst frame'.
    split.
    + unfold column_is. rewrite get_set_same. eapply stripped_is_trimmed; eassumption.
    + intros c Hc. rewrite !get_set_other by congruence. reflexivity.
  - unfold assign_from. rewrite Hs. intros E. inversion E; subst frame'.
    split; [|reflexivity]. unfold column_is. now rewrite Hs.
Qed.

Lemma clean_text_body_ok (frame frame' : DataFrame) :
  clean_text_body frame = (Ok tt, frame') ->
  column_is (all_elements trimmed) frame' "title" = true /\
  column_is (all_elements trimmed) frame' "selftext" = true /\
  column_is (all_elements named_author) frame' "author" = true.
Proof.
  pose (step := fun field : string =>
                  fbind (update_column field str_strip)
                    (fun _ => update_column field (fun s => Ok (replace_nan "" s)))).
  unfold clean_text_body. cbn [for_each].
  change (fbind (update_column "title" str_strip)
            (fun _ => update_column "title" (fun s => Ok (replace_nan "" s))))
    with (step "title").
  change (fbind (update_column "selftext" str_strip)
            (fun _ => update_column "selftext" (fun s => Ok (replace_nan "" s))))
    with (step "selftext").
  unfold fbind.
  destruct (step "title" frame) as [[[]|e] f1] eqn:H1; [|discriminate].
  destruct (step "selftext" f1) as [[[]|e] f2] eqn:H2; [|discriminate].
  cbn [fret].
  apply clean_field_ok in H1. apply clean_field_ok in H2.
  destruct H1 as [T1 _]. destruct H2 as [T2 O2].
  unfold update_column, assign_from.
  destruct (get_column f2 "author") as [a|] eqn:Ha; intros E; inversion E; subst frame'.
  - unfold column_is. rewrite !get_set_other by discriminate. rewrite get_set_same.
    split; [|split; [exact T2|apply replaced_is_named]].
    unfold column_is in T1. now rewrite O2 by discriminate.
  - split; [|split; [exact T2|]].
    + unfold column_is in *. now rewrite O2 by discriminate.
    + unfold column_is. now rewrite Ha.
Qed.

Lemma establishes_in_object_ok (P Q : DataFrame -> Prop) (body : F unit) :
  (forall frame frame', P frame -> body frame = (Ok tt, frame') -> Q frame') ->
  establishes P Q (fun df => (in_object df body ;;; ret df)%M).
Proof.
  intros H df w out w' Hdf HP Hrun.
  unfold bind, in_object in Hrun.
  specialize (H (nth df (heap w) empty_frame)).
  destruct (body (nth df (heap w) empty_frame)) as [[[]|e] frame']; [|discriminate].
  inversion Hrun; subst. rewrite heap_with_heap, length_update_nth.
  split; auto. rewrite nth_update_nth by assumption. now apply (H frame').
Qed.

Lemma clean_text_same (f f' : DataFrame) :
  (forall c, In c ["title"; "selftext"; "author"] -> get_column f' c = get_column f c) ->
  clean_text f -> clean_text f'.
Proof.
  intros Hsame (H1 & H2 & H3). unfold clean_text.
  rewrite !(column_is_same _ f f') by (apply Hsame; simpl; auto). auto.
Qed.

Lemma clean_text_filter (m : list bool) (frame : DataFrame) :
  clean_text frame -> clean_text (frame_filter m frame).
Proof.
  intros (H1 & H2 & H3).
  repeat split; (apply column_is_filter; [intros s; apply all_elements_filter|assumption]).
Qed.

Lemma stages_text : establishes (fun _ => True) clean_text stages.
Proof.
  apply (establishes_stages _ (fun _ => True) clean_text clean_text).
  - apply establishes_in_object. auto.
  - unfold _clean_data.
    apply (establishes_compose _ (fun _ => True) _).
    + apply establishes_drop_missing. auto.
    + apply establishes_in_object_ok. intros frame frame' _.
      apply clean_text_body_ok.
  - apply establishes_in_object. intros frame H.
    destruct (untouched_engineer_features frame) as [_ Hc].
    apply (clean_text_same frame); auto. intros c Hin. apply Hc.
    unfold engineered_columns.
    destruct Hin as [<-|[<-|[<-|[]]]]; simpl; intuition discriminate.
  - apply establishes_remove_duplicates. intros m frame. apply clean_text_filter.
Qed.

(** X13. In the dataset that [transform_reddit_posts] returns for a dataset
    that is not empty, every title and every selftext that is a string is
    not the empty string and has no white space at either end: it was
    stripped, and what was blank became null. *)
Theorem transform_trims_text (df : loc) (w : World) (out : loc) (w' : World) :
  frame_empty (nth df (heap w) empty_frame) = false ->
  transform_reddit_posts df w = (Ok out, w') ->
  column_is (all_elements trimmed) (nth out (heap w') empty_frame) "title" = true /\
  column_is (all_elements trimmed) (nth out (heap w') empty_frame) "selftext" = true.
Proof.
  intros Hne Hrun.
  destruct (transform_establishes (fun _ => True) clean_text df w out w'
              stages_text Hne I Hrun) as (H1 & H2 & _).
  split; assumption.
Qed.

Lemma transform_trims_text_witness :
  column_is (all_elements trimmed)
    (nth 4%nat (heap (snd (transform_reddit_posts 0%nat
       (Examples.world [Examples.deleted_author_frame] Examples.noon)))) empty_frame)
    "title" = true.
Proof.
  apply (transform_trims_text 0%nat
           (Examples.world [Examples.deleted_author_frame] Examples.noon) 4%nat).
  - reflexivity.
  - vm_compute. reflexivity.
Defined.

(** X14. In the dataset that [transform_reddit_posts] returns for a dataset
    that is not empty, no author is '[deleted]', '[removed]' or 'nan': the
    cleaning stage made them null, and no later stage brings them back. *)
Theorem transform_hides_deleted_authors (df : loc) (w : World) (out : loc) (w' : World) :
  frame_empty (nth df (heap w) empty_frame) = false ->
  transform_reddit_posts df w = (Ok out, w') ->
  forall author,
    get_column (nth out (heap w') empty_frame) "author" = Some author ->
    forall name, In (PStr name) (to_objects author) ->
                 name <> "[deleted]" /\ name <> "[removed]" /\ name <> "nan".
Proof.
  intros Hne Hrun author Ha name Hin.
  destruct (transform_establishes (fun _ => True) clean_text df w out w'
              stages_text Hne I Hrun) as (_ & _ & H3).
  unfold column_is in H3. rewrite Ha in H3. unfold all_elements in H3.
  rewrite forallb_forall in H3. specialize (H3 _ Hin).
  unfold named_author in H3. cbn [is_one_of mem existsb] in H3.
  apply negb_true_iff in H3. rewrite !orb_false_iff in H3.
  destruct H3 as (E1 & E2 & E3 & _).
  repeat split; intros ->; discriminate.
Qed.

Lemma transform_hides_deleted_authors_witness :
  "bob" <> "[deleted]" /\ "bob" <> "[removed]" /\ "bob" <> "nan".
Proof.
  apply (transform_hides_deleted_authors 0%nat
           (Examples.world [Examples.deleted_author_frame] Examples.noon) 4%nat
           (snd (transform_reddit_posts 0%nat
                   (Examples.world [Examples.deleted_author_frame] Examples.noon)))
           eq_refl) with (author := SObject [PNaN; PStr "bob"]).
  - vm_compute. reflexivity.
  - vm_compute. reflexivity.
  - simpl. auto.
Defined.

(** *** Feature engineering *)

Lemma nth_update_nth_other {A} (l k : nat) (x d : A) (h : list A) :
  l <> k -> nth l (update_nth k x h) d = nth l h d.
Proof.
  revert l k. induction h as [|y h IH]; intros [|l] [|k] H; simpl; auto; try congruence.
Qed.

(** X19. Feature engineering works in place and only adds. It returns, when
    it returns, the object it was given; and whether it returns or raises,
    that object keeps its rows and every column other than the six derived
    ones (title_length, title_word_count, selftext_length,
    selftext_word_count, engagement_score, popularity_category) as they
    were, no object is created, and every other object is as it was. *)
Theorem engineer_features_only_adds (df : loc) (w : World) :
  (df < List.length (heap w))%nat ->
  let frame := nth df (heap w) empty_frame in
  let w' := snd (_engineer_features df w) in
  (forall out, fst (_engineer_features df w) = Ok out -> out = df) /\
  List.length (heap w') = List.length (heap w) /\
  nrows (nth df (heap w') empty_frame) = nrows frame /\
  (forall c, ~ In c engineered_columns ->
             get_column (nth df (heap w') empty_frame) c = get_column frame c) /\
  (forall l, l <> df -> nth l (heap w') empty_frame = nth l (heap w) empty_frame).
Proof.
  intros Hdf frame w'. subst w'.
  destruct (untouched_engineer_features frame) as [Hn Hc].
  unfold _engineer_features, bind, in_object. fold frame.
  destruct (engineer_features_body frame) as [[[]|e] frame'];
    cbv beta iota; unfold ret; cbn [fst snd] in *;
    rewrite ?heap_with_heap, length_update_nth, nth_update_nth by assumption.
  - split; [intros out E; inversion E; reflexivity|].
    repeat split; auto. intros l Hl. now apply nth_update_nth_other.
  - split; [discriminate|].
    repeat split; auto. intros l Hl. now apply nth_update_nth_other.
Qed.

Lemma engineer_features_only_adds_witness :
  get_column (nth 0%nat (heap (snd (_engineer_features 0%nat
                (Examples.world [Examples.valid_frame] Examples.noon)))) empty_frame)
             "score" =
  get_column Examples.valid_frame "score".
Proof.
  apply (engineer_features_only_adds 0%nat
           (Examples.world [Examples.valid_frame] Examples.noon)).
  - simpl. lia.
  - unfold engineered_columns. simpl. intuition discriminate.
Defined.

End TransformerMore.

(** ** Export and the run *)

Module PipelineMore.
Import Spec Notions.
Import DataTransformer DataValidator RedditPipeline HeapFacts.






Lemma update_nth_alloc {A} (h : list A) (x y : A) :
  update_nth (List.length h) y (h ++ [x])%list = (h ++ [y])%list.
Proof. induction h as [|z h IH]; simpl; [reflexivity|now rewrite IH]. Qed.

(** *** Export *)

Lemma prepare_for_export_eq (df : loc) (format : string) (w : World) :
  let frame := nth df (heap w) empty_frame in
  prepare_for_export df format w =
  (Ok (S (List.length (heap w))),
   with_heap (heap w ++
              [if String.eqb (lower format) "csv" then map_columns dt_strftime frame
               else frame;
               export_of format frame])%list w).
Proof.
  intros frame. unfold prepare_for_export, export_of.
  rewrite (bind_ok _ _ _ _ _ (load_eq _ _)).
  rewrite (bind_ok _ _ _ _ _ (TransformerMore.alloc_frame _ _)). fold frame.
  destruct (String.eqb (lower format) "csv").
  - unfold bind at 1. unfold in_object.
    rewrite heap_with_heap, nth_alloc, update_nth_alloc. cbn [fst snd].
    rewrite (bind_ok _ _ _ _ _ (load_eq _ _)).
    rewrite heap_with_heap, nth_alloc, TransformerMore.alloc_frame, heap_with_heap.
    rewrite length_app, <- app_assoc. cbn [List.length app].
    rewrite Nat.add_1_r. reflexivity.
  - unfold bind at 1. unfold ret at 1.
    rewrite (bind_ok _ _ _ _ _ (load_eq _ _)).
    rewrite heap_with_heap, nth_alloc, TransformerMore.alloc_frame, heap_with_heap.
    rewrite length_app, <- app_assoc. cbn [List.length app].
    rewrite Nat.add_1_r. reflexivity.
Qed.

Lemma existsb_map {A B} (p : B -> bool) (f : A -> B) (l : list A) :
  existsb p (map f l) = existsb (fun x => p (f x)) l.
Proof. induction l as [|x l IH]; simpl; [reflexivity|now rewrite IH]. Qed.

Lemma existsb_none {A} (p : A -> bool) (l : list A) :
  (forall x, p x = false) -> existsb p l = false.
Proof. intros H. induction l as [|x l IH]; simpl; [reflexivity|now rewrite H]. Qed.

Lemma infer_blank_datetime (l : list pyobj) :
  is_sdatetime (infer_objects (map blank_null l)) = false.
Proof.
  unfold infer_objects.
  destruct (existsb is_plain_object (map blank_null l)); [reflexivity|].
  assert (Hnat : existsb is_pnat (map blank_null l) = false).
  { rewrite existsb_map. apply existsb_none. intros v. destruct v; reflexivity. }
  rewrite Hnat.
  destruct (existsb is_pbool (map blank_null l)).
  { destruct (forallb is_pbool (map blank_null l)); reflexivity. }
  destruct (existsb is_pnone (map blank_null l) || existsb is_pnan (map blank_null l)).
  { destruct (existsb is_pfloat (map blank_null l)
              || existsb is_pint (map blank_null l)
              || existsb is_pnan (map blank_null l)); reflexivity. }
  destruct (existsb is_pfloat (map blank_null l)); [reflexivity|].
  destruct (existsb is_pint (map blank_null l)); reflexivity.
Qed.

(** Filling the nulls of a column never makes it a datetime column. *)
Lemma fill_blank_datetime (s : Series) :
  is_sdatetime s = false -> is_sdatetime (fill_blank s) = false.
Proof.
  intros H. unfold fill_blank.
  destruct s; try discriminate;
    (destruct (existsb (fun b => b) (isnull _)); [apply infer_blank_datetime|exact H]).
Qed.

Lemma dt_strftime_datetime (s : Series) : is_sdatetime (dt_strftime s) = false.
Proof. destruct s; reflexivity. Qed.

Lemma column_names_map (f : Series -> Series) (frame : DataFrame) :
  column_names (map_columns f frame) = column_names frame.
Proof.
  unfold column_names, map_columns. cbn [columns]. rewrite map_map. reflexivity.
Qed.

Lemma get_column_map (f : Series -> Series) (frame : DataFrame) (c : string) :
  get_column (map_columns f frame) c = option_map f (get_column frame c).
Proof. unfold get_column, map_columns. cbn [columns]. apply DedupFacts.lookup_map. Qed.

(** X10. [prepare_for_export] never raises and returns a new DataFrame:
    every DataFrame that existed before the call, the caller's included,
    is left as it was, and nothing is written. The new frame has the rows
    and the column names of the caller's, in their order; and when the
    format is 'csv', in any letter case, none of its columns is a datetime
    column any more. *)
Theorem prepare_for_export_keeps_shape (df : loc) (format : string) (w : World) :
  let frame := nth df (heap w) empty_frame in
  exists out w',
    prepare_for_export df format w = (Ok out, w') /\
    (List.length (heap w) <= out < List.length (heap w'))%nat /\
    firstn (List.length (heap w)) (heap w') = heap w /\
    with_heap (heap w') w = w' /\
    nrows (nth out (heap w') empty_frame) = nrows frame /\
    column_names (nth out (heap w') empty_frame) = column_names frame /\
    (lower format = "csv" ->
     forall c s, get_column (nth out (heap w') empty_frame) c = Some s ->
                 is_sdatetime s = false).
Proof.
  intros frame. eexists. eexists.
  split; [apply prepare_for_export_eq|]. fold frame.
  rewrite heap_with_heap.
  assert (Hout : forall x y : DataFrame,
             nth (S (List.length (heap w))) (heap w ++ [x; y])%list empty_frame = y).
  { intros x y. rewrite app_nth2 by lia.
    replace (S (List.length (heap w)) - List.length (heap w))%nat with 1%nat by lia.
    reflexivity. }
  rewrite Hout.
  split; [rewrite length_app; simpl; lia|].
  split; [rewrite firstn_app, Nat.sub_diag, firstn_all; cbn [firstn]; apply app_nil_r|].
  split; [reflexivity|].
  split; [unfold export_of; destruct (String.eqb (lower format) "csv"); reflexivity|].
  split.
  - unfold export_of. rewrite column_names_map.
    destruct (String.eqb (lower format) "csv"); [apply column_names_map|reflexivity].
  - intros Hcsv c s. unfold export_of.
    assert (E0 : String.eqb (lower format) "csv" = true) by (rewrite Hcsv; reflexivity).
    rewrite E0, !get_column_map.
    destruct (get_column frame c) as [s0|]; cbn [option_map]; [|discriminate].
    intros E. inversion E. apply fill_blank_datetime, dt_strftime_datetime.
Qed.

(** *** The run *)






(** A write that stops after the first row: the run raises, and the file,
    cut short, is left in place; and a file name that is an absolute path
    is written where it says, not under the output directory. *)
Example run_interrupted_write :
  let w := mkWorld [] Examples.noon (reddit Examples.text_world) [] [] "data/output"
             (fun path => if String.eqb path "data/output/out.csv"
                          then Some (Interrupted 0 (Exn OSError "No space left on device"))
                          else None) [] in
  let r := run ["python"] "all" None "top" (Some "out") true true w in
  fst r = Raise (Exn RedditPipelineException
                     "Pipeline execution failed: No space left on device") /\
  map fst (files (snd r)) = ["data/output/out.csv"] /\
  map (fun f => nrows (snd f)) (files (snd r)) = [0%nat] /\
  fst (run ["python"] "all" None "top" (Some "/tmp/x") true true Examples.text_world) =
  Ok "/tmp/x.csv".
Proof. repeat split; vm_compute; reflexivity. Qed.



End PipelineMore.

(** ** More on the validator *)

Module ValidatorMore.
Import Spec Notions.
Import DataValidator HeapFacts ValidatorFacts.

(** *** Schemas *)

Lemma has_column_get (frame : DataFrame) (c : string) :
  has_column frame c = match get_column frame c with Some _ => true | None => false end.
Proof.
  unfold has_column, get_column, column_names, mem.
  induction (columns frame) as [|[c' s] cols IH]; simpl; [reflexivity|].
  destruct (String.eqb c c'); auto.
Qed.

Lemma schema_errors (frame : DataFrame) (schema : list (string * string)) :
  List.concat (map (fun ct => tier_errors (schema_check frame (fst ct) (snd ct))) schema) =
  map Missing_column (filter (fun c => negb (has_column frame c)) (map fst schema)).
Proof.
  induction schema as [|[c t] schema IH]; [reflexivity|].
  cbn [map List.concat filter fst snd]. rewrite IH, has_column_get.
  unfold schema_check. destruct (get_column frame c) as [s|]; [|reflexivity].
  destruct (negb (contains t (dtype_name s))); reflexivity.
Qed.

Lemma schema_warnings (frame : DataFrame) (schema : list (string * string)) (m : message) :
  In m (List.concat (map (fun ct => tier_warnings (schema_check frame (fst ct) (snd ct)))
                         schema)) <->
  exists c t s, In (c, t) schema /\ get_column frame c = Some s /\
                contains t (dtype_name s) = false /\
                m = Type_mismatch c (dtype_name s) t.
Proof.
  rewrite in_concat. split.
  - intros (l & Hl & Hm). apply in_map_iff in Hl. destruct Hl as ([c t] & <- & Hin).
    cbn [fst snd] in Hm. unfold schema_check in Hm.
    destruct (get_column frame c) as [s|] eqn:Hs; [|destruct Hm].
    destruct (contains t (dtype_name s)) eqn:Hc; [destruct Hm|].
    destruct Hm as [<-|[]]. exists c, t, s. auto.
  - intros (c & t & s & Hin & Hs & Hc & ->).
    exists [Type_mismatch c (dtype_name s) t]. split; [|now left].
    apply in_map_iff. exists (c, t). split; [|exact Hin].
    cbn [fst snd]. unfold schema_check. now rewrite Hs, Hc.
Qed.

Lemma is_empty_map {A B} (f : A -> B) (l : list A) : is_empty (map f l) = is_empty l.
Proof. destruct l; reflexivity. Qed.

Lemma is_empty_filter_negb {A} (p : A -> bool) (l : list A) :
  is_empty (filter (fun x => negb (p x)) l) = forallb p l.
Proof.
  induction l as [|x l IH]; [reflexivity|]. cbn [filter forallb].
  destruct (p x); cbn [negb andb]; [exact IH|reflexivity].
Qed.

(** X15. [validate_schema] never raises and changes nothing. Its errors
    are "Missing column" for each column of the schema that the dataset
    lacks, in the order of the schema, and nothing else; the result is
    valid exactly when every column of the schema is there. A column whose
    dtype name does not contain the expected type gives a warning, never
    an error; and the stats are empty. *)
Theorem validate_schema_reports (self : validator) (df : loc)
    (expected_schema : list (string * string)) (w : World) :
  let frame := nth df (heap w) empty_frame in
  exists r,
    validate_schema self df expected_schema w = (Ok r, w) /\
    errors r =
    map Missing_column
        (filter (fun c => negb (has_column frame c)) (map fst expected_schema)) /\
    is_valid r = forallb (has_column frame) (map fst expected_schema) /\
    (forall m, In m (warnings r) <->
               exists c t s, In (c, t) expected_schema /\ get_column frame c = Some s /\
                             contains t (dtype_name s) = false /\
                             m = Type_mismatch c (dtype_name s) t) /\
    stats r = [].
Proof.
  intros frame. unfold validate_schema. rewrite (bind_ok _ _ _ _ _ (load_eq _ _)).
  fold frame. eexists. split; [reflexivity|]. cbn [errors is_valid warnings stats].
  rewrite errors_all_findings, warnings_all_findings, !map_map, schema_errors.
  split; [reflexivity|]. split; [|split; [|reflexivity]].
  - rewrite is_empty_map. apply is_empty_filter_negb.
  - intros m. apply schema_warnings.
Qed.

(** *** Duplicate ids *)

Lemma count_true_unique (m : list bool) :
  (0 <? count_true m)%nat = negb (forallb negb m).
Proof.
  induction m as [|b m IH]; [reflexivity|].
  rewrite DedupFacts.count_true_cons. destruct b; cbn [forallb negb andb]; [reflexivity|].
  exact IH.
Qed.

Lemma no_duplicate_in_null_loop (self : validator) (frame : DataFrame)
    (part : tier -> list message) (k : nat) :
  (part = tier_errors \/ part = tier_warnings) ->
  ~ In (Duplicate_ids k)
       (List.concat (map (fun cp => part (null_percentage_check self (fst cp) (snd cp)))
                         (null_percentages frame))).
Proof.
  intros Hpart Hin. apply in_concat in Hin. destruct Hin as (l & Hl & Hm).
  apply in_map_iff in Hl. destruct Hl as ([c p] & <- & _). cbn [fst snd] in Hm.
  unfold null_percentage_check in Hm.
  destruct p as [p|]; [|destruct Hpart as [-> | ->]; destruct Hm].
  destruct (Qgtb p (max_null_percentage self));
    [destruct Hpart as [-> | ->]; simpl in Hm; intuition discriminate|].
  destruct (Qgtb p (half_ceiling (max_null_percentage self)));
    destruct Hpart as [-> | ->]; simpl in Hm; intuition discriminate.
Qed.

Lemma quality_duplicates (self : validator) (frame : DataFrame) (ids : Series) (k : nat) :
  get_column frame "id" = Some ids ->
  (In (Duplicate_ids k) (tier_errors (quality_checks self frame)) <->
   k = count_true (duplicated ids) /\ unique ids = false /\
   require_unique_ids self = true) /\
  (In (Duplicate_ids k) (tier_warnings (quality_checks self frame)) <->
   k = count_true (duplicated ids) /\ unique ids = false /\
   require_unique_ids self = false).
Proof.
  intros Hids.
  pose proof (no_duplicate_in_null_loop self frame tier_errors k (or_introl eq_refl)) as N1.
  pose proof (no_duplicate_in_null_loop self frame tier_warnings k (or_intror eq_refl)) as N2.
  assert (R : forall part : tier -> list message,
             part = tier_errors \/ part = tier_warnings ->
             ~ In (Duplicate_ids k)
                  (part (if (Z.of_nat (nrows frame) <? min_rows self)%Z
                         then error (Too_few_rows (nrows frame) (min_rows self))
                         else no_findings))).
  { intros part Hpart H.
    destruct (Z.of_nat (nrows frame) <? min_rows self)%Z;
      destruct Hpart as [-> | ->]; simpl in H; intuition discriminate. }
  assert (T : forall part : tier -> list message,
             part = tier_errors \/ part = tier_warnings ->
             ~ In (Duplicate_ids k)
                  (part match get_column frame "title" with
                        | Some title =>
                            let empty_titles := count_empty_titles title in
                            if (0 <? empty_titles)%nat
                            then error (Empty_titles empty_titles)
                            else no_findings
                        | None => no_findings
                        end)).
  { intros part Hpart H.
    destruct (get_column frame "title") as [title|];
      [cbv zeta in H; destruct (0 <? count_empty_titles title)%nat|];
      destruct Hpart as [-> | ->]; simpl in H; intuition discriminate. }
  pose proof (R tier_errors (or_introl eq_refl)) as R1.
  pose proof (R tier_warnings (or_intror eq_refl)) as R2.
  pose proof (T tier_errors (or_introl eq_refl)) as T1.
  pose proof (T tier_warnings (or_intror eq_refl)) as T2.
  clear R T.
  unfold quality_checks.
  rewrite errors_all_findings, warnings_all_findings. cbn [map List.concat].
  rewrite errors_all_findings, warnings_all_findings, !map_map, !app_nil_r.
  rewrite Hids. cbv zeta. rewrite !in_app_iff.
  rewrite count_true_unique. fold (unique ids).
  destruct (unique ids); destruct (require_unique_ids self);
    cbn [negb andb also tier_errors tier_warnings record_stat error warning no_findings
         fst snd app In];
    split; split; intros H; try tauto;
    try (destruct H as (_ & ? & ?); discriminate);
    try (destruct H as [H|[[H|[]]|[[]|[H|H]]]]; try tauto; inversion H; auto);
    try (destruct H as (-> & _ & _); auto).
Qed.

Lemma structure_no_duplicates (frame : DataFrame) (k : nat) :
  ~ In (Duplicate_ids k) (tier_errors (structure_checks frame)) /\
  ~ In (Duplicate_ids k) (tier_warnings (structure_checks frame)).
Proof.
  unfold structure_checks.
  destruct (frame_empty frame); [split; simpl; intuition discriminate|].
  rewrite errors_all_findings, warnings_all_findings. cbn [map List.concat].
  rewrite !in_app_iff.
  destruct (filter (fun col => negb (has_column frame col)) REQUIRED_COLUMNS);
    destruct (filter (fun col => negb (mem col EXPECTED_COLUMNS)) (column_names frame));
    destruct (get_column frame "id") as [ids|];
    try destruct (negb (is_string_dtype ids));
    destruct (get_column frame "score") as [score|];
    try destruct (negb (is_numeric_dtype score));
    split; simpl; intuition discriminate.
Qed.

Lemma score_no_duplicates (frame : DataFrame) (t : tier) (k : nat) :
  score_rules frame = Ok t ->
  ~ In (Duplicate_ids k) (tier_errors t) /\ ~ In (Duplicate_ids k) (tier_warnings t).
Proof.
  unfold score_rules, rbind. intros H.
  destruct (get_column frame "score") as [s|].
  - destruct (lt_const s 0); [|discriminate]. inversion H; subst t. no_such_finding.
  - inversion H; subst t. no_such_finding.
Qed.

Lemma comment_no_duplicates (frame : DataFrame) (t : tier) (k : nat) :
  comment_rules frame = Ok t ->
  ~ In (Duplicate_ids k) (tier_errors t) /\ ~ In (Duplicate_ids k) (tier_warnings t).
Proof.
  unfold comment_rules, rbind. intros H.
  destruct (get_column frame "num_comments") as [s|].
  - destruct (lt_const s 0); [|discriminate]. inversion H; subst t. no_such_finding.
  - inversion H; subst t. no_such_finding.
Qed.

Lemma ratio_no_duplicates (frame : DataFrame) (t : tier) (k : nat) :
  ratio_rules frame = Ok t ->
  ~ In (Duplicate_ids k) (tier_errors t) /\ ~ In (Duplicate_ids k) (tier_warnings t).
Proof.
  unfold ratio_rules, rbind. intros H.
  destruct (get_column frame "upvote_ratio") as [s|].
  - destruct (lt_const s 0); [|discriminate].
    destruct (gt_const s 1); [|discriminate]. inversion H; subst t. no_such_finding.
  - inversion H; subst t. no_such_finding.
Qed.

Lemma date_no_duplicates (frame : DataFrame) (now : Z) (k : nat) :
  ~ In (Duplicate_ids k) (tier_errors (date_findings frame now)) /\
  ~ In (Duplicate_ids k) (tier_warnings (date_findings frame now)).
Proof.
  unfold date_findings.
  destruct (get_column frame "created_utc") as [[]|]; no_such_finding.
Qed.

Lemma subreddit_no_duplicates (frame : DataFrame) (k : nat) :
  ~ In (Duplicate_ids k) (tier_errors (subreddit_rules frame)) /\
  ~ In (Duplicate_ids k) (tier_warnings (subreddit_rules frame)).
Proof.
  unfold subreddit_rules.
  destruct (get_column frame "subreddit") as [s|]; [|no_such_finding].
  destruct (List.length (value_counts s)) as [|[|n]]; no_such_finding.
Qed.

Lemma business_no_duplicates (frame : DataFrame) (now : Z) (t : tier) (k : nat) :
  business_rules frame now = Ok t ->
  ~ In (Duplicate_ids k) (tier_errors t) /\ ~ In (Duplicate_ids k) (tier_warnings t).
Proof.
  unfold business_rules, rbind. intros H.
  destruct (score_rules frame) as [a|] eqn:Ha; [|discriminate].
  destruct (comment_rules frame) as [b|] eqn:Hb; [|discriminate].
  destruct (ratio_rules frame) as [c|] eqn:Hc; [|discriminate].
  inversion H; subst t.
  rewrite errors_all_findings, warnings_all_findings. cbn [map List.concat].
  rewrite !in_app_iff.
  pose proof (score_no_duplicates _ _ k Ha). pose proof (comment_no_duplicates _ _ k Hb).
  pose proof (ratio_no_duplicates _ _ k Hc). pose proof (date_no_duplicates frame now k).
  pose proof (subreddit_no_duplicates frame k).
  simpl. tauto.
Qed.

Lemma validate_duplicates (self : validator) (frame : DataFrame) (now : Z)
    (r : ValidationResult) (k : nat) :
  outcome self frame now = Ok r ->
  (In (Duplicate_ids k) (errors r) <->
   In (Duplicate_ids k) (tier_errors (quality_checks self frame))) /\
  (In (Duplicate_ids k) (warnings r) <->
   In (Duplicate_ids k) (tier_warnings (quality_checks self frame))).
Proof.
  unfold outcome. intros H.
  destruct (business_rules frame now) as [t|] eqn:Ht; [|discriminate].
  inversion H; subst r. cbn [errors warnings].
  rewrite errors_all_findings, warnings_all_findings. cbn [map List.concat].
  rewrite !in_app_iff.
  pose proof (structure_no_duplicates frame k).
  pose proof (business_no_duplicates _ _ _ k Ht).
  simpl. tauto.
Qed.

(** X16. When the dataset has an 'id' column and [validate] returns, a
    "duplicate IDs" finding with a count is among the errors exactly when
    the ids are not pairwise different, uniqueness is required and the
    count is the number of rows that repeat an earlier id; it is among
    the warnings exactly under the same conditions with uniqueness not
    required. So it is never both, and never there when the ids are
    unique. *)
Theorem duplicate_ids_severity (self : validator) (df : loc) (w w' : World)
    (ids : Series) (r : ValidationResult) :
  get_column (nth df (heap w) empty_frame) "id" = Some ids ->
  validate self df w = (Ok r, w') ->
  forall k,
    (In (Duplicate_ids k) (errors r) <->
     k = count_true (duplicated ids) /\ unique ids = false /\
     require_unique_ids self = true) /\
    (In (Duplicate_ids k) (warnings r) <->
     k = count_true (duplicated ids) /\ unique ids = false /\
     require_unique_ids self = false).
Proof.
  intros Hids Hrun k. rewrite validate_eq in Hrun. inversion Hrun as [[Hr Hw]].
  destruct (validate_duplicates self _ _ r k Hr) as [E W].
  destruct (quality_duplicates self _ ids k Hids) as [E' W'].
  rewrite E, W. split; assumption.
Qed.

(** X17. What the transformer returns passes the uniqueness check: when
    [validate], with any settings, returns for the dataset that
    [transform_reddit_posts] returned for a dataset that is not empty,
    neither its errors nor its warnings hold a "duplicate IDs" finding. *)
Theorem no_duplicates_after_transform (self : validator) (df : loc) (w : World)
    (out : loc) (w1 w2 : World) (r : ValidationResult) :
  frame_empty (nth df (heap w) empty_frame) = false ->
  DataTransformer.transform_reddit_posts df w = (Ok out, w1) ->
  validate self out w1 = (Ok r, w2) ->
  forall k, ~ In (Duplicate_ids k) (errors r) /\ ~ In (Duplicate_ids k) (warnings r).
Proof.
  intros Hne Hrun Hval k. rewrite validate_eq in Hval. inversion Hval as [[Hr Hw]].
  destruct (validate_duplicates self _ _ r k Hr) as [E W]. rewrite E, W.
  destruct (TransformerMore.transform_establishes (fun _ => True) _ df w out w1
              TransformerMore.stages_identifiers Hne I Hrun) as [_ Hu].
  unfold column_is in Hu.
  destruct (get_column (nth out (heap w1) empty_frame) "id") as [ids|] eqn:Hids.
  - destruct (quality_duplicates self _ ids k Hids) as [E' W']. rewrite E', W'.
    split; intros (_ & Hx & _); congruence.
  - unfold quality_checks.
    rewrite errors_all_findings, warnings_all_findings. cbn [map List.concat].
    rewrite errors_all_findings, warnings_all_findings, !map_map, !app_nil_r.
    rewrite Hids, !in_app_iff.
    pose proof (no_duplicate_in_null_loop self (nth out (heap w1) empty_frame)
                  tier_errors k (or_introl eq_refl)).
    pose proof (no_duplicate_in_null_loop self (nth out (heap w1) empty_frame)
                  tier_warnings k (or_intror eq_refl)).
    destruct (Z.of_nat (nrows (nth out (heap w1) empty_frame)) <? min_rows self)%Z;
      destruct (get_column (nth out (heap w1) empty_frame) "title") as [title|];
      try (cbv zeta; destruct (0 <? count_empty_titles title)%nat);
      split; simpl; intuition discriminate.
Qed.

(** *** Tiers *)

(** X18. No tier is skipped. When [validate] returns, the business tier
    has returned its findings, the errors of the result are the errors of
    the structure tier, then those of the quality tier, then those of the
    business tier, whether or not an earlier tier found errors, the
    warnings likewise, and nothing has changed. *)
Theorem validate_reports_every_tier (self : validator) (df : loc) (w w' : World)
    (r : ValidationResult) :
  let frame := nth df (heap w) empty_frame in
  validate self df w = (Ok r, w') ->
  exists business,
    business_rules frame (clock w) = Ok business /\
    errors r = (tier_errors (structure_checks frame) ++
                tier_errors (quality_checks self frame) ++
                tier_errors business)%list /\
    warnings r = (tier_warnings (structure_checks frame) ++
                  tier_warnings (quality_checks self frame) ++
                  tier_warnings business)%list /\
    w' = w.
Proof.
  intros frame Hrun. rewrite validate_eq in Hrun. fold frame in Hrun.
  assert (Hr : outcome self frame (clock w) = Ok r) by congruence.
  assert (Hw : w' = w) by congruence.
  clear Hrun. unfold outcome in Hr.
  destruct (business_rules frame (clock w)) as [b|] eqn:Hb; [|discriminate].
  exists b. split; [reflexivity|]. inversion Hr; subst r. cbn [errors warnings].
  rewrite errors_all_findings, warnings_all_findings. cbn [map List.concat].
  rewrite !app_nil_r. repeat split; auto.
Qed.

Lemma validate_reports_every_tier_witness :
  exists r business,
    outcome default_validator Examples.title_only_frame Examples.noon = Ok r /\
    errors r = (tier_errors (structure_checks Examples.title_only_frame) ++
                tier_errors (quality_checks default_validator Examples.title_only_frame) ++
                tier_errors business)%list.
Proof.
  destruct (outcome default_validator Examples.title_only_frame Examples.noon)
    as [r|e] eqn:E; [|vm_compute in E; discriminate].
  destruct (validate_reports_every_tier default_validator 0%nat
              (Examples.world [Examples.title_only_frame] Examples.noon)
              (Examples.world [Examples.title_only_frame] Examples.noon) r)
    as (business & _ & H & _).
  - rewrite validate_eq. cbn [heap clock Examples.world nth]. now rewrite E.
  - exists r, business. split; [reflexivity|exact H].
Defined.

Lemma duplicate_ids_severity_witness :
  exists r,
    outcome default_validator Examples.repeated_id_frame Examples.noon = Ok r /\
    In (Duplicate_ids 1) (errors r).
Proof.
  destruct (outcome default_validator Examples.repeated_id_frame Examples.noon)
    as [r|e] eqn:E; [|vm_compute in E; discriminate].
  exists r. split; [reflexivity|].
  apply (duplicate_ids_severity default_validator 0%nat
           (Examples.world [Examples.repeated_id_frame] Examples.noon)
           (Examples.world [Examples.repeated_id_frame] Examples.noon)
           (SObject [PStr "1"; PStr "1"; PStr "2"]) r).
  - reflexivity.
  - rewrite validate_eq. cbn [heap clock Examples.world nth]. now rewrite E.
  - repeat split; reflexivity.
Defined.

Lemma no_duplicates_after_transform_witness :
  exists r,
    fst (validate default_validator 4%nat
           (snd (DataTransformer.transform_reddit_posts 0%nat
                   (Examples.world [Examples.repeated_id_frame] Examples.noon)))) = Ok r /\
    ~ In (Duplicate_ids 1) (errors r).
Proof.
  set (w1 := snd (DataTransformer.transform_reddit_posts 0%nat
                    (Examples.world [Examples.repeated_id_frame] Examples.noon))).
  destruct (outcome default_validator (nth 4%nat (heap w1) empty_frame) (clock w1))
    as [r|e] eqn:E; [|vm_compute in E; discriminate].
  exists r. split; [rewrite validate_eq, E; reflexivity|].
  apply (no_duplicates_after_transform default_validator 0%nat
           (Examples.world [Examples.repeated_id_frame] Examples.noon) 4%nat w1 w1 r).
  - reflexivity.
  - vm_compute. reflexivity.
  - rewrite validate_eq, E. reflexivity.
Defined.

End ValidatorMore.
